(** * KPI payout engine: timesheet parsing and KPI calculation

    Shallow embedding of
      - [backend/kpi_calculator_improved.py]  (module [Improved]),
      - [backend/kpi_calculator.py]           (module [Legacy]),
      - [_archive_backend/timesheet_parser.py] (module [Parser]),
      - [backend/calendar_manager.py]         (module [CalendarManager]),
      - [validate_year_month] of [_archive_backend/utils.py]
                                              (module [Validation]),
    and the properties of the specification that concern them.

    Modelling conventions.
      - Python [int] is [Z].
      - Python [float] is [float]: a finite number, written as the exact
        rational it stands for, or one of [inf], [-inf] and [nan].  The
        special values follow IEEE 754 (a comparison with [nan] is false,
        [0 * inf] is [nan], ...).  Finite arithmetic is exact: results are
        not rounded to 53 bits and do not overflow, so a computed amount can
        differ from the one of the code in its last binary digit, which
        [round(x, 2)] can turn into one cent; the properties that compare
        amounts leave room for it.  The zero has no sign.
      - [round(x, 2)] is round-half-to-even at two decimals ([round2]).
      - Python [str] is [string] (the UTF-8 bytes of the text).  The methods
        and conversions whose meaning depends on the Unicode tables
        ([str.strip], [str.lower], [str.upper], [str.isdigit], [int(s)],
        [float(s)]) are taken through the interface [PyStr]; [ascii_PyStr]
        implements it for ASCII text.
      - [dict] is [gmap string _], [set] is [gset _], lists are lists;
        [list.append] is [l ++ [x]].
      - A raised exception is an explicit error value.
      - The [while] loops of the calendar manager take a bound on the number
        of tests of their condition; the properties show that 32 is enough
        for every month. *)

From Stdlib Require Import ZArith QArith Qround Qminmax Qabs Lia Lqa List Bool.
From Stdlib Require Import String Ascii DecimalString.
From stdpp Require Import gmap strings.

Local Open Scope Z_scope.

(** ** Numbers *)

Module Num.

(** [x < y] on rationals, as a boolean. *)
Definition Qltb (x y : Q) : bool := negb (Qle_bool y x).

(** Nearest integer, ties to the even neighbour. *)
Definition round_half_even (q : Q) : Z :=
  let f := Qfloor q in
  match Qcompare (q - inject_Z f) (1 # 2) with
  | Lt => f
  | Gt => f + 1
  | Eq => if Z.even f then f else f + 1
  end.

(** A rational rounded to two decimals, ties to even. *)
Definition Qround2 (q : Q) : Q := round_half_even (q * 100) # 100.

(** [clamp x lo hi]: the mathematical clamp used by the specification. *)
Definition clamp (x lo hi : Q) : Q := Qmax lo (Qmin x hi).

(** A Python [float]. *)
Inductive float : Type :=
| Fin (q : Q)
| PInf
| NInf
| NaN.

(** An [int] where a [float] is expected. *)
Definition of_int (z : Z) : float := Fin (inject_Z z).

(** [x < y]: false as soon as one side is [nan]. *)
Definition flt (x y : float) : bool :=
  match x, y with
  | Fin a, Fin b => Qltb a b
  | Fin _, PInf => true
  | NInf, Fin _ => true
  | NInf, PInf => true
  | _, _ => false
  end.

(** Python's [min(a, b)]: the first argument unless the second is smaller. *)
Definition py_min (a b : float) : float := if flt b a then b else a.

(** Python's [max(a, b)]: the first argument unless the second is larger. *)
Definition py_max (a b : float) : float := if flt a b then b else a.

(** The sign of a rational: [Lt], [Eq] or [Gt] as it is negative, zero or
    positive. *)
Definition Qsign (q : Q) : comparison := Qcompare q 0.

(** [x - y]. *)
Definition fsub (x y : float) : float :=
  match x, y with
  | NaN, _ | _, NaN => NaN
  | Fin a, Fin b => Fin (a - b)
  | Fin _, PInf => NInf
  | Fin _, NInf => PInf
  | PInf, PInf => NaN
  | PInf, _ => PInf
  | NInf, NInf => NaN
  | NInf, _ => NInf
  end.

(** An infinity times a number of the given sign. *)
Definition scale_inf (positive : bool) (s : comparison) : float :=
  match s with
  | Eq => NaN
  | Gt => if positive then PInf else NInf
  | Lt => if positive then NInf else PInf
  end.

(** [x * y]. *)
Definition fmul (x y : float) : float :=
  match x, y with
  | NaN, _ | _, NaN => NaN
  | Fin a, Fin b => Fin (a * b)
  | Fin a, PInf | PInf, Fin a => scale_inf true (Qsign a)
  | Fin a, NInf | NInf, Fin a => scale_inf false (Qsign a)
  | PInf, PInf | NInf, NInf => PInf
  | PInf, NInf | NInf, PInf => NInf
  end.

(** [x / y] for a divisor other than zero; the code divides by a positive
    norm and by [100.0] only, so the [ZeroDivisionError] of Python does not
    occur. *)
Definition fdiv (x y : float) : float :=
  match x, y with
  | NaN, _ | _, NaN => NaN
  | Fin a, Fin b => Fin (a / b)
  | Fin _, (PInf | NInf) => Fin 0
  | PInf, Fin b => scale_inf true (Qsign b)
  | NInf, Fin b => scale_inf false (Qsign b)
  | (PInf | NInf), (PInf | NInf) => NaN
  end.

(** Python's [round(x, 2)]: [inf], [-inf] and [nan] are returned as they
    are. *)
Definition round2 (x : float) : float :=
  match x with
  | Fin q => Fin (Qround2 q)
  | _ => x
  end.

(** [math.isnan(x)]. *)
Definition is_nan (x : float) : bool :=
  match x with NaN => true | _ => false end.

(** The two floats are the same value. *)
Definition feq (x y : float) : Prop :=
  match x, y with
  | Fin a, Fin b => (a == b)%Q
  | PInf, PInf | NInf, NInf | NaN, NaN => True
  | _, _ => False
  end.

(** [x <= y] holds: neither is [nan], and [x] is not above [y]. *)
Definition fle (x y : float) : Prop :=
  match x, y with
  | NaN, _ | _, NaN => False
  | Fin a, Fin b => (a <= b)%Q
  | NInf, _ => True
  | _, PInf => True
  | _, _ => False
  end.

(** The float is a finite number. *)
Definition finite (x : float) : Prop :=
  match x with Fin _ => True | _ => False end.

End Num.
Import Num.

Declare Scope float_scope.
Delimit Scope float_scope with F.
Notation "x == y" := (feq x y) : float_scope.
Notation "x <= y" := (fle x y) : float_scope.
Notation "x <= y <= z" := (fle x y /\ fle y z) : float_scope.

(** ** Data model *)

(** What [emp.get("workedDaysTotal")] may hold: [None], a number, or a value
    on which [float(...)] raises. *)
Inductive total_cell : Type :=
| TotalNone
| TotalNum (t : float)
| TotalBad.

(** [EmployeeData] (one attendance record). *)
Record EmployeeData : Type := mkEmployee {
  fio : string;
  letters_weekday : Z;
  letters_sat : Z;
  letters_sun : Z;
  letters_holiday : Z;
  numbers_weekday : Z;
  numbers_sat : Z;
  numbers_sun : Z;
  numbers_holiday : Z;
  worked_days_total : total_cell
}.

(** One entry of the KPI table (the roster), with the values of its keys
    ["id"], ["fio"], ["kpiSum"], ["scheduleType"], ["department"],
    ["categoryCode"]. *)
Record KpiItem : Type := mkItem {
  item_id : Z;
  item_fio : string;
  item_kpiSum : float;
  item_scheduleType : string;
  item_department : string;
  item_categoryCode : string
}.

(** [KPIInfo]. *)
Record KPIInfo : Type := mkInfo {
  info_id : Z;
  info_fio : string;
  info_kpi_sum : float;
  info_schedule_type : string;
  info_department : string;
  info_category_code : string
}.

(** [KPIResult]; department and category code are absent from the rows of the
    legacy calculator. *)
Record KPIResult : Type := mkResult {
  res_fio : string;
  res_schedule_type : string;
  res_days_assigned : Z;
  res_days_worked : float;
  res_not_worked : float;
  res_letters_weekday : Z;
  res_letters_sat : Z;
  res_letters_sun : Z;
  res_letters_holiday : Z;
  res_numbers_weekday : Z;
  res_numbers_sat : Z;
  res_numbers_sun : Z;
  res_numbers_holiday : Z;
  res_work_percent : float;
  res_kpi_sum : float;
  res_kpi_final : float;
  res_department : option string;
  res_category_code : option string
}.

(** The [type] of a [KPIError]. *)
Inductive ErrorKind : Type :=
| DUPLICATE
| NO_KPI_MAPPING
| STUDENT
| INVALID_PLAN
| CALCULATION_ERROR.

(** [KPIError]. *)
Record KPIError : Type := mkError {
  err_fio : string;
  err_type : ErrorKind;
  err_details : string
}.

(** The state of the main loop of either calculator: the lists [results] and
    [errors] and the set of names met so far ([seen_fios] in
    [KPICalculator.calculate], [seen] in the legacy function). *)
Record LoopState : Type := mkState {
  results : list KPIResult;
  errors : list KPIError;
  seen : gset string
}.

(** [errors.append(e)]. *)
Definition add_error (st : LoopState) (e : KPIError) : LoopState :=
  {| results := results st; errors := errors st ++ [e]; seen := seen st |}.

(** [results.append(r)]. *)
Definition add_result (st : LoopState) (r : KPIResult) : LoopState :=
  {| results := results st ++ [r]; errors := errors st; seen := seen st |}.

(** [seen.add(k)]. *)
Definition add_seen (st : LoopState) (k : string) : LoopState :=
  {| results := results st; errors := errors st; seen := seen st ∪ {[k]} |}.

(** What a call of the parser or of a conversion does: it returns a value,
    or raises [ValueError] with a message, or raises [OverflowError]. *)
Inductive Result (A : Type) : Type :=
| Ok (a : A)
| ValueError (msg : string)
| OverflowError.
Arguments Ok {A} a.
Arguments ValueError {A} msg.
Arguments OverflowError {A}.

(** Sequencing: the first exception ends the computation. *)
Definition rbind {A B : Type} (r : Result A) (f : A -> Result B) : Result B :=
  match r with
  | Ok a => f a
  | ValueError msg => ValueError msg
  | OverflowError => OverflowError
  end.

(** A loop that updates [a] over the elements of a list, left to right. *)
Fixpoint rfold {A B : Type} (f : A -> B -> Result A) (l : list B) (a : A)
    : Result A :=
  match l with
  | [] => Ok a
  | b :: l' => rbind (f a b) (rfold f l')
  end.

(** A loop that appends an element for some of the elements of a list. *)
Fixpoint rcollect {A B : Type} (f : A -> Result (option B)) (l : list A)
    : Result (list B) :=
  match l with
  | [] => Ok []
  | a :: l' =>
      rbind (f a) (fun b =>
      rbind (rcollect f l') (fun bs =>
      Ok (match b with Some b => b :: bs | None => bs end)))
  end.

(** ** Strings *)

(** The methods of [str] and the conversions from text whose meaning depends
    on the Unicode tables.  [py_int s] is [int(s)], an exception being an
    error value; the code converts to [int] only strings on which [isdigit]
    holds, and such a conversion can still raise (on ['²'], or on more
    digits than the interpreter allows).  [py_float s] is [float(s)], with
    [None] when it raises [ValueError], which the code catches. *)
Class PyStr : Type := {
  strip : string -> string;
  lower : string -> string;
  upper : string -> string;
  isdigit : string -> bool;
  py_int : string -> Result Z;
  py_float : string -> option float
}.

(** What the properties use of these methods: stripping a stripped string
    changes nothing. *)
Class PyStrLaws (PS : PyStr) : Prop := {
  strip_idemp : forall s, strip (strip s) = strip s
}.

(** Truth value of a string: [not s] holds for the empty string only. *)
Definition is_empty (s : string) : bool :=
  match s with EmptyString => true | _ => false end.

(** [s or d]. *)
Definition str_or (s d : string) : string := if is_empty s then d else s.

(** Operations on text that do not depend on the Unicode tables. *)
Module Text.

(** [len(s)]: the number of code points, that is of bytes that are not
    UTF-8 continuation bytes. *)
Fixpoint py_len (s : string) : Z :=
  match s with
  | EmptyString => 0
  | String c s' =>
      let n := N_of_ascii c in
      (if ((128 <=? n) && (n <? 192))%N then 0 else 1) + py_len s'
  end.

(** [s.replace(",", ".")]. *)
Fixpoint replace_comma (s : string) : string :=
  match s with
  | EmptyString => EmptyString
  | String c s' =>
      String (if Ascii.eqb c "," then "."%char else c) (replace_comma s')
  end.

(** [c in s]. *)
Fixpoint contains (c : ascii) (s : string) : bool :=
  match s with
  | EmptyString => false
  | String a s' => Ascii.eqb a c || contains c s'
  end.

(** [s.split(c)]. *)
Fixpoint split_on (c : ascii) (s : string) : list string :=
  match s with
  | EmptyString => [EmptyString]
  | String a s' =>
      if Ascii.eqb a c then EmptyString :: split_on c s'
      else match split_on c s' with
           | h :: t => String a h :: t
           | [] => [String a EmptyString]
           end
  end.

(** [str(z)] for an [int]. *)
Definition str_int (z : Z) : string := NilZero.string_of_int (Z.to_int z).

End Text.

(** The interface on ASCII text. *)
Module Ascii7.

(** [c.isspace()]: TAB..CR, FS..US and the space. *)
Definition is_space (c : ascii) : bool :=
  let n := N_of_ascii c in
  ((9 <=? n) && (n <=? 13) || (28 <=? n) && (n <=? 32))%N.

Definition lower_ascii (c : ascii) : ascii :=
  let n := N_of_ascii c in
  if ((65 <=? n) && (n <=? 90))%N then ascii_of_N (n + 32) else c.

Definition upper_ascii (c : ascii) : ascii :=
  let n := N_of_ascii c in
  if ((97 <=? n) && (n <=? 122))%N then ascii_of_N (n - 32) else c.

Fixpoint map_ascii (f : ascii -> ascii) (s : string) : string :=
  match s with
  | EmptyString => EmptyString
  | String c s' => String (f c) (map_ascii f s')
  end.

Fixpoint lstrip (s : string) : string :=
  match s with
  | EmptyString => EmptyString
  | String c s' => if is_space c then lstrip s' else s
  end.

Fixpoint rstrip (s : string) : string :=
  match s with
  | EmptyString => EmptyString
  | String c s' =>
      match rstrip s' with
      | EmptyString => if is_space c then EmptyString else String c EmptyString
      | t => String c t
      end
  end.

Definition strip7 (s : string) : string := rstrip (lstrip s).

(** A string that does not begin with a blank. *)
Definition head_ok (s : string) : Prop :=
  match s with
  | EmptyString => True
  | String c _ => is_space c = false
  end.

Definition is_digit (c : ascii) : bool :=
  let n := N_of_ascii c in ((48 <=? n) && (n <=? 57))%N.

Fixpoint all_digits (s : string) : bool :=
  match s with
  | EmptyString => true
  | String c s' => is_digit c && all_digits s'
  end.

(** [s.isdigit()]. *)
Definition isdigit7 (s : string) : bool := negb (is_empty s) && all_digits s.

Definition digit_val (c : ascii) : Z := Z.of_N (N_of_ascii c) - 48.

Fixpoint int_acc (acc : Z) (s : string) : Z :=
  match s with
  | EmptyString => acc
  | String c s' => int_acc (10 * acc + digit_val c) s'
  end.

(** The value of a string of digits. *)
Definition digits_value (s : string) : Z := int_acc 0 s.

(** The longest string of decimal digits [int] converts
    ([sys.get_int_max_str_digits()]). *)
Definition MAX_STR_DIGITS : nat := 4300.

(** [int(s)] for a string [s] of digits, the only strings the code
    converts. *)
Definition int7 (s : string) : Result Z :=
  if isdigit7 s then
    if (MAX_STR_DIGITS <? String.length s)%nat
    then ValueError
           ("Exceeds the limit (4300 digits) for integer string conversion: "
            ++ "value has " ++ Text.str_int (Z.of_nat (String.length s))
            ++ " digits; use sys.set_int_max_str_digits() "
            ++ "to increase the limit")
    else Ok (digits_value s)
  else ValueError ("invalid literal for int() with base 10: '" ++ s ++ "'").

(** A group of digits in which single underscores may separate digits: its
    digits, and what follows it. *)
Fixpoint digitpart (s : string) : string * string :=
  match s with
  | EmptyString => (EmptyString, EmptyString)
  | String c s' =>
      if is_digit c then
        match s' with
        | String u t =>
            if Ascii.eqb u "_" then
              match t with
              | String d _ =>
                  if is_digit d
                  then let '(ds, r) := digitpart t in (String c ds, r)
                  else (String c EmptyString, s')
              | EmptyString => (String c EmptyString, s')
              end
            else let '(ds, r) := digitpart s' in (String c ds, r)
        | EmptyString => (String c EmptyString, EmptyString)
        end
      else (EmptyString, s)
  end.

Definition drop_sign (s : string) : bool * string :=
  match s with
  | String c r =>
      if Ascii.eqb c "-" then (true, r)
      else if Ascii.eqb c "+" then (false, r)
      else (false, s)
  | EmptyString => (false, s)
  end.

(** The exponent part of a float literal: absent, malformed, or its value. *)
Definition exponent (s : string) : option Z :=
  match s with
  | EmptyString => Some 0
  | String c r =>
      if Ascii.eqb c "e" || Ascii.eqb c "E" then
        let '(eneg, r1) := drop_sign r in
        let '(ed, r2) := digitpart r1 in
        if is_empty ed || negb (is_empty r2) then None
        else Some (if eneg then - digits_value ed else digits_value ed)
      else None
  end.

(** The least magnitude that [float] turns into an infinity:
    [2^1024 - 2^970]. *)
Definition OVERFLOW : Q := inject_Z (2 ^ 1024 - 2 ^ 970).

(** The float of a rational: finite numbers are kept as they are. *)
Definition to_float (q : Q) : float :=
  if Qle_bool OVERFLOW q then PInf
  else if Qle_bool q (- OVERFLOW) then NInf
  else Fin q.

(** [float(s)]: an optional sign, then [inf], [infinity] or [nan] in any
    case, or a decimal literal with an optional fraction and exponent, whose
    groups of digits may hold single underscores. *)
Definition float7 (s : string) : option float :=
  let '(neg, s1) := drop_sign (strip7 s) in
  let word := map_ascii lower_ascii s1 in
  if String.eqb word "inf" || String.eqb word "infinity"
  then Some (if neg then NInf else PInf)
  else if String.eqb word "nan" then Some NaN
  else
    let '(ip, s2) := digitpart s1 in
    let '(fp, s3) :=
      match s2 with
      | String c r => if Ascii.eqb c "." then digitpart r else (EmptyString, s2)
      | EmptyString => (EmptyString, s2)
      end in
    if is_empty ip && is_empty fp then None
    else
      match exponent s3 with
      | None => None
      | Some e =>
          let mant := (inject_Z (digits_value (ip ++ fp))
                       / inject_Z (10 ^ Z.of_nat (String.length fp)))%Q in
          Some (to_float ((if neg then - mant else mant) * Qpower 10 e)%Q)
      end.

End Ascii7.

#[global] Instance ascii_PyStr : PyStr :=
  {| strip := Ascii7.strip7;
     lower := Ascii7.map_ascii Ascii7.lower_ascii;
     upper := Ascii7.map_ascii Ascii7.upper_ascii;
     isdigit := Ascii7.isdigit7;
     py_int := Ascii7.int7;
     py_float := Ascii7.float7 |}.

(** ** The improved calculator ([kpi_calculator_improved.py]) *)

Module Improved.
Section WithStr.
Context {PS : PyStr}.

(** The [KPIInfo] built from one table entry (lines 169-176);
    [float(item.get("kpiSum", 0) or 0)] leaves a [nan] as it is. *)
Definition make_info (item : KpiItem) (fio : string) : KPIInfo :=
  {| info_id := if (item_id item =? 0)%Z then 0 else item_id item;
     info_fio := fio;
     info_kpi_sum := item_kpiSum item;
     info_schedule_type := str_or (lower (strip (item_scheduleType item))) "day";
     info_department := strip (item_department item);
     info_category_code := strip (item_categoryCode item) |}.

(** [_build_kpi_map]: later entries overwrite earlier ones. *)
Definition _build_kpi_map (kpi_table : list KpiItem) : gmap string KPIInfo :=
  fold_left
    (fun kpi_map item =>
       let fio := strip (item_fio item) in
       if is_empty fio then kpi_map
       else <[lower fio := make_info item fio]> kpi_map)
    kpi_table ∅.

(** Lines 196-208 of [_calculate_day_kpi]: the worked days before rounding. *)
Definition day_days_worked (emp : EmployeeData) (days_assigned : Z)
    : float :=
  let not_worked := letters_weekday emp in
  let days_worked :=
    match worked_days_total emp with
    | TotalNum t => t
    | TotalBad => of_int (days_assigned - not_worked)
    | TotalNone => of_int (days_assigned - not_worked)
    end in
  py_max (of_int 0) (py_min days_worked (of_int days_assigned)).

(** Lines 250-254 of [_calculate_shift_kpi]. *)
Definition shift_days_worked (emp : EmployeeData) (days_assigned : Z)
    : float :=
  let effective_not_worked := letters_weekday emp + letters_sat emp in
  let days_worked := of_int (days_assigned - effective_not_worked) in
  py_max (of_int 0) (py_min days_worked (of_int days_assigned)).

(** Lines 211-212 and 257-258: the percentage before rounding. *)
Definition percent (days_worked : float) (days_assigned : Z) : float :=
  let work_percent :=
    if (0 <? days_assigned)%Z
    then fdiv (fmul days_worked (Fin 100)) (of_int days_assigned)
    else Fin 0 in
  py_max (Fin 0) (py_min (Fin 100) work_percent).

(** [_calculate_day_kpi]. *)
Definition _calculate_day_kpi (emp : EmployeeData) (kpi_info : KPIInfo)
    (days_assigned : Z) : option KPIResult :=
  if (days_assigned <=? 0)%Z then None
  else
    let days_worked := day_days_worked emp days_assigned in
    let work_percent := percent days_worked days_assigned in
    let kpi_final := fmul (fdiv work_percent (Fin 100)) (info_kpi_sum kpi_info) in
    Some {| res_fio := fio emp;
            res_schedule_type := "day";
            res_days_assigned := days_assigned;
            res_days_worked := round2 days_worked;
            res_not_worked :=
              py_max (fsub (of_int days_assigned) days_worked) (of_int 0);
            res_letters_weekday := letters_weekday emp;
            res_letters_sat := letters_sat emp;
            res_letters_sun := letters_sun emp;
            res_letters_holiday := letters_holiday emp;
            res_numbers_weekday := numbers_weekday emp;
            res_numbers_sat := numbers_sat emp;
            res_numbers_sun := numbers_sun emp;
            res_numbers_holiday := numbers_holiday emp;
            res_work_percent := round2 work_percent;
            res_kpi_sum := info_kpi_sum kpi_info;
            res_kpi_final := round2 kpi_final;
            res_department := Some (info_department kpi_info);
            res_category_code := Some (info_category_code kpi_info) |}.

(** [_calculate_shift_kpi]. *)
Definition _calculate_shift_kpi (emp : EmployeeData) (kpi_info : KPIInfo)
    (days_assigned : Z) : option KPIResult :=
  if (days_assigned <=? 0)%Z then None
  else
    let effective_not_worked := letters_weekday emp + letters_sat emp in
    let days_worked := shift_days_worked emp days_assigned in
    let work_percent := percent days_worked days_assigned in
    let kpi_final := fmul (fdiv work_percent (Fin 100)) (info_kpi_sum kpi_info) in
    Some {| res_fio := fio emp;
            res_schedule_type := "shift";
            res_days_assigned := days_assigned;
            res_days_worked := round2 days_worked;
            res_not_worked := of_int effective_not_worked;
            res_letters_weekday := letters_weekday emp;
            res_letters_sat := letters_sat emp;
            res_letters_sun := letters_sun emp;
            res_letters_holiday := letters_holiday emp;
            res_numbers_weekday := numbers_weekday emp;
            res_numbers_sat := numbers_sat emp;
            res_numbers_sun := numbers_sun emp;
            res_numbers_holiday := numbers_holiday emp;
            res_work_percent := round2 work_percent;
            res_kpi_sum := info_kpi_sum kpi_info;
            res_kpi_final := round2 kpi_final;
            res_department := Some (info_department kpi_info);
            res_category_code := Some (info_category_code kpi_info) |}.

(** Lines 143-146: the branch taken for one roster entry.  On the typed
    inputs of this model neither branch raises (a norm too large for a
    [float], beyond [2^1024], is left out), so the [except] clause of lines
    150-156 is never entered. *)
Definition branch (emp : EmployeeData) (kpi_info : KPIInfo)
    (nch_day nd_shift : Z) : option KPIResult :=
  if String.eqb (lower (info_schedule_type kpi_info)) "day"
  then _calculate_day_kpi emp kpi_info nch_day
  else _calculate_shift_kpi emp kpi_info nd_shift.

(** One iteration of the loop of [calculate] (lines 105-156). *)
Definition step (kpi_map : gmap string KPIInfo) (nch_day nd_shift : Z)
    (st : LoopState) (emp : EmployeeData) : LoopState :=
  let fio := strip (fio emp) in
  if is_empty fio then st
  else
    let fio_key := lower fio in
    if decide (fio_key ∈ seen st) then
      add_error st (mkError fio DUPLICATE "ФИО повторяется в табеле")
    else
      let st := add_seen st fio_key in
      match kpi_map !! fio_key with
      | None =>
          add_error st (mkError fio NO_KPI_MAPPING "Нет записи в KPI таблице")
      | Some kpi_info =>
          if String.eqb (strip (info_category_code kpi_info)) "4" then
            add_error st
              (mkError fio STUDENT "CategoryCode = 4 (студент), KPI не считается")
          else
            match branch emp kpi_info nch_day nd_shift with
            | Some result => add_result st result
            | None => st
            end
      end.

(** [KPICalculator.calculate]. *)
Definition calculate (employees : list EmployeeData) (kpi_table : list KpiItem)
    (nch_day nd_shift : Z) : list KPIResult * list KPIError :=
  let kpi_map := _build_kpi_map kpi_table in
  let st := fold_left (step kpi_map nch_day nd_shift) employees
              (mkState [] [] ∅) in
  (results st, errors st).

(** [calculate_kpi_for_employees] (lines 285-353), the entry point with the
    interface of the legacy function: it trims the names, hands the records
    to [KPICalculator.calculate] and returns its rows and errors as they
    are.  [year] and [month] only select the holidays kept in the
    calculator, which [calculate] never reads. *)
Definition calculate_kpi_for_employees (employees : list EmployeeData)
    (kpi_table : list KpiItem) (nch_day nd_shift year month : Z)
    : list KPIResult * list KPIError :=
  let employee_data :=
    map (fun emp =>
           {| fio := strip (fio emp);
              letters_weekday := letters_weekday emp;
              letters_sat := letters_sat emp;
              letters_sun := letters_sun emp;
              letters_holiday := letters_holiday emp;
              numbers_weekday := numbers_weekday emp;
              numbers_sat := numbers_sat emp;
              numbers_sun := numbers_sun emp;
              numbers_holiday := numbers_holiday emp;
              worked_days_total := worked_days_total emp |})
        employees in
  calculate employee_data kpi_table nch_day nd_shift.

End WithStr.
End Improved.

(** ** The legacy calculator ([kpi_calculator.py]) *)

Module Legacy.
Section WithStr.
Context {PS : PyStr}.

(** Lines 14-18: the map from lower-cased name to table entry. *)
Definition build_kpi_map (kpi_table : list KpiItem) : gmap string KpiItem :=
  fold_left
    (fun kpi_map item =>
       let key := lower (strip (item_fio item)) in
       if is_empty key then kpi_map else <[key := item]> kpi_map)
    kpi_table ∅.

(** Lines 45-47: the schedule type of a table entry. *)
Definition schedule_type_of (kpi_info : KpiItem) : string :=
  let schedule_type := lower (strip (item_scheduleType kpi_info)) in
  if String.eqb schedule_type "day" || String.eqb schedule_type "shift"
  then schedule_type else "day".

(** Lines 70-87: the worked days [fv] of the day branch. *)
Definition day_fv (emp : EmployeeData) (days_assigned : Z) : float :=
  let not_worked := letters_weekday emp in
  let fv :=
    match worked_days_total emp with
    | TotalNum t => Some t
    | TotalBad => None
    | TotalNone => None
    end in
  let fv :=
    match fv with
    | Some v => v
    | None => of_int (days_assigned - not_worked)
    end in
  let fv := if flt fv (of_int 0) then of_int 0 else fv in
  if flt (of_int days_assigned) fv then of_int days_assigned else fv.

(** Lines 123-129: [work_rate] of the shift branch. *)
Definition shift_work_rate (emp : EmployeeData) (days_assigned : Z) : Z :=
  let effective_not_worked := letters_weekday emp + letters_sat emp in
  let work_rate := days_assigned - effective_not_worked in
  let work_rate := if (work_rate <? 0)%Z then 0 else work_rate in
  if (days_assigned <? work_rate)%Z then days_assigned else work_rate.

(** Lines 89-93 and 131-135: the percentage before rounding. *)
Definition percent (worked : float) (days_assigned : Z) : float :=
  let work_percent :=
    if (0 <? days_assigned)%Z
    then fdiv (fmul worked (Fin 100)) (of_int days_assigned)
    else Fin 0 in
  let work_percent :=
    if flt (Fin 100) work_percent then Fin 100 else work_percent in
  if flt work_percent (Fin 0) then Fin 0 else work_percent.

(** Lines 69-114: the row appended for a day-schedule employee. *)
Definition day_row (fio : string) (emp : EmployeeData) (kpi_sum : float)
    (days_assigned : Z) : KPIResult :=
  let fv := day_fv emp days_assigned in
  let work_percent := percent fv days_assigned in
  let kpi_final := fmul (fdiv work_percent (Fin 100)) kpi_sum in
  {| res_fio := fio;
     res_schedule_type := "day";
     res_days_assigned := days_assigned;
     res_days_worked := fv;
     res_not_worked := py_max (fsub (of_int days_assigned) fv) (of_int 0);
     res_letters_weekday := letters_weekday emp;
     res_letters_sat := letters_sat emp;
     res_letters_sun := letters_sun emp;
     res_letters_holiday := letters_holiday emp;
     res_numbers_weekday := numbers_weekday emp;
     res_numbers_sat := numbers_sat emp;
     res_numbers_sun := numbers_sun emp;
     res_numbers_holiday := numbers_holiday emp;
     res_work_percent := round2 work_percent;
     res_kpi_sum := kpi_sum;
     res_kpi_final := round2 kpi_final;
     res_department := None;
     res_category_code := None |}.

(** Lines 122-156: the row appended for a shift-schedule employee. *)
Definition shift_row (fio : string) (emp : EmployeeData) (kpi_sum : float)
    (days_assigned : Z) : KPIResult :=
  let effective_not_worked := letters_weekday emp + letters_sat emp in
  let work_rate := shift_work_rate emp days_assigned in
  let work_percent := percent (of_int work_rate) days_assigned in
  let kpi_final := fmul (fdiv work_percent (Fin 100)) kpi_sum in
  {| res_fio := fio;
     res_schedule_type := "shift";
     res_days_assigned := days_assigned;
     res_days_worked := of_int work_rate;
     res_not_worked := of_int effective_not_worked;
     res_letters_weekday := letters_weekday emp;
     res_letters_sat := letters_sat emp;
     res_letters_sun := letters_sun emp;
     res_letters_holiday := letters_holiday emp;
     res_numbers_weekday := numbers_weekday emp;
     res_numbers_sat := numbers_sat emp;
     res_numbers_sun := numbers_sun emp;
     res_numbers_holiday := numbers_holiday emp;
     res_work_percent := round2 work_percent;
     res_kpi_sum := kpi_sum;
     res_kpi_final := round2 kpi_final;
     res_department := None;
     res_category_code := None |}.

(** One iteration of the loop (lines 24-156). *)
Definition step (kpi_map : gmap string KpiItem) (nch_day nd_shift : Z)
    (st : LoopState) (emp : EmployeeData) : LoopState :=
  let fio := strip (fio emp) in
  if is_empty fio then st
  else
    let fio_key := lower fio in
    if decide (fio_key ∈ seen st) then
      add_error st (mkError fio DUPLICATE "ФИО повторяется в табеле")
    else
      let st := add_seen st fio_key in
      match kpi_map !! fio_key with
      | None =>
          add_error st (mkError fio NO_KPI_MAPPING "Нет записи в KPI таблице")
      | Some kpi_info =>
          if String.eqb (strip (item_categoryCode kpi_info)) "4" then
            add_error st
              (mkError fio STUDENT "CategoryCode = 4 (студент), KPI не считается")
          else
            let schedule_type := schedule_type_of kpi_info in
            let kpi_sum := item_kpiSum kpi_info in
            if String.eqb schedule_type "day" then
              let days_assigned := nch_day in
              if (days_assigned <=? 0)%Z then
                add_error st
                  (mkError fio INVALID_PLAN "Н.ч (назначено дней) <= 0")
              else add_result st (day_row fio emp kpi_sum days_assigned)
            else
              let days_assigned := nd_shift in
              if (days_assigned <=? 0)%Z then
                add_error st
                  (mkError fio INVALID_PLAN "Н.д (назначено суточных) <= 0")
              else add_result st (shift_row fio emp kpi_sum days_assigned)
      end.

(** [calculate_kpi_for_employees]. *)
Definition calculate_kpi_for_employees (employees : list EmployeeData)
    (kpi_table : list KpiItem) (nch_day nd_shift : Z)
    : list KPIResult * list KPIError :=
  let kpi_map := build_kpi_map kpi_table in
  let st := fold_left (step kpi_map nch_day nd_shift) employees
              (mkState [] [] ∅) in
  (results st, errors st).

End WithStr.
End Legacy.

(** ** The timesheet parser ([timesheet_parser.py]) *)

(** [datetime.date]: the proleptic Gregorian calendar of Python. *)
Module Calendar.

Definition is_leap (year : Z) : bool :=
  (year mod 4 =? 0) && (negb (year mod 100 =? 0) || (year mod 400 =? 0)).

Definition days_in_month (year month : Z) : Z :=
  match month with
  | 1 => 31 | 2 => if is_leap year then 29 else 28 | 3 => 31 | 4 => 30
  | 5 => 31 | 6 => 30 | 7 => 31 | 8 => 31 | 9 => 30 | 10 => 31 | 11 => 30
  | 12 => 31
  | _ => 0
  end.

(** Number of days before January 1st of [year]. *)
Definition days_before_year (year : Z) : Z :=
  let y := year - 1 in y * 365 + y / 4 - y / 100 + y / 400.

(** Number of days of [year] before the first day of [month]. *)
Definition days_before_month (year month : Z) : Z :=
  fold_left (fun acc m => acc + days_in_month year (Z.of_nat m))
    (seq 1 (Z.to_nat (month - 1))) 0.

(** The triples that are dates of the calendar: years 1 to 9999. *)
Definition valid_date (year month day : Z) : bool :=
  (1 <=? year) && (year <=? 9999) && (1 <=? month) && (month <=? 12)
  && (1 <=? day) && (day <=? days_in_month year month).

(** The day of the week of a date of the calendar (Monday is 0, Sunday is
    6); [None] for a triple that is not a date. *)
Definition weekday (year month day : Z) : option Z :=
  if valid_date year month day
  then Some ((days_before_year year + days_before_month year month + day + 6)
             mod 7)
  else None.

(** The values of a C [int], to which the constructor [date] converts each
    of its arguments. *)
Definition fits_c_int (z : Z) : bool := (- 2 ^ 31 <=? z) && (z <? 2 ^ 31).

(** The three arguments of [date] are C [int]s. *)
Definition c_ints (year month day : Z) : bool :=
  fits_c_int year && fits_c_int month && fits_c_int day.

(** What the call [date(year, month, day)] does. *)
Inductive DateCall : Type :=
| IsDate
| RaisesValueError
| RaisesOverflowError.

(** [date(year, month, day)]: an argument that is no C [int] raises
    [OverflowError]; three C [int]s that are not a date raise
    [ValueError]. *)
Definition date_call (year month day : Z) : DateCall :=
  if c_ints year month day then
    if valid_date year month day then IsDate else RaisesValueError
  else RaisesOverflowError.

End Calendar.

Module Parser.
Import Text.

(** The value of a spreadsheet cell as pandas hands it over: the float NaN
    of an empty cell, a text, an [int], or another float given by the text
    [str(v)] that Python prints for it. *)
Inductive cell : Type :=
| CNaN
| CStr (s : string)
| CInt (z : Z)
| CFloat (text : string).

(** [str(v)]. *)
Definition cell_str (v : cell) : string :=
  match v with
  | CNaN => "nan"
  | CStr s => s
  | CInt z => str_int z
  | CFloat text => text
  end.

(** [pd.read_excel(file_storage, header=None)]: rows [0..], columns [0..]. *)
Definition DataFrame : Type := list (list cell).

(** [pd.read_excel(file_storage)]: the column labels taken from the first
    row, and the rows below it. *)
Record HeaderFrame : Type := mkHeaderFrame {
  columns : list cell;
  body : list (list cell)
}.

(** The uploaded file, through the two readings the parser makes of it. *)
Record Workbook : Type := mkWorkbook {
  read_raw : DataFrame;
  read_with_header : HeaderFrame
}.

(** One element of the [holidays] argument. *)
Inductive holiday_item : Type :=
| HNone
| HInt (z : Z)
| HStr (s : string).

(** The type of a day: ['weekday' | 'sat' | 'sun' | 'holiday']. *)
Inductive DayKind : Type :=
| Weekday
| Sat
| Sun
| Holiday.

Definition KZ_HEADER : string := "АТЫ-жөні (толығымен)".
Definition TOTAL_DAYS : string := "өтелген күндер жиынтығы".
Definition EMPLOYEE : string := "Сотрудник".

(** [_classify_day]: the [ValueError] of [date] is caught, its
    [OverflowError] is not. *)
Definition _classify_day (year month day_num : Z) (holiday_days : gset Z)
    : Result DayKind :=
  if decide (day_num ∈ holiday_days) then Ok Holiday
  else
    match Calendar.date_call year month day_num with
    | Calendar.RaisesOverflowError => OverflowError
    | Calendar.RaisesValueError => Ok Weekday
    | Calendar.IsDate =>
        match Calendar.weekday year month day_num with
        | None => Ok Weekday
        | Some wd =>
            if (wd =? 5)%Z then Ok Sat
            else if (wd =? 6)%Z then Ok Sun
            else Ok Weekday
        end
    end.

(** The first position of a list whose element satisfies [p]. *)
Fixpoint find_index {A : Type} (p : A -> bool) (l : list A) : option nat :=
  match l with
  | [] => None
  | x :: l' => if p x then Some O else option_map S (find_index p l')
  end.

(** The counter incremented for a populated cell (lines 217-234). *)
Definition bump (is_number : bool) (day_type : DayKind) (e : EmployeeData)
    : EmployeeData :=
  let inc (b : bool) (n : Z) : Z := if b then n + 1 else n in
  let on (k : DayKind) : bool :=
    match k, day_type with
    | Weekday, Weekday | Sat, Sat | Sun, Sun | Holiday, Holiday => true
    | _, _ => false
    end in
  {| fio := fio e;
     letters_weekday := inc (negb is_number && on Weekday) (letters_weekday e);
     letters_sat := inc (negb is_number && on Sat) (letters_sat e);
     letters_sun := inc (negb is_number && on Sun) (letters_sun e);
     letters_holiday := inc (negb is_number && on Holiday) (letters_holiday e);
     numbers_weekday := inc (is_number && on Weekday) (numbers_weekday e);
     numbers_sat := inc (is_number && on Sat) (numbers_sat e);
     numbers_sun := inc (is_number && on Sun) (numbers_sun e);
     numbers_holiday := inc (is_number && on Holiday) (numbers_holiday e);
     worked_days_total := worked_days_total e |}.

(** A fresh record with all counters at zero. *)
Definition blank_employee (name : string) : EmployeeData :=
  mkEmployee name 0 0 0 0 0 0 0 0 TotalNone.

(** [out.add(d)] under the guard [1 <= d <= 31]. *)
Definition add_day (out : gset Z) (d : Z) : gset Z :=
  if (1 <=? d) && (d <=? 31) then out ∪ {[d]} else out.

Section WithStr.
Context {PS : PyStr}.

(** Lines 33-39: the ISO date [s], if it is one: [None] when the inner test
    fails and the loop falls through to the test of line 42. *)
Definition iso_date (s : string) : Result (option (Z * Z * Z)) :=
  if (8 <=? py_len s) && contains "-" s then
    match split_on "-" (hd EmptyString (split_on "T" s)) with
    | [p0; p1; p2] =>
        if isdigit p0 && isdigit p1 && isdigit p2 then
          rbind (py_int p0) (fun y =>
          rbind (py_int p1) (fun m =>
          rbind (py_int p2) (fun d => Ok (Some (y, m, d)))))
        else Ok None
    | _ => Ok None
    end
  else Ok None.

(** One iteration of the loop of [_normalize_holidays] (lines 20-45). *)
Definition normalize_step (year month : Z) (out : gset Z) (h : holiday_item)
    : Result (gset Z) :=
  match h with
  | HNone => Ok out
  | HInt z => Ok (add_day out z)
  | HStr s0 =>
      let s := strip s0 in
      if is_empty s then Ok out
      else
        rbind (iso_date s) (fun iso =>
        match iso with
        | Some (y, m, d) =>
            Ok (if (y =? year) && (m =? month) then add_day out d else out)
        | None =>
            if isdigit s then rbind (py_int s) (fun d => Ok (add_day out d))
            else Ok out
        end)
  end.

(** [_normalize_holidays]. *)
Definition _normalize_holidays (holidays : option (list holiday_item))
    (year month : Z) : Result (gset Z) :=
  match holidays with
  | None => Ok ∅
  | Some hs => rfold (normalize_step year month) hs ∅
  end.

Definition is_kz_header_cell (v : cell) : bool :=
  String.eqb (strip (cell_str v)) KZ_HEADER.

(** [_has_kz_header]. *)
Definition _has_kz_header (df : DataFrame) : bool :=
  existsb (fun row => existsb is_kz_header_cell row) df.

(** [_try_float]; the argument is [None], or a cell value.  The float NaN is
    turned away; a text that [float] reads as [nan] is not. *)
Definition _try_float (val : option cell) : option float :=
  match val with
  | None => None
  | Some CNaN => None
  | Some v =>
      let s := replace_comma (strip (cell_str v)) in
      if is_empty s then None else py_float s
  end.

(** [_find_cell]: the first cell, over the rows of [search_rows] that exist,
    holding the text [text] up to case and surrounding blanks. *)
Definition _find_cell (df : DataFrame) (text : string) (search_rows : list nat)
    : option (nat * nat) :=
  let target := lower (strip text) in
  fold_left
    (fun found r =>
       match found with
       | Some _ => found
       | None =>
           match nth_error df r with
           | None => None
           | Some row =>
               option_map (fun c => (r, c))
                 (find_index
                    (fun v => match v with
                              | CStr t => String.eqb (lower (strip t)) target
                              | _ => false
                              end)
                    row)
           end
       end)
    search_rows None.

(** Lines 203-234 and 272-302: one day cell of one employee row. *)
Definition count_cell (year month : Z) (holiday_days : gset Z)
    (e : EmployeeData) (val : option cell) (day_num : Z)
    : Result EmployeeData :=
  match val with
  | None => Ok e
  | Some CNaN => Ok e
  | Some v =>
      let val_str := strip (cell_str v) in
      if is_empty val_str || String.eqb val_str "-"
         || String.eqb (upper val_str) "В"
      then Ok e
      else
        rbind (_classify_day year month day_num holiday_days) (fun day_type =>
        let num := _try_float (Some (CStr val_str)) in
        let is_number := match num with Some _ => true | None => false end in
        Ok (bump is_number day_type e))
  end.

(** The loop over [day_cols] for one row. *)
Definition count_row (year month : Z) (holiday_days : gset Z)
    (day_cols : list (nat * Z)) (row : list cell) (e : EmployeeData)
    : Result EmployeeData :=
  rfold
    (fun e '(col, day_num) =>
       count_cell year month holiday_days e (nth_error row col) day_num)
    day_cols e.

(** Lines 179-183: the pairs (column, day number) of the day header row. *)
Definition kz_day_cols (day_header : list cell) : Result (list (nat * Z)) :=
  rcollect (fun '(col, v) =>
              let s := strip (cell_str v) in
              if isdigit s
              then rbind (py_int s) (fun d => Ok (Some (col, d)))
              else Ok None)
           (combine (seq 0 (length day_header)) day_header).

(** Lines 190-251: the record of one row below the day header, if any. *)
Definition kz_row (year month : Z) (holiday_days : gset Z) (fio_col : nat)
    (day_cols : list (nat * Z)) (total_days_col : option nat)
    (row : list cell) : Result (option EmployeeData) :=
  match nth_error row fio_col with
  | None => Ok None
  | Some CNaN => Ok None
  | Some fio_raw =>
      let fio := strip (cell_str fio_raw) in
      if is_empty fio || String.eqb fio KZ_HEADER then Ok None
      else
        rbind (count_row year month holiday_days day_cols row
                 (blank_employee fio)) (fun e =>
        let worked_days_total :=
          match total_days_col with
          | None => None
          | Some c => _try_float (nth_error row c)
          end in
        Ok (Some {| fio := fio;
                    letters_weekday := letters_weekday e;
                    letters_sat := letters_sat e;
                    letters_sun := letters_sun e;
                    letters_holiday := letters_holiday e;
                    numbers_weekday := numbers_weekday e;
                    numbers_sat := numbers_sat e;
                    numbers_sun := numbers_sun e;
                    numbers_holiday := numbers_holiday e;
                    worked_days_total :=
                      match worked_days_total with
                      | Some t => TotalNum t
                      | None => TotalNone
                      end |}))
  end.

(** [_parse_kz_template]. *)
Definition _parse_kz_template (df : DataFrame) (year month : Z)
    (holiday_days : gset Z) : Result (list EmployeeData) :=
  match find_index (existsb is_kz_header_cell) df with
  | None => ValueError "Не найден заголовок 'АТЫ-жөні (толығымен)' в табеле."
  | Some header_row_idx =>
      let header_row := nth header_row_idx df [] in
      match find_index is_kz_header_cell header_row with
      | None =>
          ValueError
            "Не удалось определить колонку с ФИО ('АТЫ-жөні (толығымен)')."
      | Some fio_col =>
          let day_header_idx := S header_row_idx in
          match nth_error df day_header_idx with
          | None => ValueError "В табеле нет строки с днями после заголовка."
          | Some day_header =>
              rbind (kz_day_cols day_header) (fun day_cols =>
              let found :=
                _find_cell df TOTAL_DAYS
                  (seq (header_row_idx - 2) (header_row_idx + 5
                                             - (header_row_idx - 2))) in
              let total_days_col := option_map snd found in
              rcollect (kz_row year month holiday_days fio_col day_cols
                          total_days_col)
                (skipn (S day_header_idx) df))
          end
      end
  end.

(** Lines 258-261: the day columns of the flat layout. *)
Definition simple_day_cols (cols : list cell) : Result (list (nat * Z)) :=
  rcollect (fun '(i, col) =>
              match col with
              | CStr c =>
                  if (py_len c =? 2)%Z && isdigit c
                  then rbind (py_int c) (fun d => Ok (Some (i, d)))
                  else Ok None
              | _ => Ok None
              end)
           (combine (seq 0 (length cols)) cols).

Definition is_employee_label (col : cell) : bool :=
  match col with
  | CStr c => String.eqb c EMPLOYEE
  | _ => false
  end.

(** Lines 264-315: the record of one row of the flat layout, if any. *)
Definition simple_row (year month : Z) (holiday_days : gset Z)
    (name_col : option nat) (day_cols : list (nat * Z)) (row : list cell)
    : Result (option EmployeeData) :=
  let name :=
    match name_col with
    | None => EmptyString
    | Some c => match nth_error row c with
                | Some v => cell_str v
                | None => EmptyString
                end
    end in
  let fio := strip name in
  if is_empty fio then Ok None
  else rbind (count_row year month holiday_days day_cols row
                (blank_employee fio)) (fun e => Ok (Some e)).

(** [_parse_simple_template]. *)
Definition _parse_simple_template (df : HeaderFrame) (year month : Z)
    (holiday_days : gset Z) : Result (list EmployeeData) :=
  rbind (simple_day_cols (columns df)) (fun day_cols =>
  rcollect (simple_row year month holiday_days
              (find_index is_employee_label (columns df)) day_cols)
    (body df)).

(** [parse_timesheet_from_excel]. *)
Definition parse_timesheet_from_excel (file_storage : Workbook)
    (year month : Z) (holidays : option (list holiday_item))
    : Result (list EmployeeData) :=
  rbind (_normalize_holidays holidays year month) (fun holiday_days =>
  let df := read_raw file_storage in
  if _has_kz_header df then _parse_kz_template df year month holiday_days
  else
    let df2 := read_with_header file_storage in
    if existsb is_employee_label (columns df2)
    then _parse_simple_template df2 year month holiday_days
    else
      ValueError
        ("Не удалось определить формат табеля. "
         ++ "Нет ни заголовка 'АТЫ-жөні (толығымен)', ни колонки 'Сотрудник'.")).

End WithStr.
End Parser.

(** ** Request validation ([utils.py]) *)

Module Validation.

Definition MIN_YEAR : Z := 2000.
Definition MAX_YEAR : Z := 2100.

(** [validate_year_month]: [Ok tt] when it returns. *)
Definition validate_year_month (year month : Z) : Result unit :=
  if negb ((MIN_YEAR <=? year) && (year <=? MAX_YEAR))
  then ValueError ("Год должен быть между " ++ Text.str_int MIN_YEAR
                   ++ " и " ++ Text.str_int MAX_YEAR)
  else if negb ((1 <=? month) && (month <=? 12))
  then ValueError "Месяц должен быть от 1 до 12"
  else Ok tt.

End Validation.

(** ** The calendar manager ([calendar_manager.py]) *)

Module CalendarManager.
Import Calendar.

(** A [datetime.date]: year, month and day. *)
Definition date : Type := Z * Z * Z.

Definition date_year (d : date) : Z := d.1.1.
Definition date_month (d : date) : Z := d.1.2.
Definition date_day (d : date) : Z := d.2.

(** The exceptions of [datetime]. *)
Inductive Exn : Type := ValueErr | OverflowErr.

(** What a call does: it returns a value, raises, or is a loop cut short by
    the bound on its number of iterations. *)
Inductive Run (A : Type) : Type :=
| Returns (a : A)
| Raises (e : Exn)
| OutOfFuel.
Arguments Returns {A} a.
Arguments Raises {A} e.
Arguments OutOfFuel {A}.

Definition bind {A B : Type} (r : Run A) (f : A -> Run B) : Run B :=
  match r with
  | Returns a => f a
  | Raises e => Raises e
  | OutOfFuel => OutOfFuel
  end.

(** [date(year, month, day)]. *)
Definition new_date (year month day : Z) : Run date :=
  match date_call year month day with
  | IsDate => Returns (year, month, day)
  | RaisesValueError => Raises ValueErr
  | RaisesOverflowError => Raises OverflowErr
  end.

(** [d.toordinal()]: 1 for 1 January of year 1. *)
Definition toordinal (d : date) : Z :=
  days_before_year (date_year d)
  + days_before_month (date_year d) (date_month d) + date_day d.

(** [d.weekday()]. *)
Definition date_weekday (d : date) : Z := (toordinal d + 6) mod 7.

(** [d + timedelta(days=1)]. *)
Definition plus_one_day (d : date) : Run date :=
  let '(y, m, dd) := d in
  if dd <? days_in_month y m then Returns (y, m, dd + 1)
  else if m <? 12 then Returns (y, m + 1, 1)
  else if y <? 9999 then Returns (y + 1, 1, 1)
  else Raises OverflowErr.

(** [d - timedelta(days=1)]. *)
Definition minus_one_day (d : date) : Run date :=
  let '(y, m, dd) := d in
  if 1 <? dd then Returns (y, m, dd - 1)
  else if 1 <? m then Returns (y, m - 1, days_in_month y (m - 1))
  else if 1 <? y then Returns (y - 1, 12, 31)
  else Raises OverflowErr.

(** [a <= b] on dates. *)
Definition date_le (a b : date) : bool :=
  let '(y1, m1, d1) := a in
  let '(y2, m2, d2) := b in
  (y1 <? y2)
  || ((y1 =? y2) && ((m1 <? m2) || ((m1 =? m2) && (d1 <=? d2)))).

(** [str(n).zfill(width)] for a number that is not negative. *)
Definition zfill (width : nat) (n : Z) : string :=
  let s := Text.str_int n in
  string_of_list_ascii (repeat "0"%char (width - String.length s)) ++ s.

(** [d.isoformat()]. *)
Definition isoformat (d : date) : string :=
  zfill 4 (date_year d) ++ "-" ++ zfill 2 (date_month d) ++ "-"
  ++ zfill 2 (date_day d).

(** The values of [get_day_type]. *)
Inductive DayType : Type := workday | weekend | holiday.

(** An element of the list of [get_days_in_month]. *)
Record DayEntry : Type := mkDay {
  entry_date : string;
  entry_day : Z;
  entry_type : DayType;
  entry_weekday : Z;
  entry_is_weekend : bool
}.

(** The methods take and return the set [_holidays_cache]; the file that
    [_save_holidays] rewrites after each change is not part of the state. *)

(** [add_holiday]: the returned flag and the cache afterwards. *)
Definition add_holiday (cache : gset date) (holiday_date : date)
    : bool * gset date :=
  if decide (holiday_date ∈ cache) then (false, cache)
  else (true, {[holiday_date]} ∪ cache).

(** [remove_holiday]. *)
Definition remove_holiday (cache : gset date) (holiday_date : date)
    : bool * gset date :=
  if decide (holiday_date ∈ cache) then (true, cache ∖ {[holiday_date]})
  else (false, cache).

(** The test of the loop of [get_holidays]: neither [continue] is taken. *)
Definition kept (year month : option Z) (h : date) : bool :=
  negb (match year with
        | Some y => negb (date_year h =? y)
        | None => false
        end)
  && negb (match month with
           | Some m => negb (date_month h =? m)
           | None => false
           end).

(** [get_holidays]. *)
Definition get_holidays (cache : gset date) (year month : option Z)
    : gset date :=
  match year, month with
  | None, None => cache
  | _, _ => filter (fun h => kept year month h = true) cache
  end.

(** [is_holiday]. *)
Definition is_holiday (cache : gset date) (check_date : date) : bool :=
  bool_decide (check_date ∈ cache).

(** [get_day_type]. *)
Definition get_day_type (cache : gset date) (check_date : date) : DayType :=
  if is_holiday cache check_date then holiday
  else
    let weekday := date_weekday check_date in
    if 5 <=? weekday then weekend else workday.

(** The first statements of [get_workdays_in_month] and of
    [get_days_in_month]: the first and the last day of the month. *)
Definition month_bounds (year month : Z) : Run (date * date) :=
  bind (new_date year month 1) (fun first_day =>
  bind (if month =? 12
        then bind (new_date (year + 1) 1 1) minus_one_day
        else bind (new_date year (month + 1) 1) minus_one_day)
       (fun last_day => Returns (first_day, last_day))).

(** The loop of [get_workdays_in_month], at most [fuel] tests of its
    condition. *)
Fixpoint workdays_loop (fuel : nat) (cache : gset date)
    (current last_day : date) (workdays : Z) : Run Z :=
  match fuel with
  | O => OutOfFuel
  | S fuel' =>
      if date_le current last_day then
        let day_type := get_day_type cache current in
        let workdays' :=
          match day_type with
          | workday => workdays + 1
          | _ => workdays
          end in
        bind (plus_one_day current) (fun next =>
        workdays_loop fuel' cache next last_day workdays')
      else Returns workdays
  end.

(** [get_workdays_in_month]. *)
Definition get_workdays_in_month (fuel : nat) (cache : gset date)
    (year month : Z) : Run Z :=
  bind (month_bounds year month) (fun '(first_day, last_day) =>
  workdays_loop fuel cache first_day last_day 0).

(** The dictionary appended for [current] by [get_days_in_month]. *)
Definition day_entry (cache : gset date) (current : date) : DayEntry :=
  let day_type := get_day_type cache current in
  mkDay (isoformat current) (date_day current) day_type
    (date_weekday current)
    (match day_type with
     | weekend | holiday => true
     | workday => false
     end).

(** The loop of [get_days_in_month]. *)
Fixpoint days_loop (fuel : nat) (cache : gset date)
    (current last_day : date) (days : list DayEntry) : Run (list DayEntry) :=
  match fuel with
  | O => OutOfFuel
  | S fuel' =>
      if date_le current last_day then
        let days' := days ++ [day_entry cache current] in
        bind (plus_one_day current) (fun next =>
        days_loop fuel' cache next last_day days')
      else Returns days
  end.

(** [get_days_in_month]. *)
Definition get_days_in_month (fuel : nat) (cache : gset date)
    (year month : Z) : Run (list DayEntry) :=
  bind (month_bounds year month) (fun '(first_day, last_day) =>
  days_loop fuel cache first_day last_day []).

End CalendarManager.

(** * Vocabulary of the properties *)

Import Parser.

Section Vocabulary.
Context {PS : PyStr}.

(** Where a row of the improved calculator comes from. *)
Definition improved_origin (nch_day nd_shift : Z) (emp : EmployeeData)
    (r : KPIResult) : Prop :=
  exists kpi_info,
    Improved._calculate_day_kpi emp kpi_info nch_day = Some r
    \/ Improved._calculate_shift_kpi emp kpi_info nd_shift = Some r.

(** Where a row of the legacy calculator comes from. *)
Definition legacy_origin (nch_day nd_shift : Z) (emp : EmployeeData)
    (r : KPIResult) : Prop :=
  exists kpi_sum,
    (0 < nch_day /\ r = Legacy.day_row (strip (fio emp)) emp kpi_sum nch_day)
    \/ (0 < nd_shift
        /\ r = Legacy.shift_row (strip (fio emp)) emp kpi_sum nd_shift).


(** The room left, when a reported amount is compared with an exact one, for
    the rounding to two decimals (half a hundredth) and for the binary
    rounding of the products of the code (a millionth, enough for amounts up
    to [MAX_SUM]). *)
Definition BINARY_ROOM : Q := 1 # 1000000.
Definition TOLERANCE : Q := (1 # 200) + BINARY_ROOM.


(** What the code computes for a row from the worked-days figure [d] before
    rounding, in exact terms: [d] lies within the norm, the reported
    percentage is [p = 100 * d / daysAssigned] rounded to two decimals, and
    the final amount is [p / 100 * kpiSum] rounded to two decimals. *)
Definition computed_from (r : KPIResult) (d : Q) : Prop :=
  0 < res_days_assigned r
  /\ (0 <= d <= inject_Z (res_days_assigned r))%Q
  /\ exists p, (p == d * 100 / inject_Z (res_days_assigned r))%Q
       /\ res_work_percent r = Fin (Qround2 p)
       /\ res_kpi_final r = round2 (fmul (Fin (p / 100)) (res_kpi_sum r)).

(** [clamp(x, 0, n)] for a float [x] other than [nan], for which it is not
    used: an infinity is clamped to the end of the interval on its side. *)
Definition clamp_float (x : float) (n : Z) : Q :=
  match x with
  | Fin t => clamp t 0 (inject_Z n)
  | PInf => inject_Z n
  | NInf => 0
  | NaN => 0
  end.

(** In the day branch, the figure the worked days are clamped from. *)
Definition day_source (emp : EmployeeData) (n : Z) : float :=
  match worked_days_total emp with
  | TotalNum t => t
  | TotalBad => of_int (n - letters_weekday emp)
  | TotalNone => of_int (n - letters_weekday emp)
  end.

(** The worked days of a record before any rounding: in the day branch the
    clamped source figure, in the shift branch the norm less the weekday and
    Saturday letters, clamped. *)
Definition day_figure (emp : EmployeeData) (n : Z) : Q :=
  clamp_float (day_source emp n) n.

Definition shift_figure (emp : EmployeeData) (n : Z) : Q :=
  clamp (inject_Z (n - (letters_weekday emp + letters_sat emp))) 0
    (inject_Z n).

(** The total-days figure of the record is the float [nan]. *)
Definition nan_total (emp : EmployeeData) : Prop :=
  worked_days_total emp = TotalNum NaN.

(** The row reports the counters of the record, under the norm [n]. *)
Definition row_of (emp : EmployeeData) (n : Z) (r : KPIResult) : Prop :=
  res_days_assigned r = n
  /\ res_letters_weekday r = letters_weekday emp
  /\ res_letters_sat r = letters_sat emp
  /\ res_letters_sun r = letters_sun emp
  /\ res_letters_holiday r = letters_holiday emp.


(** The shift rule for the record [emp] under the norm [n]: the row reports
    the counters of the record, the absence count
    [lettersWeekday + lettersSaturday] as [notWorked], and the norm less the
    absences, clamped to [0, norm], as [daysWorked]. *)
Definition shift_rule (emp : EmployeeData) (n : Z) (r : KPIResult) : Prop :=
  row_of emp n r
  /\ (res_not_worked r == of_int (letters_weekday emp + letters_sat emp))%F
  /\ (res_days_worked r == Fin (shift_figure emp n))%F.

(** The shift rule when the absences exceed the norm. *)
Definition shift_overrun (emp : EmployeeData) (n : Z) (r : KPIResult)
    : Prop :=
  let absences := letters_weekday emp + letters_sat emp in
  row_of emp n r
  /\ (res_days_worked r == Fin 0)%F
  /\ (res_work_percent r == Fin 0)%F
  /\ (res_kpi_final r == Fin 0)%F
  /\ (res_not_worked r == of_int absences)%F
  /\ n < absences
  /\ ~ (res_not_worked r == fsub (of_int n) (res_days_worked r))%F.

(** The number of elements of [l] that satisfy [p]. *)
Definition count {A : Type} (p : A -> bool) (l : list A) : nat :=
  length (List.filter p l).

Definition is_duplicate (e : KPIError) : bool :=
  match err_type e with
  | DUPLICATE => true
  | _ => false
  end.

(** The key under which names are compared: trimmed, then lower-cased. *)
Definition key (name : string) : string := lower (strip name).

(** Rows emitted for the name [k]. *)
Definition results_named (k : string) (rs : list KPIResult) : nat :=
  count (fun r => String.eqb (key (res_fio r)) k) rs.

(** Errors of any kind emitted for the name [k]. *)
Definition errors_named (k : string) (es : list KPIError) : nat :=
  count (fun e => String.eqb (key (err_fio e)) k) es.

(** [DUPLICATE] errors emitted for the name [k]. *)
Definition duplicates_named (k : string) (es : list KPIError) : nat :=
  count (fun e => String.eqb (key (err_fio e)) k && is_duplicate e) es.

(** Errors other than [DUPLICATE] emitted for the name [k]. *)
Definition failures_named (k : string) (es : list KPIError) : nat :=
  count (fun e => String.eqb (key (err_fio e)) k && negb (is_duplicate e)) es.

(** Attendance records with a non-blank name of key [k]. *)
Definition occurrences (k : string) (employees : list EmployeeData) : nat :=
  count (fun emp => negb (is_empty (strip (fio emp)))
                    && String.eqb (key (fio emp)) k) employees.

(** The invariant as the specification words it: a name appears at most once
    in the combined output. *)
Definition one_outcome_per_name (out : list KPIResult * list KPIError) : Prop :=
  forall k, (results_named k (fst out) + errors_named k (snd out) <= 1)%nat.

(** The invariant the calculators keep: a name has at most one row or one
    error other than [DUPLICATE], and one [DUPLICATE] error for each of its
    occurrences after the first. *)
Definition one_outcome_then_duplicates (employees : list EmployeeData)
    (out : list KPIResult * list KPIError) : Prop :=
  forall k,
    (results_named k (fst out) + failures_named k (snd out)
     <= Nat.min 1 (occurrences k employees))%nat
    /\ duplicates_named k (snd out) = (occurrences k employees - 1)%nat.

(** What one iteration of either loop does to the state. *)
Inductive step_outcome (st : LoopState) (emp : EmployeeData)
    : LoopState -> Prop :=
| outcome_blank :
    is_empty (strip (fio emp)) = true ->
    step_outcome st emp st
| outcome_duplicate (e : KPIError) :
    is_empty (strip (fio emp)) = false ->
    key (fio emp) ∈ seen st ->
    err_type e = DUPLICATE ->
    key (err_fio e) = key (fio emp) ->
    step_outcome st emp (add_error st e)
| outcome_result (r : KPIResult) :
    is_empty (strip (fio emp)) = false ->
    key (fio emp) ∉ seen st ->
    key (res_fio r) = key (fio emp) ->
    step_outcome st emp (add_result (add_seen st (key (fio emp))) r)
| outcome_failure (e : KPIError) :
    is_empty (strip (fio emp)) = false ->
    key (fio emp) ∉ seen st ->
    err_type e <> DUPLICATE ->
    key (err_fio e) = key (fio emp) ->
    step_outcome st emp (add_error (add_seen st (key (fio emp))) e)
| outcome_silent :
    is_empty (strip (fio emp)) = false ->
    key (fio emp) ∉ seen st ->
    step_outcome st emp (add_seen st (key (fio emp))).

(** The counts for one name [k] over a run of a loop from the state [st]. *)
Definition run_counts (k : string) (employees : list EmployeeData)
    (st st' : LoopState) : Prop :=
  (k ∈ seen st ->
   results_named k (results st') = results_named k (results st)
   /\ failures_named k (errors st') = failures_named k (errors st)
   /\ duplicates_named k (errors st')
      = (duplicates_named k (errors st) + occurrences k employees)%nat)
  /\ (k ∉ seen st ->
      (results_named k (results st') + failures_named k (errors st')
       <= results_named k (results st) + failures_named k (errors st)
          + Nat.min 1 (occurrences k employees))%nat
      /\ duplicates_named k (errors st')
         = (duplicates_named k (errors st)
            + (occurrences k employees - 1))%nat).

(** The message of the error raised for an unrecognized layout. *)
Definition UNRECOGNIZED : string :=
  "Не удалось определить формат табеля. "
  ++ "Нет ни заголовка 'АТЫ-жөні (толығымен)', ни колонки 'Сотрудник'.".

(** The grid holds the header cell of the embedded layout somewhere. *)
Definition has_header_cell (df : DataFrame) : Prop :=
  exists row v, In row df /\ In v row /\ strip (cell_str v) = KZ_HEADER.

(** The re-read grid has an employee column. *)
Definition has_employee_column (df2 : HeaderFrame) : Prop :=
  In (CStr EMPLOYEE) (columns df2).

End Vocabulary.

(** ** Inputs of the examples *)

(** An employee with two weekday absence letters, on the roster with an
    entitlement of 15000. *)
Definition ivanov : EmployeeData := mkEmployee "Ivanov" 2 0 0 0 20 0 0 0 TotalNone.
Definition ivanov_item : KpiItem := mkItem 1 "Ivanov" (Fin (15000 # 1)) "day" "IT" "1".

(** The same name again, in capitals and between blanks. *)
Definition ivanov_again : EmployeeData :=
  mkEmployee " IVANOV " 0 0 0 0 0 0 0 0 TotalNone.

(** A shift worker with four Sunday letters, three holiday letters and a
    total-days figure of 12, and nothing on weekdays or Saturdays. *)
Definition petrov : EmployeeData :=
  mkEmployee "Petrov" 0 0 4 3 22 4 0 0 (TotalNum (Fin (12 # 1))).
Definition petrov_item : KpiItem :=
  mkItem 2 "Petrov" (Fin (20000 # 1)) "shift" "Guard" "2".

(** A shift worker with 20 weekday and 15 Saturday letters. *)
Definition sidorov : EmployeeData :=
  mkEmployee "Sidorov" 20 15 0 0 0 0 0 0 TotalNone.
Definition sidorov_item : KpiItem :=
  mkItem 3 "Sidorov" (Fin (20000 # 1)) "shift" "Guard" "2".

(** The roster entry of the same worker when the cell of the entitlement is
    blank, which reaches the calculators as the float [nan]. *)
Definition sidorov_blank_item : KpiItem :=
  mkItem 3 "Sidorov" NaN "shift" "Guard" "2".

(** A day worker with a total-days figure of 20 and five weekday letters. *)
Definition akhmetov : EmployeeData :=
  mkEmployee "Akhmetov" 5 0 0 0 17 1 0 0 (TotalNum (Fin (20 # 1))).
Definition akhmetov_item : KpiItem :=
  mkItem 4 "Akhmetov" (Fin (10000 # 1)) "day" "Lab" "1".

(** A day worker whose total-days cell holds the text [nan], which
    [_try_float] reads as the float [nan]. *)
Definition bekov : EmployeeData :=
  mkEmployee "Bekov" 1 0 0 0 21 0 0 0 (TotalNum NaN).
Definition bekov_item : KpiItem :=
  mkItem 7 "Bekov" (Fin (10000 # 1)) "day" "Lab" "1".

(** A day worker whose total-days figure has three decimals. *)
Definition omarov : EmployeeData :=
  mkEmployee "Omarov" 1 0 0 0 21 0 0 0 (TotalNum (Fin (20557 # 1000))).
Definition omarov_item : KpiItem :=
  mkItem 5 "Omarov" (Fin (10000 # 1)) "day" "Lab" "1".

(** A roster entry whose schedule type is neither ["day"] nor ["shift"]. *)
Definition night_item : KpiItem :=
  mkItem 1 "Ivanov" (Fin (15000 # 1)) "night" "IT" "1".

(** A workbook with a title and one data row, and neither marker. *)
Definition plain_workbook : Workbook :=
  mkWorkbook
    [[CStr "Report"; CNaN]; [CStr "Ivanov"; CInt 8]]
    (mkHeaderFrame [CStr "Report"; CStr "Unnamed: 1"] [[CStr "Ivanov"; CInt 8]]).

(** April 2025 (30 days, the first a Tuesday): one employee row with letters
    on the 2nd and 3rd, eights on the other working days, blank weekends. *)
Definition april_sheet : Workbook :=
  let day_labels := map (fun d => CInt (Z.of_nat d)) (seq 1 30) in
  let marks :=
    map (fun d =>
           let d := Z.of_nat d in
           if (d =? 2) || (d =? 3) then CStr "Б"
           else match Calendar.weekday 2025 4 d with
                | Some 5 | Some 6 => CNaN
                | _ => CInt 8
                end)
        (seq 1 30) in
  mkWorkbook
    [ [CStr "Табель"];
      [CStr "№"; CStr " АТЫ-жөні (толығымен) "];
      CNaN :: CNaN :: day_labels;
      CInt 1 :: CStr "Ivanov" :: marks ]
    (mkHeaderFrame [CStr "Табель"] []).

(** The same month with a day header of 2147483648, which is no C [int],
    over a column that holds an absence letter. *)
Definition overflow_sheet : Workbook :=
  mkWorkbook
    [ [CStr "№"; CStr "АТЫ-жөні (толығымен)"; CNaN; CNaN];
      [CNaN; CNaN; CInt 1; CInt 2147483648];
      [CInt 1; CStr "Ivanov"; CInt 8; CStr "Б"] ]
    (mkHeaderFrame [CStr "№"; CStr "АТЫ-жөні (толығымен)"] []).

(** ** Vocabulary of the further properties *)

Section MoreVocabulary.
Context {PS : PyStr}.

(** The norms up to which [BINARY_ROOM] is room enough for the rounding of
    a difference of day counts. *)
Definition MAX_NORM : Z := 1000000.

(** The worked and the not-worked days of a row are numbers that add up to
    the norm [n], to within [room]. *)
Definition accounts_for (r : KPIResult) (n : Z) (room : Q) : Prop :=
  exists dw nw,
    res_days_worked r = Fin dw /\ res_not_worked r = Fin nw
    /\ (Qabs (dw + nw - inject_Z n) <= room)%Q.


(** Two rows that report the same schedule, norm, counters, absences,
    percentage, entitlement and final amount. *)
Definition same_payout (r1 r2 : KPIResult) : Prop :=
  res_schedule_type r1 = res_schedule_type r2
  /\ res_days_assigned r1 = res_days_assigned r2
  /\ (res_letters_weekday r1, res_letters_sat r1, res_letters_sun r1,
      res_letters_holiday r1)
     = (res_letters_weekday r2, res_letters_sat r2, res_letters_sun r2,
        res_letters_holiday r2)
  /\ (res_numbers_weekday r1, res_numbers_sat r1, res_numbers_sun r1,
      res_numbers_holiday r1)
     = (res_numbers_weekday r2, res_numbers_sat r2, res_numbers_sun r2,
        res_numbers_holiday r2)
  /\ (res_not_worked r1 == res_not_worked r2)%F
  /\ (res_work_percent r1 == res_work_percent r2)%F
  /\ (res_kpi_sum r1 == res_kpi_sum r2)%F
  /\ (res_kpi_final r1 == res_kpi_final r2)%F.

(** The second row reports no higher a percentage and no higher a final
    amount than the first. *)
Definition pays_no_more (r2 r1 : KPIResult) : Prop :=
  (res_work_percent r2 <= res_work_percent r1)%F
  /\ (res_kpi_final r2 <= res_kpi_final r1)%F.

(** The trimmed category code the improved calculator finds on the roster
    under a key, if any. *)
Definition improved_category (kpi_table : list KpiItem) (k : string)
    : option string :=
  (fun kpi_info => strip (info_category_code kpi_info))
    <$> (Improved._build_kpi_map kpi_table !! k).

(** The trimmed category code the legacy calculator finds on the roster under
    a key, if any. *)
Definition legacy_category (kpi_table : list KpiItem) (k : string)
    : option string :=
  (fun kpi_info => strip (item_categoryCode kpi_info))
    <$> (Legacy.build_kpi_map kpi_table !! k).

(** Rows and errors that tell the truth about the roster: a row only for a
    name found there with a category other than ["4"], [NO_KPI_MAPPING] only
    for a name that is not there, [STUDENT] only for a name of category
    ["4"]. *)
Definition outcomes_justified (category : string -> option string)
    (out : list KPIResult * list KPIError) : Prop :=
  (forall r, In r (fst out) ->
     exists c, category (key (res_fio r)) = Some c /\ c <> "4")
  /\ (forall e, In e (snd out) ->
        (err_type e = NO_KPI_MAPPING -> category (key (err_fio e)) = None)
        /\ (err_type e = STUDENT -> category (key (err_fio e)) = Some "4")).

(** The number of attendance records whose name is not blank. *)
Definition named_records (employees : list EmployeeData) : nat :=
  count (fun emp => negb (is_empty (strip (fio emp)))) employees.

(** What one iteration appends: at most one row, under the name [row_name],
    or at most one error, under the trimmed name; nothing for a blank name;
    exactly one of them for a name that is not blank when [complete]. *)
Definition step_emits (row_name : EmployeeData -> string) (complete : Prop)
    (st : LoopState) (emp : EmployeeData) (st' : LoopState) : Prop :=
  exists rs es,
    results st' = results st ++ rs
    /\ errors st' = errors st ++ es
    /\ sublist (map res_fio rs) [row_name emp]
    /\ sublist (map err_fio es) [strip (fio emp)]
    /\ (length rs + length es <= named_records [emp])%nat
    /\ (complete -> (length rs + length es)%nat = named_records [emp]).

(** Rows and errors that follow the order of the attendance records. *)
Definition in_input_order (row_name : EmployeeData -> string)
    (employees : list EmployeeData) (out : list KPIResult * list KPIError)
    : Prop :=
  sublist (map res_fio (fst out)) (map row_name employees)
  /\ sublist (map err_fio (snd out)) (map (fun emp => strip (fio emp)) employees).

(** A row with its name trimmed. *)
Definition with_trimmed_name (r : KPIResult) : KPIResult :=
  {| res_fio := strip (res_fio r);
     res_schedule_type := res_schedule_type r;
     res_days_assigned := res_days_assigned r;
     res_days_worked := res_days_worked r;
     res_not_worked := res_not_worked r;
     res_letters_weekday := res_letters_weekday r;
     res_letters_sat := res_letters_sat r;
     res_letters_sun := res_letters_sun r;
     res_letters_holiday := res_letters_holiday r;
     res_numbers_weekday := res_numbers_weekday r;
     res_numbers_sat := res_numbers_sat r;
     res_numbers_sun := res_numbers_sun r;
     res_numbers_holiday := res_numbers_holiday r;
     res_work_percent := res_work_percent r;
     res_kpi_sum := res_kpi_sum r;
     res_kpi_final := res_kpi_final r;
     res_department := res_department r;
     res_category_code := res_category_code r |}.

(** An attendance record with its name trimmed, as the entry point of the
    improved calculator rebuilds it. *)
Definition with_trimmed_fio (emp : EmployeeData) : EmployeeData :=
  {| fio := strip (fio emp);
     letters_weekday := letters_weekday emp;
     letters_sat := letters_sat emp;
     letters_sun := letters_sun emp;
     letters_holiday := letters_holiday emp;
     numbers_weekday := numbers_weekday emp;
     numbers_sat := numbers_sat emp;
     numbers_sun := numbers_sun emp;
     numbers_holiday := numbers_holiday emp;
     worked_days_total := worked_days_total emp |}.

(** A loop state with the names of its rows trimmed. *)
Definition with_trimmed_rows (st : LoopState) : LoopState :=
  {| results := map with_trimmed_name (results st);
     errors := errors st;
     seen := seen st |}.

(** Lines 204-209: a day cell that counts, being neither missing, empty, a
    dash nor the day-off letter. *)
Definition populated (val : option cell) : bool :=
  match val with
  | None => false
  | Some CNaN => false
  | Some v =>
      let val_str := strip (cell_str v) in
      negb (is_empty val_str || String.eqb val_str "-"
            || String.eqb (upper val_str) "В")
  end.

(** The eight counters of a record, summed. *)
Definition total_marks (e : EmployeeData) : Z :=
  letters_weekday e + letters_sat e + letters_sun e + letters_holiday e
  + numbers_weekday e + numbers_sat e + numbers_sun e + numbers_holiday e.

(** Every counter of the second record is at least that of the first. *)
Definition counters_le (e1 e2 : EmployeeData) : Prop :=
  letters_weekday e1 <= letters_weekday e2
  /\ letters_sat e1 <= letters_sat e2
  /\ letters_sun e1 <= letters_sun e2
  /\ letters_holiday e1 <= letters_holiday e2
  /\ numbers_weekday e1 <= numbers_weekday e2
  /\ numbers_sat e1 <= numbers_sat e2
  /\ numbers_sun e1 <= numbers_sun e2
  /\ numbers_holiday e1 <= numbers_holiday e2.

(** The number of day columns of a row whose cell counts. *)
Definition populated_cells (day_cols : list (nat * Z)) (row : list cell)
    : nat :=
  count (fun '(col, _) => populated (nth_error row col)) day_cols.

(** Every day number of the day columns can be classified: it is a holiday,
    or the three arguments of [date] are C [int]s. *)
Definition days_fit (year month : Z) (holiday_days : gset Z)
    (day_cols : list (nat * Z)) : Prop :=
  forall col d,
    In (col, d) day_cols ->
    d ∈ holiday_days \/ Calendar.c_ints year month d = true.

(** What is left of a parse once the day columns have been read from their
    header: the exception [int] raised on the header, if any; otherwise
    records that satisfy [P], or the [OverflowError] of a day number that
    cannot be classified. *)
Definition parse_outcome (year month : Z) (holiday_days : gset Z)
    (cols : Result (list (nat * Z))) (P : list EmployeeData -> Prop)
    (r : Result (list EmployeeData)) : Prop :=
  match cols with
  | Ok day_cols =>
      (r = OverflowError /\ ~ days_fit year month holiday_days day_cols)
      \/ exists records, r = Ok records /\ P records
  | ValueError msg => r = ValueError msg
  | OverflowError => r = OverflowError
  end.

(** The message of the only error of its own the embedded layout can still
    raise once its header has been detected. *)
Definition NO_DAY_ROW : string :=
  "В табеле нет строки с днями после заголовка.".

End MoreVocabulary.

(** ** Vocabulary of the calendar properties *)

Section CalendarVocabulary.
Import CalendarManager.

(** The dates of a month, in order. *)
Definition month_dates (year month : Z) : list date :=
  map (fun d => (year, month, d)) (seqZ 1 (Calendar.days_in_month year month)).

(** The month is one the calendar of [datetime] can list: a month of the
    years 1 to 9999 other than December 9999. *)
Definition listable (year month : Z) : Prop :=
  1 <= year <= 9999 /\ 1 <= month <= 12 /\ ~ (year = 9999 /\ month = 12).

Definition same_type (t u : DayType) : bool :=
  match t, u with
  | workday, workday | weekend, weekend | holiday, holiday => true
  | _, _ => false
  end.

(** The number of dates of a list that [get_day_type] gives the type [t]. *)
Definition dates_of (t : DayType) (cache : gset date) (ds : list date) : Z :=
  Z.of_nat (count (fun d => same_type (get_day_type cache d) t) ds).

(** The number of entries of type [t]. *)
Definition entries_of (t : DayType) (days : list DayEntry) : Z :=
  Z.of_nat (count (fun e => same_type (entry_type e) t) days).

(** The number of entries whose flag [is_weekend] is not set. *)
Definition unflagged (days : list DayEntry) : Z :=
  Z.of_nat (count (fun e => negb (entry_is_weekend e)) days).

(** The result of a call, with [f] applied to the value it returns. *)
Definition run_map {A B : Type} (f : A -> B) (r : Run A) : Run B :=
  bind r (fun a => Returns (f a)).

(** The day numbers of the cached holidays of a month: the holiday set the
    parser would be given for that month. *)
Definition holiday_days_of (cache : gset date) (year month : Z) : gset Z :=
  set_map date_day (get_holidays cache (Some year) (Some month)).

(** The day type of the calendar manager for a day kind of the parser. *)
Definition as_day_type (k : DayKind) : DayType :=
  match k with
  | Weekday => workday
  | Sat | Sun => weekend
  | Holiday => holiday
  end.

End CalendarVocabulary.

(** ** Inputs of the further examples *)

(** A roster entry of category 4, written between blanks. *)
Definition student_item : KpiItem :=
  mkItem 6 "Omarov" (Fin (10000 # 1)) "day" "Lab" " 4 ".

(** A row with a name, an eight, a dash and an absence letter. *)
Definition marked_row : list cell :=
  [CStr "Ivanov"; CInt 8; CStr "-"; CStr "Б"].

(** * Properties *)

(** *** Facts about the rational numbers *)

Lemma Qltb_lt x y : Qltb x y = true <-> (x < y)%Q.
Proof.
  unfold Qltb. rewrite negb_true_iff. split.
  - intros H. apply Qnot_le_lt. intros Hle. apply Qle_bool_iff in Hle. congruence.
  - intros H. destruct (Qle_bool y x) eqn:E; [|reflexivity].
    apply Qle_bool_iff in E. exfalso. exact (Qlt_not_le _ _ H E).
Qed.

Lemma Qltb_ge x y : Qltb x y = false <-> (y <= x)%Q.
Proof.
  unfold Qltb. rewrite negb_false_iff. apply Qle_bool_iff.
Qed.


Lemma clamp_bounds x lo hi : (lo <= hi)%Q -> (lo <= clamp x lo hi <= hi)%Q.
Proof.
  intros H. unfold clamp. split.
  - apply Q.le_max_l.
  - apply Q.max_lub; [exact H | apply Q.le_min_r].
Qed.

Lemma round_half_even_between (q : Q) (a b : Z) :
  (inject_Z a <= q)%Q -> (q <= inject_Z b)%Q ->
  (a <= round_half_even q <= b)%Z.
Proof.
  intros Ha Hb.
  assert (Hfa : (a <= Qfloor q)%Z).
  { rewrite <- (Qfloor_Z a). apply Qfloor_resp_le, Ha. }
  assert (Hfb : (Qfloor q <= b)%Z).
  { rewrite <- (Qfloor_Z b). apply Qfloor_resp_le, Hb. }
  assert (Hup : (0 < q - inject_Z (Qfloor q))%Q -> (Qfloor q + 1 <= b)%Z).
  { intros Hpos.
    destruct (Z.eq_dec (Qfloor q) b) as [E|E]; [|lia].
    exfalso. rewrite E in Hpos.
    apply (Qlt_not_le _ _ Hpos).
    apply (Qplus_le_l _ _ (inject_Z b)). ring_simplify. exact Hb. }
  unfold round_half_even.
  destruct (Qcompare (q - inject_Z (Qfloor q)) (1 # 2)) eqn:E.
  - apply Qeq_alt in E.
    destruct (Z.even (Qfloor q)); [lia|].
    assert (0 < q - inject_Z (Qfloor q))%Q by (rewrite E; reflexivity).
    specialize (Hup H). lia.
  - lia.
  - apply Qgt_alt in E.
    assert (0 < q - inject_Z (Qfloor q))%Q.
    { eapply Qlt_trans; [|exact E]. reflexivity. }
    specialize (Hup H). lia.
Qed.

Lemma round_half_even_Z (z : Z) : round_half_even (inject_Z z) = z.
Proof.
  pose proof (round_half_even_between (inject_Z z) z z (Qle_refl _) (Qle_refl _)).
  lia.
Qed.

#[global] Instance round_half_even_proper : Proper (Qeq ==> eq) round_half_even.
Proof.
  intros x y H. unfold round_half_even.
  rewrite (Qfloor_comp _ _ H).
  assert (E : (x - inject_Z (Qfloor y) == y - inject_Z (Qfloor y))%Q) by (rewrite H; reflexivity).
  rewrite (Qcompare_comp _ _ E _ _ (Qeq_refl (1#2))). reflexivity.
Qed.

#[global] Instance Qround2_proper : Proper (Qeq ==> Qeq) Qround2.
Proof.
  intros x y H. unfold Qround2.
  assert (E : (x * 100 == y * 100)%Q) by (rewrite H; reflexivity).
  rewrite (round_half_even_proper _ _ E). reflexivity.
Qed.

Lemma Qround2_Z (z : Z) : (Qround2 (inject_Z z) == inject_Z z)%Q.
Proof.
  unfold Qround2.
  assert (E : (inject_Z z * 100 == inject_Z (z * 100))%Q).
  { rewrite inject_Z_mult. reflexivity. }
  rewrite (round_half_even_proper _ _ E), round_half_even_Z.
  unfold Qeq, inject_Z. simpl. lia.
Qed.


Lemma round_half_even_floor (q : Q) :
  round_half_even q = Qfloor q \/ round_half_even q = Qfloor q + 1.
Proof.
  unfold round_half_even.
  destruct (Qcompare _ _); [destruct (Z.even _)|..]; auto.
Qed.

Lemma round_half_even_mono (q1 q2 : Q) :
  (q1 <= q2)%Q -> round_half_even q1 <= round_half_even q2.
Proof.
  intros Hle.
  pose proof (Qfloor_resp_le _ _ Hle) as Hf.
  destruct (Z.eq_dec (Qfloor q1) (Qfloor q2)) as [E|E].
  2:{ destruct (round_half_even_floor q1), (round_half_even_floor q2); lia. }
  assert (Hfrac : (q1 - inject_Z (Qfloor q1) <= q2 - inject_Z (Qfloor q2))%Q).
  { rewrite E. apply Qplus_le_l. exact Hle. }
  unfold round_half_even. rewrite <- E in *.
  destruct (Qcompare (q1 - inject_Z (Qfloor q1)) (1 # 2)) eqn:C1;
    destruct (Qcompare (q2 - inject_Z (Qfloor q1)) (1 # 2)) eqn:C2;
    try (destruct (Z.even (Qfloor q1)); lia); try lia; exfalso.
  - apply Qeq_alt in C1. apply Qlt_alt in C2. rewrite C1 in Hfrac.
    exact (Qlt_not_le _ _ C2 Hfrac).
  - apply Qgt_alt in C1. apply Qeq_alt in C2. rewrite C2 in Hfrac.
    exact (Qlt_not_le _ _ C1 Hfrac).
  - apply Qgt_alt in C1. apply Qlt_alt in C2.
    apply (Qlt_not_le _ _ C1). eapply Qle_trans; [exact Hfrac|].
    apply Qlt_le_weak, C2.
Qed.

Lemma Qround2_mono (q1 q2 : Q) : (q1 <= q2)%Q -> (Qround2 q1 <= Qround2 q2)%Q.
Proof.
  intros Hle. unfold Qround2.
  assert (H : round_half_even (q1 * 100) <= round_half_even (q2 * 100)).
  { apply round_half_even_mono. apply Qmult_le_compat_r; [exact Hle | discriminate]. }
  unfold Qle. simpl. lia.
Qed.


Lemma clamp_mono (x y lo hi : Q) :
  (x <= y)%Q -> (clamp x lo hi <= clamp y lo hi)%Q.
Proof.
  intros H. unfold clamp.
  apply Q.max_le_compat_l. apply Q.min_le_compat_r. exact H.
Qed.

Lemma clamp_top (x lo hi : Q) :
  (lo <= hi)%Q -> (hi <= x)%Q -> (clamp x lo hi == hi)%Q.
Proof.
  intros Hlh Hx. unfold clamp.
  rewrite (Q.min_r x hi Hx). apply Q.max_r. exact Hlh.
Qed.

Lemma round_half_even_error (q : Q) :
  (inject_Z (round_half_even q) - q <= 1 # 2)%Q
  /\ (q - inject_Z (round_half_even q) <= 1 # 2)%Q.
Proof.
  pose proof (Qfloor_le q) as Hlo. pose proof (Qlt_floor q) as Hhi.
  rewrite inject_Z_plus in Hhi. change (inject_Z 1) with 1%Q in Hhi.
  unfold round_half_even.
  destruct (Qcompare (q - inject_Z (Qfloor q)) (1 # 2)) eqn:C.
  - apply Qeq_alt in C. destruct (Z.even (Qfloor q)).
    + split; lra.
    + rewrite inject_Z_plus. change (inject_Z 1) with 1%Q. split; lra.
  - apply Qlt_alt in C. split; lra.
  - apply Qgt_alt in C. rewrite inject_Z_plus. change (inject_Z 1) with 1%Q.
    split; lra.
Qed.

Lemma Qround2_error (q : Q) :
  (q - (1 # 200) <= Qround2 q <= q + (1 # 200))%Q.
Proof.
  destruct (round_half_even_error (q * 100)) as [H1 H2].
  assert (E : (Qround2 q == inject_Z (round_half_even (q * 100)) / 100)%Q).
  { unfold Qround2. rewrite (Qmake_Qdiv _ 100). reflexivity. }
  rewrite E.
  set (z := inject_Z (round_half_even (q * 100))) in *.
  split.
  - apply Qle_shift_div_l; [reflexivity|]. lra.
  - apply Qle_shift_div_r; [reflexivity|]. lra.
Qed.

Lemma Qltb_inject_Z (a b : Z) : Qltb (inject_Z a) (inject_Z b) = (a <? b)%Z.
Proof.
  unfold Qltb, Qle_bool, inject_Z. simpl. rewrite !Z.mul_1_r.
  rewrite Z.ltb_antisym. reflexivity.
Qed.


Lemma clamp_inject_Z (x n : Z) :
  (clamp (inject_Z x) 0 (inject_Z n) == inject_Z (Z.max 0 (Z.min x n)))%Q.
Proof.
  unfold clamp.
  destruct (Z.le_ge_cases x n) as [H|H].
  - rewrite (Q.min_l (inject_Z x) (inject_Z n)) by (rewrite <- Zle_Qle; exact H).
    rewrite Z.min_l by exact H.
    destruct (Z.le_ge_cases 0 x) as [H0|H0].
    + rewrite Q.max_r by (change 0%Q with (inject_Z 0); rewrite <- Zle_Qle; exact H0).
      rewrite Z.max_r by exact H0. reflexivity.
    + rewrite Q.max_l by (change 0%Q with (inject_Z 0); rewrite <- Zle_Qle; exact H0).
      rewrite Z.max_l by exact H0. reflexivity.
  - rewrite (Q.min_r (inject_Z x) (inject_Z n)) by (rewrite <- Zle_Qle; exact H).
    rewrite Z.min_r by exact H.
    destruct (Z.le_ge_cases 0 n) as [H0|H0].
    + rewrite Q.max_r by (change 0%Q with (inject_Z 0); rewrite <- Zle_Qle; exact H0).
      rewrite Z.max_r by exact H0. reflexivity.
    + rewrite Q.max_l by (change 0%Q with (inject_Z 0); rewrite <- Zle_Qle; exact H0).
      rewrite Z.max_l by exact H0. reflexivity.
Qed.

(** The percentage of a worked-days figure within [0, n]. *)
Lemma ratio_bounds (dw : Q) (n : Z) :
  (0 < n)%Z -> (0 <= dw <= inject_Z n)%Q ->
  (0 <= dw * 100 / inject_Z n <= 100)%Q.
Proof.
  intros Hn [H0 H1].
  assert (Hq : (0 < inject_Z n)%Q).
  { change 0%Q with (inject_Z 0). rewrite <- Zlt_Qlt. exact Hn. }
  split.
  - apply Qle_shift_div_l; [exact Hq|]. rewrite Qmult_0_l.
    apply Qmult_le_0_compat; [exact H0 | discriminate].
  - apply Qle_shift_div_r; [exact Hq|].
    rewrite (Qmult_comm 100). apply Qmult_le_compat_r; [exact H1 | discriminate].
Qed.

(** *** The ASCII implementation of the string interface *)

Module Ascii7Facts.
Import Ascii7.

Lemma lstrip_head_ok s : head_ok (lstrip s).
Proof.
  induction s as [|c s IH]; simpl; [exact I|].
  destruct (is_space c) eqn:E; [exact IH | simpl; exact E].
Qed.

Lemma lstrip_fixed s : head_ok s -> lstrip s = s.
Proof. destruct s as [|c s]; simpl; [reflexivity|]. intros ->. reflexivity. Qed.

Lemma rstrip_head_ok s : head_ok s -> head_ok (rstrip s).
Proof.
  destruct s as [|c s]; simpl; [exact id|]. intros E.
  rewrite E. destruct (rstrip s); simpl; exact E.
Qed.

Lemma rstrip_idemp s : rstrip (rstrip s) = rstrip s.
Proof.
  induction s as [|c s IH]; simpl; [reflexivity|].
  destruct (rstrip s) as [|d t] eqn:E.
  - destruct (is_space c) eqn:Ec; simpl; [reflexivity|]. rewrite Ec. reflexivity.
  - simpl in *. rewrite IH. reflexivity.
Qed.

Lemma strip7_idemp s : strip7 (strip7 s) = strip7 s.
Proof.
  unfold strip7.
  rewrite (lstrip_fixed (rstrip (lstrip s))).
  - apply rstrip_idemp.
  - apply rstrip_head_ok, lstrip_head_ok.
Qed.

End Ascii7Facts.

#[global] Instance ascii_PyStrLaws : PyStrLaws ascii_PyStr.
Proof. constructor. exact Ascii7Facts.strip7_idemp. Qed.


(** *** Facts about floats *)

#[global] Instance feq_equiv : Equivalence feq.
Proof.
  split.
  - intros [q| | |]; simpl; auto. reflexivity.
  - intros [a| | |] [b| | |]; simpl; auto. intros H. symmetry. exact H.
  - intros [a| | |] [b| | |] [c| | |]; simpl; auto; try tauto.
    intros H1 H2. rewrite H1. exact H2.
Qed.

#[global] Instance Qltb_proper : Proper (Qeq ==> Qeq ==> eq) Qltb.
Proof.
  intros a a' Ha b b' Hb.
  destruct (Qltb a b) eqn:E; symmetry.
  - apply Qltb_lt. apply Qltb_lt in E. rewrite <- Ha, <- Hb. exact E.
  - apply Qltb_ge. apply Qltb_ge in E. rewrite <- Ha, <- Hb. exact E.
Qed.

#[global] Instance flt_proper : Proper (feq ==> feq ==> eq) flt.
Proof.
  intros [a| | |] [a'| | |] Ha [b| | |] [b'| | |] Hb; simpl in *;
    try contradiction; try reflexivity.
  apply Qltb_proper; assumption.
Qed.

#[global] Instance round2_proper : Proper (feq ==> feq) round2.
Proof.
  intros [a| | |] [a'| | |] Ha; simpl in *; try contradiction; try exact I.
  apply Qround2_proper. exact Ha.
Qed.

#[global] Instance fle_proper : Proper (feq ==> feq ==> iff) fle.
Proof.
  intros [a| | |] [a'| | |] Ha [b| | |] [b'| | |] Hb; simpl in *;
    try contradiction; try reflexivity.
  rewrite Ha, Hb. reflexivity.
Qed.

#[global] Instance Qsign_proper : Proper (Qeq ==> eq) Qsign.
Proof. intros a a' Ha. unfold Qsign. rewrite Ha. reflexivity. Qed.

#[global] Instance fmul_proper : Proper (feq ==> feq ==> feq) fmul.
Proof.
  intros [a| | |] [a'| | |] Ha [b| | |] [b'| | |] Hb; simpl in *;
    try contradiction; try exact I;
    try (rewrite Ha; reflexivity); try (rewrite Hb; reflexivity).
  rewrite Ha, Hb. reflexivity.
Qed.

#[global] Instance fsub_proper : Proper (feq ==> feq ==> feq) fsub.
Proof.
  intros [a| | |] [a'| | |] Ha [b| | |] [b'| | |] Hb; simpl in *;
    try contradiction; try exact I.
  rewrite Ha, Hb. reflexivity.
Qed.

#[global] Instance py_max_proper : Proper (feq ==> feq ==> feq) py_max.
Proof.
  intros a a' Ha b b' Hb. unfold py_max.
  rewrite (flt_proper _ _ Ha _ _ Hb). destruct (flt a' b'); assumption.
Qed.

#[global] Instance py_min_proper : Proper (feq ==> feq ==> feq) py_min.
Proof.
  intros a a' Ha b b' Hb. unfold py_min.
  rewrite (flt_proper _ _ Hb _ _ Ha). destruct (flt b' a'); assumption.
Qed.

Lemma feq_Fin (a b : Q) : (a == b)%Q -> (Fin a == Fin b)%F.
Proof. intros H. exact H. Qed.

Lemma fle_Fin (a b : Q) : (a <= b)%Q -> (Fin a <= Fin b)%F.
Proof. intros H. exact H. Qed.

Lemma fle_feq (x y : float) : finite x -> (x == y)%F -> (x <= y)%F.
Proof.
  destruct x as [a| | |], y as [b| | |]; simpl; try contradiction; try tauto.
  intros _ H. rewrite H. apply Qle_refl.
Qed.

Lemma fle_trans (x y z : float) : (x <= y)%F -> (y <= z)%F -> (x <= z)%F.
Proof.
  destruct x as [a| | |], y as [b| | |], z as [c| | |]; simpl;
    try contradiction; try tauto.
  apply Qle_trans.
Qed.

Lemma round2_fle (x y : float) : (x <= y)%F -> (round2 x <= round2 y)%F.
Proof.
  destruct x as [a| | |], y as [b| | |]; simpl; try contradiction; try tauto.
  apply Qround2_mono.
Qed.

(** Multiplying by a finite number that is not negative keeps the order. *)
Lemma fmul_fle (c1 c2 : Q) (s : float) :
  (0 <= c1)%Q -> (c1 <= c2)%Q -> (Fin 0 <= s)%F -> finite s ->
  (fmul (Fin c1) s <= fmul (Fin c2) s)%F.
Proof.
  destruct s as [q| | |]; simpl; try contradiction.
  intros H1 H2 Hq _. apply Qmult_le_compat_r; assumption.
Qed.


Lemma fmul_zero (c : Q) (s : float) :
  (c == 0)%Q -> finite s -> (fmul (Fin c) s == Fin 0)%F.
Proof.
  intros Hc. destruct s as [q| | |]; simpl; try contradiction.
  intros _. rewrite Hc. apply Qmult_0_l.
Qed.

(** [max(lo, min(x, hi))] and the comparisons of the legacy code compute the
    clamp of a finite number. *)
Lemma clamp_below (x lo hi : Q) :
  (lo <= hi)%Q -> (x <= lo)%Q -> (clamp x lo hi == lo)%Q.
Proof.
  intros H1 H2. unfold clamp.
  rewrite (Q.min_l x hi) by (eapply Qle_trans; eauto).
  apply Q.max_l. exact H2.
Qed.

Lemma clamp_inside (x lo hi : Q) :
  (lo <= x)%Q -> (x <= hi)%Q -> (clamp x lo hi == x)%Q.
Proof.
  intros H1 H2. unfold clamp. rewrite (Q.min_l x hi) by exact H2.
  apply Q.max_r. exact H1.
Qed.

Lemma py_clamp_Fin (x lo hi : Q) :
  (lo <= hi)%Q ->
  exists q, py_max (Fin lo) (py_min (Fin x) (Fin hi)) = Fin q
            /\ (q == clamp x lo hi)%Q.
Proof.
  intros Hle. unfold py_min, py_max. cbn [flt].
  destruct (Qltb hi x) eqn:E1.
  - apply Qltb_lt in E1. cbn [flt].
    destruct (Qltb lo hi) eqn:E2.
    + exists hi. split; [reflexivity|]. symmetry. apply clamp_top; [exact Hle|].
      apply Qlt_le_weak. exact E1.
    + apply Qltb_ge in E2. exists lo. split; [reflexivity|].
      rewrite clamp_top by (try exact Hle; apply Qlt_le_weak; exact E1).
      apply Qle_antisym; assumption.
  - apply Qltb_ge in E1. cbn [flt].
    destruct (Qltb lo x) eqn:E2.
    + apply Qltb_lt in E2. exists x. split; [reflexivity|]. symmetry.
      apply clamp_inside; [apply Qlt_le_weak; exact E2 | exact E1].
    + apply Qltb_ge in E2. exists lo. split; [reflexivity|]. symmetry.
      apply clamp_below; assumption.
Qed.

(** The same with the arguments of [min] in the order of the percentage. *)
Lemma py_clamp_Fin' (x lo hi : Q) :
  (lo <= hi)%Q ->
  exists q, py_max (Fin lo) (py_min (Fin hi) (Fin x)) = Fin q
            /\ (q == clamp x lo hi)%Q.
Proof.
  intros Hle. unfold py_min, py_max. cbn [flt].
  destruct (Qltb x hi) eqn:E1.
  - apply Qltb_lt in E1. cbn [flt].
    destruct (Qltb lo x) eqn:E2.
    + apply Qltb_lt in E2. exists x. split; [reflexivity|]. symmetry.
      apply clamp_inside; apply Qlt_le_weak; assumption.
    + apply Qltb_ge in E2. exists lo. split; [reflexivity|]. symmetry.
      apply clamp_below; assumption.
  - apply Qltb_ge in E1. cbn [flt].
    destruct (Qltb lo hi) eqn:E2.
    + exists hi. split; [reflexivity|]. symmetry. apply clamp_top; assumption.
    + apply Qltb_ge in E2. exists lo. split; [reflexivity|].
      rewrite clamp_top by assumption. apply Qle_antisym; assumption.
Qed.

Lemma legacy_clamp_Fin (x lo hi : Q) :
  (lo <= hi)%Q ->
  exists q,
    (let fv := if flt (Fin x) (Fin lo) then Fin lo else Fin x in
     if flt (Fin hi) fv then Fin hi else fv) = Fin q
    /\ (q == clamp x lo hi)%Q.
Proof.
  intros Hle. cbv zeta. cbn [flt].
  destruct (Qltb x lo) eqn:E1.
  - apply Qltb_lt in E1. cbn [flt].
    assert (E2 : Qltb hi lo = false) by (apply Qltb_ge; exact Hle).
    rewrite E2. exists lo. split; [reflexivity|]. symmetry.
    apply clamp_below; [exact Hle | apply Qlt_le_weak; exact E1].
  - apply Qltb_ge in E1. cbn [flt]. destruct (Qltb hi x) eqn:E2.
    + apply Qltb_lt in E2. exists hi. split; [reflexivity|]. symmetry.
      apply clamp_top; [exact Hle | apply Qlt_le_weak; exact E2].
    + apply Qltb_ge in E2. exists x. split; [reflexivity|]. symmetry.
      apply clamp_inside; assumption.
Qed.

(** The order of the comparisons in the percentage of the legacy code. *)
Lemma legacy_clamp_Fin' (x lo hi : Q) :
  (lo <= hi)%Q ->
  exists q,
    (let w := if flt (Fin hi) (Fin x) then Fin hi else Fin x in
     if flt w (Fin lo) then Fin lo else w) = Fin q
    /\ (q == clamp x lo hi)%Q.
Proof.
  intros Hle. cbv zeta. cbn [flt].
  destruct (Qltb hi x) eqn:E1.
  - apply Qltb_lt in E1. cbn [flt].
    assert (E2 : Qltb hi lo = false) by (apply Qltb_ge; exact Hle).
    rewrite E2. exists hi. split; [reflexivity|]. symmetry.
    apply clamp_top; [exact Hle | apply Qlt_le_weak; exact E1].
  - apply Qltb_ge in E1. cbn [flt]. destruct (Qltb x lo) eqn:E2.
    + apply Qltb_lt in E2. exists lo. split; [reflexivity|]. symmetry.
      apply clamp_below; [exact Hle | apply Qlt_le_weak; exact E2].
    + apply Qltb_ge in E2. exists x. split; [reflexivity|]. symmetry.
      apply clamp_inside; assumption.
Qed.

Lemma inject_Z_nonneg (n : Z) : 0 <= n -> (0 <= inject_Z n)%Q.
Proof. intros H. change 0%Q with (inject_Z 0). rewrite <- Zle_Qle. exact H. Qed.

Lemma inject_Z_pos (n : Z) : 0 < n -> (0 < inject_Z n)%Q.
Proof. intros H. change 0%Q with (inject_Z 0). rewrite <- Zlt_Qlt. exact H. Qed.

(** *** What the calculators compute *)

Section CalcFacts.
Context {PS : PyStr}.

Lemma improved_percent_Fin (d : Q) (n : Z) :
  0 < n -> (0 <= d <= inject_Z n)%Q ->
  exists p, Improved.percent (Fin d) n = Fin p
            /\ (p == d * 100 / inject_Z n)%Q.
Proof.
  intros Hn Hd. unfold Improved.percent.
  assert (E : (0 <? n) = true) by (apply Z.ltb_lt; exact Hn). rewrite E.
  cbn [fmul fdiv of_int].
  destruct (py_clamp_Fin' (d * 100 / inject_Z n) 0 100) as (q & Eq & Hq);
    [discriminate|].
  exists q. split; [exact Eq|]. rewrite Hq.
  apply clamp_inside; apply (ratio_bounds d n Hn Hd).
Qed.

Lemma legacy_percent_Fin (d : Q) (n : Z) :
  0 < n -> (0 <= d <= inject_Z n)%Q ->
  exists p, Legacy.percent (Fin d) n = Fin p
            /\ (p == d * 100 / inject_Z n)%Q.
Proof.
  intros Hn Hd. unfold Legacy.percent.
  assert (E : (0 <? n) = true) by (apply Z.ltb_lt; exact Hn). rewrite E.
  cbn [fmul fdiv of_int].
  destruct (legacy_clamp_Fin' (d * 100 / inject_Z n) 0 100) as (q & Eq & Hq);
    [discriminate|].
  exists q. split; [exact Eq|]. rewrite Hq.
  apply clamp_inside; apply (ratio_bounds d n Hn Hd).
Qed.

Lemma legacy_percent_NaN (n : Z) : 0 < n -> Legacy.percent NaN n = NaN.
Proof.
  intros Hn. unfold Legacy.percent.
  assert (E : (0 <? n) = true) by (apply Z.ltb_lt; exact Hn). rewrite E.
  reflexivity.
Qed.

(** [max(0, min(x, n))] of any float, [nan] included, is a number of
    [0, n]. *)
Lemma py_clamp_float (x : float) (n : Z) :
  0 <= n ->
  exists q, py_max (of_int 0) (py_min x (of_int n)) = Fin q
            /\ (q == clamp_float x n)%Q.
Proof.
  intros Hn. pose proof (inject_Z_nonneg n Hn) as Hq.
  destruct x as [t| | |]; unfold of_int.
  - apply py_clamp_Fin. exact Hq.
  - unfold py_min, py_max. cbn [flt clamp_float].
    destruct (Qltb (inject_Z 0) (inject_Z n)) eqn:E.
    + exists (inject_Z n). split; reflexivity.
    + apply Qltb_ge in E. exists (inject_Z 0). split; [reflexivity|].
      apply Qle_antisym; assumption.
  - exists (inject_Z 0). split; reflexivity.
  - exists (inject_Z 0). split; reflexivity.
Qed.

Lemma improved_day_days_worked_Fin emp n :
  0 <= n ->
  exists q, Improved.day_days_worked emp n = Fin q
            /\ (q == day_figure emp n)%Q.
Proof.
  intros Hn. unfold Improved.day_days_worked, day_figure, day_source.
  cbv zeta. destruct (worked_days_total emp); apply py_clamp_float; exact Hn.
Qed.

Lemma legacy_clamp_float (x : float) (n : Z) :
  0 <= n -> is_nan x = false ->
  exists q,
    (let fv := if flt x (of_int 0) then of_int 0 else x in
     if flt (of_int n) fv then of_int n else fv) = Fin q
    /\ (q == clamp_float x n)%Q.
Proof.
  intros Hn Hx. pose proof (inject_Z_nonneg n Hn) as Hq.
  destruct x as [t| | |]; unfold of_int; try discriminate Hx.
  - apply legacy_clamp_Fin. exact Hq.
  - exists (inject_Z n). split; reflexivity.
  - cbv zeta. cbn [flt clamp_float].
    assert (E : Qltb (inject_Z n) (inject_Z 0) = false)
      by (apply Qltb_ge; exact Hq).
    rewrite E. exists (inject_Z 0). split; reflexivity.
Qed.

Lemma day_source_not_nan emp n :
  ~ nan_total emp -> is_nan (day_source emp n) = false.
Proof.
  unfold nan_total, day_source. intros H.
  destruct (worked_days_total emp) as [|[t| | |]|]; try reflexivity.
  exfalso. apply H. reflexivity.
Qed.

Lemma legacy_day_fv_source emp n :
  Legacy.day_fv emp n
  = (let fv := if flt (day_source emp n) (of_int 0) then of_int 0
               else day_source emp n in
     if flt (of_int n) fv then of_int n else fv).
Proof.
  unfold Legacy.day_fv, day_source. destruct (worked_days_total emp); reflexivity.
Qed.

Lemma legacy_day_fv_Fin emp n :
  0 <= n -> ~ nan_total emp ->
  exists q, Legacy.day_fv emp n = Fin q /\ (q == day_figure emp n)%Q.
Proof.
  intros Hn Hnan. rewrite legacy_day_fv_source.
  apply legacy_clamp_float; [exact Hn | apply day_source_not_nan; exact Hnan].
Qed.

Lemma legacy_day_fv_NaN emp n : nan_total emp -> Legacy.day_fv emp n = NaN.
Proof.
  unfold nan_total. intros H. unfold Legacy.day_fv. rewrite H. reflexivity.
Qed.

Lemma improved_shift_days_worked_Fin emp n :
  0 <= n ->
  exists q, Improved.shift_days_worked emp n = Fin q
            /\ (q == shift_figure emp n)%Q.
Proof.
  intros Hn. unfold Improved.shift_days_worked, shift_figure. cbv zeta.
  apply py_clamp_Fin. apply inject_Z_nonneg. exact Hn.
Qed.

Lemma legacy_shift_work_rate_Z emp n :
  0 <= n ->
  Legacy.shift_work_rate emp n =
  Z.max 0 (Z.min (n - (letters_weekday emp + letters_sat emp)) n).
Proof.
  intros Hn. unfold Legacy.shift_work_rate.
  destruct (_ <? 0)%Z eqn:E1.
  - destruct (n <? 0)%Z eqn:E2; rewrite ?Z.ltb_lt, ?Z.ltb_ge in *; lia.
  - destruct (n <? _)%Z eqn:E2; rewrite ?Z.ltb_lt, ?Z.ltb_ge in *; lia.
Qed.

Lemma legacy_shift_work_rate_figure emp n :
  0 <= n ->
  (inject_Z (Legacy.shift_work_rate emp n) == shift_figure emp n)%Q.
Proof.
  intros Hn. rewrite legacy_shift_work_rate_Z by exact Hn.
  unfold shift_figure. rewrite clamp_inject_Z. reflexivity.
Qed.

Lemma shift_figure_Z emp n :
  (shift_figure emp n
   == inject_Z (Z.max 0 (Z.min (n - (letters_weekday emp + letters_sat emp)) n)))%Q.
Proof. unfold shift_figure. apply clamp_inject_Z. Qed.

Lemma day_figure_bounds emp n :
  0 <= n -> (0 <= day_figure emp n <= inject_Z n)%Q.
Proof.
  intros Hn. pose proof (inject_Z_nonneg n Hn) as Hq.
  unfold day_figure, clamp_float. destruct (day_source emp n).
  - apply clamp_bounds. exact Hq.
  - split; [exact Hq | apply Qle_refl].
  - split; [apply Qle_refl | exact Hq].
  - split; [apply Qle_refl | exact Hq].
Qed.

Lemma shift_figure_bounds emp n :
  0 <= n -> (0 <= shift_figure emp n <= inject_Z n)%Q.
Proof.
  intros Hn. apply clamp_bounds. apply inject_Z_nonneg. exact Hn.
Qed.

(** The rows, field by field. *)
Lemma computed_from_intro (r : KPIResult) (d q p : Q) :
  0 < res_days_assigned r ->
  (0 <= d <= inject_Z (res_days_assigned r))%Q ->
  (q == d)%Q ->
  (p == q * 100 / inject_Z (res_days_assigned r))%Q ->
  res_work_percent r = round2 (Fin p) ->
  res_kpi_final r = round2 (fmul (fdiv (Fin p) (Fin 100)) (res_kpi_sum r)) ->
  computed_from r d.
Proof.
  intros Hn Hd Hq Hp Hwp Hfin. split; [exact Hn|]. split; [exact Hd|].
  exists p. split; [rewrite Hp, Hq; reflexivity|].
  split; [exact Hwp | exact Hfin].
Qed.

Lemma improved_day_fields emp kpi_info n r :
  Improved._calculate_day_kpi emp kpi_info n = Some r ->
  0 < n /\ res_fio r = fio emp /\ res_schedule_type r = "day"
  /\ row_of emp n r /\ res_kpi_sum r = info_kpi_sum kpi_info.
Proof.
  unfold Improved._calculate_day_kpi. destruct (n <=? 0) eqn:En; [discriminate|].
  apply Z.leb_gt in En. intros [= <-]. cbn. repeat split. exact En.
Qed.

Lemma improved_shift_fields emp kpi_info n r :
  Improved._calculate_shift_kpi emp kpi_info n = Some r ->
  0 < n /\ res_fio r = fio emp /\ res_schedule_type r = "shift"
  /\ row_of emp n r /\ res_kpi_sum r = info_kpi_sum kpi_info.
Proof.
  unfold Improved._calculate_shift_kpi. destruct (n <=? 0) eqn:En; [discriminate|].
  apply Z.leb_gt in En. intros [= <-]. cbn. repeat split. exact En.
Qed.

Lemma improved_day_some emp kpi_info n :
  0 < n -> exists r, Improved._calculate_day_kpi emp kpi_info n = Some r.
Proof.
  intros Hn. unfold Improved._calculate_day_kpi.
  assert (En : (n <=? 0) = false) by (apply Z.leb_gt; exact Hn). rewrite En.
  eexists. reflexivity.
Qed.

Lemma improved_shift_some emp kpi_info n :
  0 < n -> exists r, Improved._calculate_shift_kpi emp kpi_info n = Some r.
Proof.
  intros Hn. unfold Improved._calculate_shift_kpi.
  assert (En : (n <=? 0) = false) by (apply Z.leb_gt; exact Hn). rewrite En.
  eexists. reflexivity.
Qed.

Lemma improved_day_computed emp kpi_info n r :
  Improved._calculate_day_kpi emp kpi_info n = Some r ->
  0 < n /\ row_of emp n r
  /\ res_kpi_sum r = info_kpi_sum kpi_info
  /\ (res_days_worked r == Fin (Qround2 (day_figure emp n)))%F
  /\ (res_not_worked r == Fin (inject_Z n - day_figure emp n))%F
  /\ computed_from r (day_figure emp n).
Proof.
  unfold Improved._calculate_day_kpi. destruct (n <=? 0) eqn:En; [discriminate|].
  apply Z.leb_gt in En. intros [= <-].
  destruct (improved_day_days_worked_Fin emp n) as (q & Eq & Hq); [lia|].
  pose proof (day_figure_bounds emp n ltac:(lia)) as Hb.
  destruct (improved_percent_Fin q n En) as (p & Ep & Hp);
    [rewrite Hq; exact Hb|].
  rewrite Eq, Ep.
  cbn [res_days_assigned res_days_worked res_not_worked res_kpi_sum].
  split; [exact En|]. split; [repeat split|]. split; [reflexivity|].
  split; [cbn; rewrite Hq; reflexivity|].
  split.
  - unfold py_max, of_int. cbn [fsub flt].
    destruct (Qltb _ _) eqn:E.
    + apply Qltb_lt in E. exfalso. rewrite Hq in E.
      destruct Hb as [_ Hb]. change (inject_Z 0) with 0%Q in E. lra.
    + cbn. rewrite Hq. reflexivity.
  - apply (computed_from_intro _ _ q p);
      cbn [res_days_assigned res_work_percent res_kpi_final res_kpi_sum];
      [exact En | exact Hb | exact Hq | exact Hp | reflexivity | reflexivity].
Qed.

Lemma improved_shift_computed emp kpi_info n r :
  Improved._calculate_shift_kpi emp kpi_info n = Some r ->
  0 < n /\ row_of emp n r
  /\ res_kpi_sum r = info_kpi_sum kpi_info
  /\ (res_days_worked r == Fin (shift_figure emp n))%F
  /\ res_not_worked r = of_int (letters_weekday emp + letters_sat emp)
  /\ computed_from r (shift_figure emp n).
Proof.
  unfold Improved._calculate_shift_kpi. destruct (n <=? 0) eqn:En; [discriminate|].
  apply Z.leb_gt in En. intros [= <-].
  destruct (improved_shift_days_worked_Fin emp n) as (q & Eq & Hq); [lia|].
  pose proof (shift_figure_bounds emp n ltac:(lia)) as Hb.
  destruct (improved_percent_Fin q n En) as (p & Ep & Hp);
    [rewrite Hq; exact Hb|].
  rewrite Eq, Ep.
  cbn [res_days_assigned res_days_worked res_not_worked res_kpi_sum].
  split; [exact En|]. split; [repeat split|]. split; [reflexivity|].
  split.
  - cbn. rewrite Hq, shift_figure_Z.
    apply Qround2_Z.
  - split; [reflexivity|].
    apply (computed_from_intro _ _ q p);
      cbn [res_days_assigned res_work_percent res_kpi_final res_kpi_sum];
      [exact En | exact Hb | exact Hq | exact Hp | reflexivity | reflexivity].
Qed.

Lemma legacy_day_computed name emp kpi_sum n :
  0 < n -> ~ nan_total emp ->
  (res_days_worked (Legacy.day_row name emp kpi_sum n)
   == Fin (day_figure emp n))%F
  /\ (res_not_worked (Legacy.day_row name emp kpi_sum n)
      == Fin (inject_Z n - day_figure emp n))%F
  /\ computed_from (Legacy.day_row name emp kpi_sum n) (day_figure emp n).
Proof.
  intros En Hnan.
  destruct (legacy_day_fv_Fin emp n) as (q & Eq & Hq); [lia | exact Hnan|].
  pose proof (day_figure_bounds emp n ltac:(lia)) as Hb.
  destruct (legacy_percent_Fin q n En) as (p & Ep & Hp);
    [rewrite Hq; exact Hb|].
  unfold Legacy.day_row. cbv zeta. rewrite Eq, Ep.
  cbn [res_days_assigned res_days_worked res_not_worked res_kpi_sum].
  split; [exact Hq|].
  split.
  - unfold py_max, of_int. cbn [fsub flt].
    destruct (Qltb _ _) eqn:E.
    + apply Qltb_lt in E. exfalso. rewrite Hq in E.
      destruct Hb as [_ Hb]. change (inject_Z 0) with 0%Q in E. lra.
    + cbn. rewrite Hq. reflexivity.
  - apply (computed_from_intro _ _ q p);
      cbn [res_days_assigned res_work_percent res_kpi_final res_kpi_sum];
      [exact En | exact Hb | exact Hq | exact Hp | reflexivity | reflexivity].
Qed.

Lemma legacy_shift_computed name emp kpi_sum n :
  0 < n ->
  (res_days_worked (Legacy.shift_row name emp kpi_sum n)
   == Fin (shift_figure emp n))%F
  /\ computed_from (Legacy.shift_row name emp kpi_sum n) (shift_figure emp n).
Proof.
  intros En.
  pose proof (legacy_shift_work_rate_figure emp n ltac:(lia)) as Hq.
  pose proof (shift_figure_bounds emp n ltac:(lia)) as Hb.
  destruct (legacy_percent_Fin (inject_Z (Legacy.shift_work_rate emp n)) n En)
    as (p & Ep & Hp); [rewrite Hq; exact Hb|].
  unfold Legacy.shift_row, of_int. cbv zeta. rewrite Ep.
  cbn [res_days_assigned res_days_worked res_not_worked res_kpi_sum].
  split; [exact Hq|].
  apply (computed_from_intro _ _ (inject_Z (Legacy.shift_work_rate emp n)) p);
    cbn [res_days_assigned res_work_percent res_kpi_final res_kpi_sum];
    [exact En | exact Hb | exact Hq | exact Hp | reflexivity | reflexivity].
Qed.

Lemma legacy_row_of_day name emp kpi_sum n :
  row_of emp n (Legacy.day_row name emp kpi_sum n).
Proof. repeat split. Qed.

Lemma legacy_row_of_shift name emp kpi_sum n :
  row_of emp n (Legacy.shift_row name emp kpi_sum n).
Proof. repeat split. Qed.

(** A total-days figure that is [nan] goes through the comparisons of the
    legacy code and comes out as the worked days, the absences, the
    percentage and the final amount. *)
Lemma legacy_day_nan name emp kpi_sum n :
  0 < n -> nan_total emp ->
  res_days_worked (Legacy.day_row name emp kpi_sum n) = NaN
  /\ res_not_worked (Legacy.day_row name emp kpi_sum n) = NaN
  /\ res_work_percent (Legacy.day_row name emp kpi_sum n) = NaN
  /\ res_kpi_final (Legacy.day_row name emp kpi_sum n) = NaN.
Proof.
  intros En Hnan. unfold Legacy.day_row. cbv zeta.
  rewrite (legacy_day_fv_NaN emp n Hnan), (legacy_percent_NaN n En).
  cbn. repeat split.
Qed.

End CalcFacts.

(** *** Where the emitted rows come from *)

Lemma fold_left_invariant {A B : Type} (I : A -> Prop) (f : A -> B -> A)
    (l : list B) (a : A) :
  I a -> (forall a b, In b l -> I a -> I (f a b)) -> I (fold_left f l a).
Proof.
  revert a. induction l as [|b l IH]; intros a Ha Hstep; simpl; [exact Ha|].
  apply IH.
  - apply Hstep; [left; reflexivity | exact Ha].
  - intros a' b' Hb'. apply Hstep. right. exact Hb'.
Qed.

Section Origin.
Context {PS : PyStr}.

Lemma improved_results_origin employees kpi_table nch_day nd_shift r :
  In r (fst (Improved.calculate employees kpi_table nch_day nd_shift)) ->
  exists emp, In emp employees /\ improved_origin nch_day nd_shift emp r.
Proof.
  unfold Improved.calculate. cbn [fst].
  set (kpi_map := Improved._build_kpi_map kpi_table).
  revert r.
  apply (fold_left_invariant
           (fun st => forall r, In r (results st) ->
              exists emp, In emp employees /\ improved_origin nch_day nd_shift emp r)).
  - intros r [].
  - intros st emp Hemp IH r. unfold Improved.step.
    destruct (is_empty _); [apply IH|].
    destruct (decide _); [apply IH|].
    destruct (kpi_map !! _) as [kpi_info|]; [|apply IH].
    destruct (String.eqb _ "4"); [apply IH|].
    destruct (Improved.branch emp kpi_info nch_day nd_shift) as [res|] eqn:Eb;
      [|apply IH].
    cbn [add_result add_seen results]. intros Hr.
    apply in_app_or in Hr. destruct Hr as [Hr|[<-|[]]]; [apply IH, Hr|].
    exists emp. split; [exact Hemp|]. exists kpi_info.
    unfold Improved.branch in Eb. destruct (String.eqb _ "day"); [left|right]; exact Eb.
Qed.

Lemma legacy_results_origin employees kpi_table nch_day nd_shift r :
  In r (fst (Legacy.calculate_kpi_for_employees employees kpi_table
               nch_day nd_shift)) ->
  exists emp, In emp employees /\ legacy_origin nch_day nd_shift emp r.
Proof.
  unfold Legacy.calculate_kpi_for_employees. cbn [fst].
  set (kpi_map := Legacy.build_kpi_map kpi_table).
  revert r.
  apply (fold_left_invariant
           (fun st => forall r, In r (results st) ->
              exists emp, In emp employees /\ legacy_origin nch_day nd_shift emp r)).
  - intros r [].
  - intros st emp Hemp IH r. unfold Legacy.step.
    destruct (is_empty _); [apply IH|].
    destruct (decide _); [apply IH|].
    destruct (kpi_map !! _) as [kpi_info|]; [|apply IH].
    destruct (String.eqb _ "4"); [apply IH|].
    destruct (String.eqb _ "day").
    + destruct (nch_day <=? 0) eqn:En; [apply IH|].
      cbn [add_result add_seen results]. intros Hr.
      apply in_app_or in Hr. destruct Hr as [Hr|[<-|[]]]; [apply IH, Hr|].
      exists emp. split; [exact Hemp|]. exists (item_kpiSum kpi_info). left.
      split; [apply Z.leb_gt; exact En | reflexivity].
    + destruct (nd_shift <=? 0) eqn:En; [apply IH|].
      cbn [add_result add_seen results]. intros Hr.
      apply in_app_or in Hr. destruct Hr as [Hr|[<-|[]]]; [apply IH, Hr|].
      exists emp. split; [exact Hemp|]. exists (item_kpiSum kpi_info). right.
      split; [apply Z.leb_gt; exact En | reflexivity].
Qed.

End Origin.

(** ** Percentage and final amount *)

Section Payout.
Context {PS : PyStr}.

Lemma Qabs_within (x y e : Q) :
  (y - e <= x <= y + e)%Q -> (Qabs (x - y) <= e)%Q.
Proof. intros [H1 H2]. apply Qabs_Qle_condition. split; lra. Qed.





End Payout.




(** ** The shift branch *)

Section ShiftBranch.
Context {PS : PyStr}.

Lemma improved_shift_rule emp kpi_info n r :
  Improved._calculate_shift_kpi emp kpi_info n = Some r -> shift_rule emp n r.
Proof.
  intros H.
  pose proof (improved_shift_fields _ _ _ _ H) as (_ & _ & _ & Hrow & _).
  pose proof (improved_shift_computed _ _ _ _ H) as (_ & _ & _ & Hdw & Hnw & _).
  split; [exact Hrow|]. split; [rewrite Hnw; reflexivity | exact Hdw].
Qed.

Lemma legacy_shift_rule name emp kpi_sum n :
  0 < n -> shift_rule emp n (Legacy.shift_row name emp kpi_sum n).
Proof.
  intros Hn. split; [apply legacy_row_of_shift|]. split; [reflexivity|].
  apply (legacy_shift_computed name emp kpi_sum n Hn).
Qed.

Lemma shift_figure_overrun emp n :
  0 <= n -> n < letters_weekday emp + letters_sat emp ->
  (shift_figure emp n == 0)%Q.
Proof.
  intros Hn Hover. rewrite shift_figure_Z.
  replace (Z.max 0 (Z.min (n - (letters_weekday emp + letters_sat emp)) n))
    with 0 by lia.
  reflexivity.
Qed.

Lemma Qround2_0 (q : Q) : (q == 0)%Q -> (Qround2 q == 0)%Q.
Proof. intros H. rewrite H. reflexivity. Qed.

Lemma computed_overrun emp n r :
  row_of emp n r ->
  (res_days_worked r == Fin (shift_figure emp n))%F ->
  (res_not_worked r == of_int (letters_weekday emp + letters_sat emp))%F ->
  computed_from r (shift_figure emp n) ->
  finite (res_kpi_sum r) ->
  n < letters_weekday emp + letters_sat emp ->
  shift_overrun emp n r.
Proof.
  intros Hrow Hdw Hnw (Hn & _ & p & Hp & Hwp & Hfin) Hs Hover.
  pose proof Hrow as (Hd & _). rewrite Hd in Hn, Hp.
  pose proof (shift_figure_overrun emp n ltac:(lia) Hover) as H0.
  assert (Hp0 : (p == 0)%Q).
  { rewrite Hp, H0. unfold Qdiv. ring. }
  unfold shift_overrun. cbv zeta.
  split; [exact Hrow|].
  split; [rewrite Hdw; exact H0|].
  split; [rewrite Hwp; apply Qround2_0, Hp0|].
  split.
  { rewrite Hfin. destruct (res_kpi_sum r) as [s| | |]; try contradiction.
    cbn [fmul round2]. apply Qround2_0. rewrite Hp0. unfold Qdiv. ring. }
  split; [exact Hnw|]. split; [exact Hover|].
  rewrite Hnw, Hdw. unfold of_int. cbn [fsub feq]. rewrite H0.
  intros E.
  assert (E' : (inject_Z (letters_weekday emp + letters_sat emp)
                == inject_Z n)%Q) by (rewrite E; ring).
  unfold Qeq in E'. simpl in E'. lia.
Qed.

Lemma improved_shift_overrun emp kpi_info n r :
  Improved._calculate_shift_kpi emp kpi_info n = Some r ->
  finite (res_kpi_sum r) ->
  n < letters_weekday emp + letters_sat emp ->
  shift_overrun emp n r.
Proof.
  intros H Hs Hover.
  pose proof (improved_shift_fields _ _ _ _ H) as (_ & _ & _ & Hrow & _).
  pose proof (improved_shift_computed _ _ _ _ H) as (_ & _ & _ & Hdw & Hnw & Hc).
  apply computed_overrun; try assumption. rewrite Hnw. reflexivity.
Qed.

Lemma legacy_shift_overrun name emp kpi_sum n :
  0 < n -> finite kpi_sum ->
  n < letters_weekday emp + letters_sat emp ->
  shift_overrun emp n (Legacy.shift_row name emp kpi_sum n).
Proof.
  intros Hn Hs Hover.
  pose proof (legacy_shift_computed name emp kpi_sum n Hn) as (Hdw & Hc).
  apply computed_overrun; try assumption.
  - apply legacy_row_of_shift.
  - reflexivity.
Qed.

Lemma improved_shift_rows employees kpi_table nch_day nd_shift r :
  In r (fst (Improved.calculate employees kpi_table nch_day nd_shift)) ->
  res_schedule_type r = "shift" ->
  exists emp kpi_info,
    In emp employees /\ res_fio r = fio emp
    /\ Improved._calculate_shift_kpi emp kpi_info nd_shift = Some r.
Proof.
  intros Hr Hs. apply improved_results_origin in Hr.
  destruct Hr as (emp & Hemp & kpi_info & [H|H]).
  - apply improved_day_fields in H. destruct H as (_ & _ & Hd & _).
    rewrite Hd in Hs. discriminate Hs.
  - exists emp, kpi_info. split; [exact Hemp|].
    split; [apply improved_shift_fields in H; tauto | exact H].
Qed.

Lemma legacy_shift_rows employees kpi_table nch_day nd_shift r :
  In r (fst (Legacy.calculate_kpi_for_employees employees kpi_table
               nch_day nd_shift)) ->
  res_schedule_type r = "shift" ->
  exists emp kpi_sum,
    In emp employees /\ 0 < nd_shift
    /\ r = Legacy.shift_row (strip (fio emp)) emp kpi_sum nd_shift.
Proof.
  intros Hr Hs. apply legacy_results_origin in Hr.
  destruct Hr as (emp & Hemp & kpi_sum & [[Hn ->]|[Hn ->]]).
  - discriminate Hs.
  - exists emp, kpi_sum. repeat split; assumption.
Qed.

End ShiftBranch.

(** Claim C2.  In the shift branch the absence count is
    [lettersWeekday + lettersSaturday]: whatever the Sunday letters, the
    holiday letters and the total-days figure of the record, a positive norm
    yields a row that reports the counters of the record and the norm, whose
    [notWorked] is exactly that count and whose [daysWorked] is
    [clamp(shiftNorm - absences, 0, shiftNorm)].  This holds of the branch
    function of the improved calculator, of the shift row of the legacy
    calculator, and of every shift row of a run of either, for the record
    of the input the row bears the name of; the witness below is the case
    [shiftNorm = 30], [lettersSunday = 4], with [daysWorked = 30] and
    [notWorked = 0]. *)
Theorem shift_branch_rule {PS : PyStr} :
  (forall emp kpi_info n,
     0 < n ->
     exists r, Improved._calculate_shift_kpi emp kpi_info n = Some r
               /\ shift_rule emp n r)
  /\ (forall name emp kpi_sum n,
        0 < n -> shift_rule emp n (Legacy.shift_row name emp kpi_sum n))
  /\ (forall employees kpi_table nch_day nd_shift r,
        In r (fst (Improved.calculate employees kpi_table nch_day nd_shift)) ->
        res_schedule_type r = "shift" ->
        exists emp, In emp employees /\ res_fio r = fio emp
                    /\ shift_rule emp nd_shift r)
  /\ (forall employees kpi_table nch_day nd_shift r,
        In r (fst (Legacy.calculate_kpi_for_employees employees kpi_table
                     nch_day nd_shift)) ->
        res_schedule_type r = "shift" ->
        exists emp, In emp employees /\ res_fio r = strip (fio emp)
                    /\ shift_rule emp nd_shift r).
Proof.
  split; [|split; [|split]].
  - intros emp kpi_info n Hn.
    destruct (improved_shift_some emp kpi_info n Hn) as (r & E).
    exists r. split; [exact E|]. eapply improved_shift_rule, E.
  - intros name emp kpi_sum n Hn. apply legacy_shift_rule, Hn.
  - intros employees kpi_table nch_day nd_shift r Hr Hs.
    destruct (improved_shift_rows _ _ _ _ _ Hr Hs) as (emp & ki & Hemp & Hf & H).
    exists emp. split; [exact Hemp|]. split; [exact Hf|].
    eapply improved_shift_rule, H.
  - intros employees kpi_table nch_day nd_shift r Hr Hs.
    destruct (legacy_shift_rows _ _ _ _ _ Hr Hs) as (emp & ks & Hemp & Hn & ->).
    exists emp. split; [exact Hemp|]. split; [reflexivity|].
    apply legacy_shift_rule, Hn.
Qed.

(** Claim C2, witness: in a run of either calculator, four Sunday letters,
    three holiday letters and a total-days figure of 12 leave
    [daysWorked = 30] and [notWorked = 0]. *)
Lemma shift_branch_rule_witness :
  (exists r,
     Improved.calculate [petrov] [petrov_item] 22 30 = ([r], [])
     /\ (exists emp, In emp [petrov] /\ res_fio r = fio emp
                     /\ shift_rule emp 30 r)
     /\ (res_days_worked r == of_int 30)%F
     /\ (res_not_worked r == of_int 0)%F)
  /\ (exists r,
        Legacy.calculate_kpi_for_employees [petrov] [petrov_item] 22 30
        = ([r], [])
        /\ (exists emp, In emp [petrov] /\ res_fio r = strip (fio emp)
                        /\ shift_rule emp 30 r)
        /\ (res_days_worked r == of_int 30)%F
        /\ (res_not_worked r == of_int 0)%F).
Proof.
  split.
  - eexists. split; [vm_compute; reflexivity|].
    split; [|split; reflexivity].
    refine (proj1 (proj2 (proj2 shift_branch_rule))
              [petrov] [petrov_item] 22 30 _ _ _).
    + left. vm_compute. reflexivity.
    + reflexivity.
  - eexists. split; [vm_compute; reflexivity|].
    split; [|split; reflexivity].
    refine (proj2 (proj2 (proj2 shift_branch_rule))
              [petrov] [petrov_item] 22 30 _ _ _).
    + left. vm_compute. reflexivity.
    + reflexivity.
Defined.

(** Claim C10.  In the shift branch, when
    [lettersWeekday + lettersSaturday > shiftNorm > 0] and the entitlement
    [kpiSum] is a finite number, the emitted row has [daysWorked = 0],
    [workPercent = 0], [kpiFinal = 0] and
    [notWorked = lettersWeekday + lettersSaturday], which is strictly greater
    than [daysAssigned]: [notWorked] is not clamped to the norm and differs
    from [daysAssigned - daysWorked].  This holds of the branch function of
    the improved calculator, of the shift row of the legacy calculator and
    of every shift row of a run of either.  When the entitlement is the
    float [nan] of a blank cell, which [float(... or 0)] lets through, the
    final amount is [0 * nan = nan] and not 0, in both calculators. *)
Theorem shift_absences_beyond_norm {PS : PyStr} :
  (forall emp kpi_info n,
     0 < n -> n < letters_weekday emp + letters_sat emp ->
     exists r, Improved._calculate_shift_kpi emp kpi_info n = Some r
               /\ (finite (info_kpi_sum kpi_info) -> shift_overrun emp n r)
               /\ (info_kpi_sum kpi_info = NaN -> res_kpi_final r = NaN))
  /\ (forall name emp kpi_sum n,
        0 < n -> n < letters_weekday emp + letters_sat emp ->
        (finite kpi_sum ->
         shift_overrun emp n (Legacy.shift_row name emp kpi_sum n))
        /\ (kpi_sum = NaN ->
            res_kpi_final (Legacy.shift_row name emp kpi_sum n) = NaN))
  /\ (forall employees kpi_table nch_day nd_shift r,
        In r (fst (Improved.calculate employees kpi_table nch_day nd_shift)) ->
        res_schedule_type r = "shift" ->
        res_days_assigned r < res_letters_weekday r + res_letters_sat r ->
        finite (res_kpi_sum r) ->
        exists emp, In emp employees /\ res_fio r = fio emp
                    /\ shift_overrun emp nd_shift r)
  /\ (forall employees kpi_table nch_day nd_shift r,
        In r (fst (Legacy.calculate_kpi_for_employees employees kpi_table
                     nch_day nd_shift)) ->
        res_schedule_type r = "shift" ->
        res_days_assigned r < res_letters_weekday r + res_letters_sat r ->
        finite (res_kpi_sum r) ->
        exists emp, In emp employees /\ res_fio r = strip (fio emp)
                    /\ shift_overrun emp nd_shift r)
  /\ (exists r,
        Improved.calculate (PS := ascii_PyStr) [sidorov] [sidorov_blank_item]
          22 30 = ([r], [])
        /\ (res_work_percent r == Fin 0)%F /\ res_kpi_final r = NaN)
  /\ (exists r,
        Legacy.calculate_kpi_for_employees (PS := ascii_PyStr) [sidorov]
          [sidorov_blank_item] 22 30 = ([r], [])
        /\ (res_work_percent r == Fin 0)%F /\ res_kpi_final r = NaN).
Proof.
  split; [|split; [|split; [|split; [|split]]]].
  - intros emp kpi_info n Hn Hover.
    destruct (improved_shift_some emp kpi_info n Hn) as (r & E).
    exists r. split; [exact E|].
    pose proof (improved_shift_fields _ _ _ _ E) as (_ & _ & _ & _ & Hsum).
    split.
    + intros Hs. eapply improved_shift_overrun; [exact E | | exact Hover].
      rewrite Hsum. exact Hs.
    + intros Hs.
      pose proof (improved_shift_computed _ _ _ _ E)
        as (_ & _ & _ & _ & _ & _ & _ & p & _ & _ & Hfin).
      rewrite Hfin, Hsum, Hs. reflexivity.
  - intros name emp kpi_sum n Hn Hover. split.
    + intros Hs. apply legacy_shift_overrun; assumption.
    + intros ->.
      pose proof (legacy_shift_computed name emp NaN n Hn)
        as (_ & _ & _ & p & _ & _ & Hfin).
      rewrite Hfin. reflexivity.
  - intros employees kpi_table nch_day nd_shift r Hr Hs Hover Hfin.
    destruct (improved_shift_rows _ _ _ _ _ Hr Hs) as (emp & ki & Hemp & Hf & H).
    exists emp. split; [exact Hemp|]. split; [exact Hf|].
    pose proof (improved_shift_fields _ _ _ _ H)
      as (_ & _ & _ & (Hd & Hw & Hsat & _) & _).
    eapply improved_shift_overrun; [exact H | exact Hfin |].
    rewrite <- Hd, <- Hw, <- Hsat. exact Hover.
  - intros employees kpi_table nch_day nd_shift r Hr Hs Hover Hfin.
    destruct (legacy_shift_rows _ _ _ _ _ Hr Hs) as (emp & ks & Hemp & Hn & ->).
    exists emp. split; [exact Hemp|]. split; [reflexivity|].
    apply legacy_shift_overrun; assumption.
  - eexists. split; [vm_compute; reflexivity|]. split; reflexivity.
  - eexists. split; [vm_compute; reflexivity|]. split; reflexivity.
Qed.

(** Claim C10, witness: 35 absences against a norm of 30, in a run of either
    calculator. *)
Lemma shift_absences_beyond_norm_witness :
  (exists r,
     Improved.calculate [sidorov] [sidorov_item] 22 30 = ([r], [])
     /\ (res_not_worked r == of_int 35)%F
     /\ exists emp, In emp [sidorov] /\ res_fio r = fio emp
                    /\ shift_overrun emp 30 r)
  /\ (exists r,
        Legacy.calculate_kpi_for_employees [sidorov] [sidorov_item] 22 30
        = ([r], [])
        /\ (res_not_worked r == of_int 35)%F
        /\ exists emp, In emp [sidorov] /\ res_fio r = strip (fio emp)
                       /\ shift_overrun emp 30 r).
Proof.
  split.
  - eexists. split; [vm_compute; reflexivity|]. split; [reflexivity|].
    refine (proj1 (proj2 (proj2 shift_absences_beyond_norm))
              [sidorov] [sidorov_item] 22 30 _ _ _ _ _).
    + left. vm_compute. reflexivity.
    + reflexivity.
    + vm_compute. reflexivity.
    + exact I.
  - eexists. split; [vm_compute; reflexivity|]. split; [reflexivity|].
    refine (proj1 (proj2 (proj2 (proj2 shift_absences_beyond_norm)))
              [sidorov] [sidorov_item] 22 30 _ _ _ _ _).
    + left. vm_compute. reflexivity.
    + reflexivity.
    + vm_compute. reflexivity.
    + exact I.
Defined.

(** ** The day branch *)

Section DayBranch.
Context {PS : PyStr}.

Lemma day_figure_total emp n t :
  worked_days_total emp = TotalNum t -> day_figure emp n = clamp_float t n.
Proof. intros H. unfold day_figure, day_source. rewrite H. reflexivity. Qed.

Lemma not_nan_total emp t :
  worked_days_total emp = TotalNum t -> is_nan t = false -> ~ nan_total emp.
Proof.
  unfold nan_total. intros H Ht E. rewrite H in E. injection E as ->.
  discriminate Ht.
Qed.

End DayBranch.

(** Claim C3, as amended.  In the day branch, whenever [totalDaysWorked] is
    present (a number [t], which may be infinite but is not [nan]) and the
    norm is positive, the derived value [dayNorm - lettersWeekday] is not
    used: the row reports the counters of the record and the norm, the
    legacy calculator reports [daysWorked = clamp(t, 0, dayNorm)], and the
    improved calculator reports that value rounded to two decimals,
    [daysWorked = round(clamp(t, 0, dayNorm), 2)], which is the clamp itself
    whenever the clamp has at most two decimals. *)
Theorem day_branch_total_override {PS : PyStr} (emp : EmployeeData)
    (kpi_info : KPIInfo) (name : string) (kpi_sum : float) (n : Z)
    (t : float) :
  0 < n ->
  worked_days_total emp = TotalNum t ->
  is_nan t = false ->
  (exists r,
     Improved._calculate_day_kpi emp kpi_info n = Some r
     /\ row_of emp n r
     /\ (res_days_worked r == round2 (Fin (clamp_float t n)))%F
     /\ ((Qround2 (clamp_float t n) == clamp_float t n)%Q ->
         (res_days_worked r == Fin (clamp_float t n))%F))
  /\ row_of emp n (Legacy.day_row name emp kpi_sum n)
  /\ (res_days_worked (Legacy.day_row name emp kpi_sum n)
      == Fin (clamp_float t n))%F.
Proof.
  intros Hn Ht Hnan. split; [|split].
  - destruct (improved_day_some emp kpi_info n Hn) as (r & E).
    pose proof (improved_day_fields _ _ _ _ E) as (_ & _ & _ & Hrow & _).
    pose proof (improved_day_computed _ _ _ _ E) as (_ & _ & _ & Hdw & _).
    rewrite (day_figure_total emp n t Ht) in Hdw.
    exists r. split; [exact E|]. split; [exact Hrow|]. split; [exact Hdw|].
    intros Eq. rewrite Hdw. exact Eq.
  - apply legacy_row_of_day.
  - pose proof (legacy_day_computed name emp kpi_sum n Hn
                  (not_nan_total emp t Ht Hnan)) as (Hdw & _).
    rewrite (day_figure_total emp n t Ht) in Hdw. exact Hdw.
Qed.

(** Claim C3, witness: [totalDaysWorked = 20], [dayNorm = 22] and
    [lettersWeekday = 5] report [daysWorked = 20], not 17. *)
Lemma day_branch_total_override_witness :
  (exists r,
     Improved._calculate_day_kpi akhmetov
       (Improved.make_info akhmetov_item "Akhmetov") 22 = Some r
     /\ (res_days_worked r == of_int 20)%F)
  /\ (res_days_worked (Legacy.day_row "Akhmetov" akhmetov (Fin (10000 # 1)) 22)
      == of_int 20)%F.
Proof.
  destruct (day_branch_total_override akhmetov
              (Improved.make_info akhmetov_item "Akhmetov") "Akhmetov"
              (Fin (10000 # 1)) 22 (Fin (20 # 1)) eq_refl eq_refl eq_refl)
    as [(r & Hr & _ & Hdw & _) [_ Hleg]].
  split.
  - exists r. split; [exact Hr|]. rewrite Hdw. vm_compute. reflexivity.
  - rewrite Hleg. vm_compute. reflexivity.
Defined.

(** Claim C3, counterexample to the original wording: with
    [totalDaysWorked = 20.557] and [dayNorm = 22] the improved calculator
    reports [daysWorked = 20.56], which is not the clamped figure 20.557. *)
Lemma day_branch_total_rounded :
  exists r,
    Improved.calculate [omarov] [omarov_item] 22 30 = ([r], [])
    /\ (res_days_worked r == Fin (2056 # 100))%F
    /\ ~ (res_days_worked r == Fin (clamp (20557 # 1000) 0 22))%F.
Proof.
  eexists. split; [vm_compute; reflexivity|].
  split; [reflexivity|]. vm_compute. discriminate.
Qed.

(** ** Dispatch on the schedule type and the norm *)

Section Dispatch.
Context {PS : PyStr}.

(** The legacy loop reports a record that reaches the schedule branch under
    a norm that is not positive. *)
Lemma legacy_step_invalid_plan kpi_map nch_day nd_shift st emp kpi_info :
  is_empty (strip (fio emp)) = false ->
  key (fio emp) ∉ seen st ->
  kpi_map !! key (fio emp) = Some kpi_info ->
  String.eqb (strip (item_categoryCode kpi_info)) "4" = false ->
  (if String.eqb (Legacy.schedule_type_of kpi_info) "day"
   then nch_day else nd_shift) <= 0 ->
  exists details,
    Legacy.step kpi_map nch_day nd_shift st emp
    = add_error (add_seen st (key (fio emp)))
        (mkError (strip (fio emp)) INVALID_PLAN details).
Proof.
  intros Eb Hout Hget Hcat Hnorm. unfold Legacy.step. fold (key (fio emp)).
  rewrite Eb. destruct (decide (key (fio emp) ∈ seen st)); [contradiction|].
  rewrite Hget, Hcat.
  destruct (String.eqb (Legacy.schedule_type_of kpi_info) "day").
  - apply Z.leb_le in Hnorm. rewrite Hnorm. eexists. reflexivity.
  - apply Z.leb_le in Hnorm. rewrite Hnorm. eexists. reflexivity.
Qed.

(** The improved loop drops such a record: it is marked as seen, and neither
    a row nor an error is appended. *)
Lemma improved_step_invalid_plan kpi_map nch_day nd_shift st emp kpi_info :
  is_empty (strip (fio emp)) = false ->
  key (fio emp) ∉ seen st ->
  kpi_map !! key (fio emp) = Some kpi_info ->
  String.eqb (strip (info_category_code kpi_info)) "4" = false ->
  (if String.eqb (lower (info_schedule_type kpi_info)) "day"
   then nch_day else nd_shift) <= 0 ->
  Improved.step kpi_map nch_day nd_shift st emp = add_seen st (key (fio emp)).
Proof.
  intros Eb Hout Hget Hcat Hnorm. unfold Improved.step. fold (key (fio emp)).
  rewrite Eb. destruct (decide (key (fio emp) ∈ seen st)); [contradiction|].
  rewrite Hget, Hcat. unfold Improved.branch.
  destruct (String.eqb (lower (info_schedule_type kpi_info)) "day").
  - unfold Improved._calculate_day_kpi.
    apply Z.leb_le in Hnorm. rewrite Hnorm. reflexivity.
  - unfold Improved._calculate_shift_kpi.
    apply Z.leb_le in Hnorm. rewrite Hnorm. reflexivity.
Qed.

(** The legacy calculator treats every schedule type but ["shift"] as
    ["day"]. *)
Lemma legacy_schedule_type_default (kpi_info : KpiItem) :
  lower (strip (item_scheduleType kpi_info)) <> "shift" ->
  Legacy.schedule_type_of kpi_info = "day".
Proof.
  intros Hne. unfold Legacy.schedule_type_of.
  destruct (String.eqb_spec (lower (strip (item_scheduleType kpi_info))) "day") as [E|E].
  - simpl. exact E.
  - destruct (String.eqb_spec (lower (strip (item_scheduleType kpi_info))) "shift") as [E'|E'].
    + contradiction.
    + reflexivity.
Qed.

(** The improved calculator treats every schedule type but ["day"] as
    ["shift"]. *)
Lemma improved_branch_default emp kpi_info nch_day nd_shift :
  lower (info_schedule_type kpi_info) <> "day" ->
  Improved.branch emp kpi_info nch_day nd_shift
  = Improved._calculate_shift_kpi emp kpi_info nd_shift.
Proof.
  intros Hne. unfold Improved.branch.
  destruct (String.eqb_spec (lower (info_schedule_type kpi_info)) "day");
    [contradiction | reflexivity].
Qed.

End Dispatch.

(** Claim C5, at the failing input.  A day-schedule employee found on the
    roster, with [dayNorm = 0] and [shiftNorm = 30]: the improved calculator
    returns no row and no error at all, where the legacy calculator reports
    [INVALID_PLAN]. *)
Theorem improved_invalid_plan_is_silent :
  Improved.calculate [ivanov] [ivanov_item] 0 30 = ([], [])
  /\ Legacy.calculate_kpi_for_employees [ivanov] [ivanov_item] 0 30
     = ([], [mkError "Ivanov" INVALID_PLAN "Н.ч (назначено дней) <= 0"]).
Proof. split; vm_compute; reflexivity. Qed.

(** Claim C6, at the failing input.  For the schedule type ["night"] the
    improved calculator takes the shift branch with [shiftNorm = 30], where
    the legacy calculator takes the day branch with [dayNorm = 22]. *)
Theorem improved_unrecognized_schedule_is_shift :
  (exists r,
     Improved.calculate [ivanov] [night_item] 22 30 = ([r], [])
     /\ res_schedule_type r = "shift" /\ res_days_assigned r = 30)
  /\ (exists r,
        Legacy.calculate_kpi_for_employees [ivanov] [night_item] 22 30
        = ([r], [])
        /\ res_schedule_type r = "day" /\ res_days_assigned r = 22).
Proof.
  split; eexists; (split; [vm_compute; reflexivity|]); split; reflexivity.
Qed.

(** ** One outcome per name *)

Section Names.
Context {PS : PyStr} {PL : PyStrLaws PS}.

Lemma key_strip (name : string) : key (strip name) = key name.
Proof. unfold key. rewrite strip_idemp. reflexivity. Qed.

Lemma improved_step_outcome kpi_map nch_day nd_shift st emp :
  step_outcome st emp (Improved.step kpi_map nch_day nd_shift st emp).
Proof.
  unfold Improved.step. fold (key (fio emp)).
  destruct (is_empty (strip (fio emp))) eqn:Eb; [apply outcome_blank, Eb|].
  destruct (decide (key (fio emp) ∈ seen st)) as [Hin|Hout].
  { apply outcome_duplicate; [exact Eb | exact Hin | reflexivity | apply key_strip]. }
  destruct (kpi_map !! key (fio emp)) as [kpi_info|].
  2:{ apply outcome_failure; [exact Eb | exact Hout | discriminate | apply key_strip]. }
  destruct (String.eqb _ "4").
  { apply outcome_failure; [exact Eb | exact Hout | discriminate | apply key_strip]. }
  destruct (Improved.branch emp kpi_info nch_day nd_shift) as [r|] eqn:Er.
  2:{ apply outcome_silent; [exact Eb | exact Hout]. }
  apply outcome_result; [exact Eb | exact Hout |].
  assert (Hfio : res_fio r = fio emp).
  { revert Er. unfold Improved.branch, Improved._calculate_day_kpi,
      Improved._calculate_shift_kpi.
    destruct (String.eqb _ "day");
      [destruct (nch_day <=? 0) | destruct (nd_shift <=? 0)];
      intros [= <-] || discriminate; reflexivity. }
  rewrite Hfio. reflexivity.
Qed.

Lemma legacy_step_outcome kpi_map nch_day nd_shift st emp :
  step_outcome st emp (Legacy.step kpi_map nch_day nd_shift st emp).
Proof.
  unfold Legacy.step. fold (key (fio emp)).
  destruct (is_empty (strip (fio emp))) eqn:Eb; [apply outcome_blank, Eb|].
  destruct (decide (key (fio emp) ∈ seen st)) as [Hin|Hout].
  { apply outcome_duplicate; [exact Eb | exact Hin | reflexivity | apply key_strip]. }
  destruct (kpi_map !! key (fio emp)) as [kpi_info|].
  2:{ apply outcome_failure; [exact Eb | exact Hout | discriminate | apply key_strip]. }
  destruct (String.eqb _ "4").
  { apply outcome_failure; [exact Eb | exact Hout | discriminate | apply key_strip]. }
  destruct (String.eqb _ "day").
  - destruct (nch_day <=? 0).
    + apply outcome_failure; [exact Eb | exact Hout | discriminate | apply key_strip].
    + apply outcome_result; [exact Eb | exact Hout | apply key_strip].
  - destruct (nd_shift <=? 0).
    + apply outcome_failure; [exact Eb | exact Hout | discriminate | apply key_strip].
    + apply outcome_result; [exact Eb | exact Hout | apply key_strip].
Qed.

Lemma count_snoc {A : Type} (p : A -> bool) (l : list A) (x : A) :
  count p (l ++ [x]) = (count p l + (if p x then 1 else 0))%nat.
Proof.
  unfold count. rewrite List.filter_app, length_app. simpl.
  destruct (p x); reflexivity.
Qed.

Lemma count_cons {A : Type} (p : A -> bool) (l : list A) (x : A) :
  count p (x :: l) = ((if p x then 1 else 0) + count p l)%nat.
Proof. unfold count. simpl. destruct (p x); reflexivity. Qed.

Lemma seen_add_same (s : gset string) (k : string) : k ∈ s ∪ {[k]}.
Proof. apply elem_of_union_r, elem_of_singleton. reflexivity. Qed.

Lemma seen_add_in (s : gset string) (k k' : string) : k ∈ s -> k ∈ s ∪ {[k']}.
Proof. apply elem_of_union_l. Qed.

Lemma seen_add_out (s : gset string) (k k' : string) :
  k' <> k -> k ∉ s -> k ∉ s ∪ {[k']}.
Proof.
  intros Hne Hout Hin. apply elem_of_union in Hin.
  destruct Hin as [Hin|Hin]; [exact (Hout Hin)|].
  apply elem_of_singleton in Hin. congruence.
Qed.

Lemma occurrences_cons (k : string) (emp : EmployeeData)
    (employees : list EmployeeData) :
  occurrences k (emp :: employees)
  = ((if negb (is_empty (strip (fio emp))) && String.eqb (key (fio emp)) k
      then 1 else 0) + occurrences k employees)%nat.
Proof. unfold occurrences. rewrite count_cons. reflexivity. Qed.

Lemma run_counts_fold (step : LoopState -> EmployeeData -> LoopState) :
  (forall st emp, step_outcome st emp (step st emp)) ->
  forall k employees st, run_counts k employees st (fold_left step employees st).
Proof.
  intros Hstep k employees.
  induction employees as [|emp employees IH]; intros st.
  { unfold run_counts, occurrences, count. simpl. split; intros _; lia. }
  simpl fold_left. specialize (IH (step st emp)).
  unfold run_counts in *. destruct IH as [IHin IHout].
  rewrite occurrences_cons.
  destruct (Hstep st emp) as [Eb | e Eb Hin Hty Hkey | r Eb Hout Hkey
                             | e Eb Hout Hty Hkey | Eb Hout].
  - (* blank name *)
    rewrite Eb. simpl. split; assumption.
  - (* repeated name *)
    rewrite Eb. cbn [negb andb].
    assert (Hd : is_duplicate e = true) by (unfold is_duplicate; rewrite Hty; reflexivity).
    cbn [add_error results errors seen] in *.
    unfold duplicates_named, failures_named in *. rewrite !count_snoc in *.
    rewrite Hkey, Hd in *. cbn [negb andb] in *. rewrite !andb_false_r, !andb_true_r in *.
    destruct (String.eqb_spec (key (fio emp)) k) as [Ek|Ek].
    + subst k. split; [intros _ | intros Hn; contradiction].
      destruct (IHin Hin) as (H1 & H2 & H3). lia.
    + split; intros Hk.
      * destruct (IHin Hk) as (H1 & H2 & H3). lia.
      * destruct (IHout Hk) as (H1 & H2). lia.
  - (* a row *)
    rewrite Eb. cbn [negb andb].
    cbn [add_result add_seen results errors seen] in *.
    unfold results_named in *. rewrite !count_snoc in *. rewrite Hkey in *.
    destruct (String.eqb_spec (key (fio emp)) k) as [Ek|Ek].
    + subst k. split; [intros Hn; contradiction | intros _].
      destruct (IHin (seen_add_same _ _)) as (H1 & H2 & H3). lia.
    + split; intros Hk.
      * destruct (IHin (seen_add_in _ _ _ Hk)) as (H1 & H2 & H3). lia.
      * destruct (IHout (seen_add_out _ _ _ Ek Hk)) as (H1 & H2). lia.
  - (* an error other than DUPLICATE *)
    rewrite Eb. cbn [negb andb].
    assert (Hd : is_duplicate e = false).
    { unfold is_duplicate. destruct (err_type e); congruence. }
    cbn [add_error add_seen results errors seen] in *.
    unfold duplicates_named, failures_named in *. rewrite !count_snoc in *.
    rewrite Hkey, Hd in *. cbn [negb andb] in *. rewrite !andb_false_r, !andb_true_r in *.
    destruct (String.eqb_spec (key (fio emp)) k) as [Ek|Ek].
    + subst k. split; [intros Hn; contradiction | intros _].
      destruct (IHin (seen_add_same _ _)) as (H1 & H2 & H3). lia.
    + split; intros Hk.
      * destruct (IHin (seen_add_in _ _ _ Hk)) as (H1 & H2 & H3). lia.
      * destruct (IHout (seen_add_out _ _ _ Ek Hk)) as (H1 & H2). lia.
  - (* nothing emitted *)
    rewrite Eb. cbn [negb andb].
    cbn [add_seen results errors seen] in *.
    destruct (String.eqb_spec (key (fio emp)) k) as [Ek|Ek].
    + subst k. split; [intros Hn; contradiction | intros _].
      destruct (IHin (seen_add_same _ _)) as (H1 & H2 & H3). lia.
    + split; intros Hk.
      * destruct (IHin (seen_add_in _ _ _ Hk)) as (H1 & H2 & H3). lia.
      * destruct (IHout (seen_add_out _ _ _ Ek Hk)) as (H1 & H2). lia.
Qed.

Lemma run_from_empty (step : LoopState -> EmployeeData -> LoopState)
    (employees : list EmployeeData) :
  (forall st emp, step_outcome st emp (step st emp)) ->
  let st := fold_left step employees (mkState [] [] ∅) in
  one_outcome_then_duplicates employees (results st, errors st).
Proof.
  intros Hstep st k.
  destruct (run_counts_fold step Hstep k employees (mkState [] [] ∅)) as [_ H].
  destruct H as [H1 H2]; [apply not_elem_of_empty|].
  cbn [fst snd results errors] in *. fold st in H1, H2.
  unfold results_named, failures_named, duplicates_named, count in *. simpl in *.
  split; lia.
Qed.

End Names.

(** Claim C4, as amended.  Provided trimming is idempotent, within one run
    of either calculator every name (compared after trimming and
    lower-casing) has at most one row or one
    error other than [DUPLICATE], never both, and none at all when it does
    not occur in the input; and it has exactly one [DUPLICATE] error for each
    of its occurrences after the first. *)
Theorem one_outcome_per_name_then_duplicates {PS : PyStr} {PL : PyStrLaws PS}
    (employees : list EmployeeData) (kpi_table : list KpiItem)
    (nch_day nd_shift : Z) :
  one_outcome_then_duplicates employees
    (Improved.calculate employees kpi_table nch_day nd_shift)
  /\ one_outcome_then_duplicates employees
       (Legacy.calculate_kpi_for_employees employees kpi_table
          nch_day nd_shift).
Proof.
  split.
  - apply (run_from_empty (Improved.step (Improved._build_kpi_map kpi_table)
                             nch_day nd_shift)).
    intros st emp. apply improved_step_outcome.
  - apply (run_from_empty (Legacy.step (Legacy.build_kpi_map kpi_table)
                             nch_day nd_shift)).
    intros st emp. apply legacy_step_outcome.
Qed.

(** Claim C4, witness: a name that occurs twice, on ASCII text. *)
Lemma one_outcome_per_name_then_duplicates_witness :
  one_outcome_then_duplicates
    [ivanov; ivanov_again]
    (Improved.calculate
       [ivanov; ivanov_again]
       [ivanov_item] 22 30)
  /\ one_outcome_then_duplicates
       [ivanov; ivanov_again]
       (Legacy.calculate_kpi_for_employees
          [ivanov; ivanov_again]
          [ivanov_item] 22 30).
Proof.
  exact (one_outcome_per_name_then_duplicates (PL := ascii_PyStrLaws)
           [ivanov; ivanov_again]
           [ivanov_item] 22 30).
Defined.

(** Claim C4, counterexample to the original wording.  When a name occurs
    twice (here up to case and blanks), the output holds the row of the first
    occurrence and a [DUPLICATE] error of the second: the name appears as one
    row and one error. *)
Lemma repeated_name_has_row_and_error :
  Improved.calculate [ivanov; ivanov_again]
    [ivanov_item] 22 30
  = (fst (Improved.calculate [ivanov] [ivanov_item] 22 30),
     [mkError "IVANOV" DUPLICATE "ФИО повторяется в табеле"])
  /\ ~ one_outcome_per_name
         (Improved.calculate
            [ivanov; ivanov_again]
            [ivanov_item] 22 30)
  /\ ~ one_outcome_per_name
         (Legacy.calculate_kpi_for_employees
            [ivanov; ivanov_again]
            [ivanov_item] 22 30).
Proof.
  split; [vm_compute; reflexivity|].
  split; intros H; specialize (H "ivanov"); vm_compute in H; lia.
Qed.

(** ** The parser *)

Section Detection.
Context {PS : PyStr}.

Lemma _has_kz_header_true (df : DataFrame) :
  _has_kz_header df = true <-> has_header_cell df.
Proof.
  unfold _has_kz_header, has_header_cell. rewrite existsb_exists. split.
  - intros (row & Hrow & Hex). apply existsb_exists in Hex.
    destruct Hex as (v & Hv & Heq). apply String.eqb_eq in Heq. eauto.
  - intros (row & v & Hrow & Hv & Heq). exists row. split; [exact Hrow|].
    apply existsb_exists. exists v. split; [exact Hv|].
    apply String.eqb_eq. exact Heq.
Qed.

Lemma employee_label_true (cols : list cell) :
  existsb is_employee_label cols = true <-> In (CStr EMPLOYEE) cols.
Proof.
  rewrite existsb_exists. split.
  - intros (c & Hc & Heq). destruct c as [|s|z|t]; try discriminate Heq.
    apply String.eqb_eq in Heq. subst s. exact Hc.
  - intros Hin. exists (CStr EMPLOYEE). split; [exact Hin|].
    apply String.eqb_refl.
Qed.

Lemma unrecognized_after_holidays (file_storage : Workbook) (year month : Z)
    (holidays : option (list holiday_item)) (holiday_days : gset Z) :
  ~ has_header_cell (read_raw file_storage) ->
  ~ has_employee_column (read_with_header file_storage) ->
  _normalize_holidays holidays year month = Ok holiday_days ->
  parse_timesheet_from_excel file_storage year month holidays
  = ValueError UNRECOGNIZED.
Proof.
  intros Hkz Hemp Hh. unfold parse_timesheet_from_excel. rewrite Hh.
  cbn [rbind].
  destruct (_has_kz_header (read_raw file_storage)) eqn:E1.
  { exfalso. apply Hkz, _has_kz_header_true, E1. }
  destruct (existsb is_employee_label (columns (read_with_header file_storage)))
    eqn:E2.
  { exfalso. apply Hemp, employee_label_true, E2. }
  reflexivity.
Qed.

Lemma classify_day_cases (year month day_num : Z) (holiday_days : gset Z) :
  day_num ∉ holiday_days ->
  Calendar.valid_date year month day_num = false ->
  _classify_day year month day_num holiday_days
  = if Calendar.c_ints year month day_num then Ok Weekday else OverflowError.
Proof.
  intros Hout Hbad. unfold _classify_day.
  destruct (decide (day_num ∈ holiday_days)) as [Hin|_]; [contradiction|].
  unfold Calendar.date_call. rewrite Hbad.
  destruct (Calendar.c_ints year month day_num); reflexivity.
Qed.

End Detection.

(** Claim C7.  If the grid holds the header cell of the embedded layout
    nowhere and the grid re-read with its first row as header has no
    employee column, parsing returns no attendance records, whatever else is
    passed: there is no fallback and no partial result.  The holidays are
    normalised first; once they are, parsing raises one [ValueError] with a
    message naming both missing markers. *)
Theorem unrecognized_layout_is_an_error {PS : PyStr} (file_storage : Workbook)
    (year month : Z) (holidays : option (list holiday_item)) :
  ~ has_header_cell (read_raw file_storage) ->
  ~ has_employee_column (read_with_header file_storage) ->
  (forall holiday_days,
     _normalize_holidays holidays year month = Ok holiday_days ->
     parse_timesheet_from_excel file_storage year month holidays
     = ValueError UNRECOGNIZED)
  /\ (holidays = None ->
      parse_timesheet_from_excel file_storage year month holidays
      = ValueError UNRECOGNIZED)
  /\ forall records,
       parse_timesheet_from_excel file_storage year month holidays
       <> Ok records.
Proof.
  intros Hkz Hemp. split; [|split].
  - intros holiday_days Hh.
    exact (unrecognized_after_holidays _ _ _ _ _ Hkz Hemp Hh).
  - intros ->. exact (unrecognized_after_holidays _ _ _ None ∅ Hkz Hemp eq_refl).
  - intros records.
    destruct (_normalize_holidays holidays year month) as [H|msg|] eqn:Hh.
    + rewrite (unrecognized_after_holidays _ _ _ _ _ Hkz Hemp Hh). discriminate.
    + unfold parse_timesheet_from_excel. rewrite Hh. discriminate.
    + unfold parse_timesheet_from_excel. rewrite Hh. discriminate.
Qed.

(** Claim C7, witness: a sheet with a title and one data row. *)
Lemma unrecognized_layout_is_an_error_witness :
  parse_timesheet_from_excel plain_workbook 2025 4 None = ValueError UNRECOGNIZED
  /\ forall records,
       parse_timesheet_from_excel plain_workbook 2025 4 None <> Ok records.
Proof.
  assert (H1 : ~ has_header_cell (read_raw plain_workbook)).
  { intros (row & v & Hrow & Hv & Heq). simpl in Hrow.
    destruct Hrow as [<-|[<-|[]]]; simpl in Hv;
      destruct Hv as [<-|[<-|[]]]; vm_compute in Heq; discriminate Heq. }
  assert (H2 : ~ has_employee_column (read_with_header plain_workbook)).
  { unfold has_employee_column. simpl.
    intros [H|[H|[]]]; vm_compute in H; discriminate H. }
  destruct (unrecognized_layout_is_an_error plain_workbook 2025 4 None H1 H2)
    as (_ & Hnone & Hno).
  split; [exact (Hnone eq_refl) | exact Hno].
Defined.

(** Claim C8.  Whenever the day number is in the holiday set, the classifier
    returns [holiday], whatever the weekday of the date (and whether or not
    the date exists): membership in the holiday set is tested first. *)
Theorem holiday_takes_precedence (year month day_num : Z)
    (holiday_days : gset Z) :
  day_num ∈ holiday_days ->
  _classify_day year month day_num holiday_days = Ok Holiday.
Proof.
  intros Hin. unfold _classify_day.
  destruct (decide (day_num ∈ holiday_days)) as [_|Hout]; [reflexivity|].
  contradiction.
Qed.

(** Claim C8, witness: 1 November 2025 is a Saturday and 2 November 2025 a
    Sunday; declared holidays, both are classified [holiday]. *)
Lemma holiday_takes_precedence_witness :
  Calendar.weekday 2025 11 1 = Some 5
  /\ _classify_day 2025 11 1 ∅ = Ok Sat
  /\ _classify_day 2025 11 1 {[1; 7]} = Ok Holiday
  /\ Calendar.weekday 2025 11 2 = Some 6
  /\ _classify_day 2025 11 2 {[2]} = Ok Holiday.
Proof.
  split; [reflexivity|]. split; [reflexivity|].
  split; [|split; [reflexivity|]].
  - apply holiday_takes_precedence. apply elem_of_union_l, elem_of_singleton. reflexivity.
  - apply holiday_takes_precedence. apply elem_of_singleton. reflexivity.
Defined.

(** Claim C9.  For a triple that is not a calendar date and whose day number
    is not in the holiday set, the classifier returns [weekday] as long as
    the three numbers are C [int]s: the [ValueError] of the date constructor
    is caught.  When one of them is not, the constructor raises
    [OverflowError], which is not caught: the classifier raises, and so does
    the parse run, as for a day header of 2147483648 over a populated
    cell. *)
Theorem invalid_date_is_weekday :
  (forall year month day_num holiday_days,
     Calendar.valid_date year month day_num = false ->
     day_num ∉ holiday_days ->
     (Calendar.c_ints year month day_num = true ->
      _classify_day year month day_num holiday_days = Ok Weekday)
     /\ (Calendar.c_ints year month day_num = false ->
         _classify_day year month day_num holiday_days = OverflowError))
  /\ _classify_day 2025 4 2147483648 ∅ = OverflowError
  /\ parse_timesheet_from_excel overflow_sheet 2025 4 None = OverflowError.
Proof.
  split; [|split].
  - intros year month day_num holiday_days Hbad Hout.
    rewrite (classify_day_cases _ _ _ _ Hout Hbad).
    split; intros ->; reflexivity.
  - reflexivity.
  - vm_compute. reflexivity.
Qed.

(** Claim C9, witness: 31 November 2025 and 29 February 2025 are classified
    [weekday]; day 2147483648 of April 2025 raises. *)
Lemma invalid_date_is_weekday_witness :
  _classify_day 2025 11 31 {[7]} = Ok Weekday
  /\ _classify_day 2025 2 29 ∅ = Ok Weekday
  /\ _classify_day 2025 4 2147483648 {[7]} = OverflowError.
Proof.
  split; [|split].
  - apply (proj1 invalid_date_is_weekday 2025 11 31 {[7]}); [reflexivity| |reflexivity].
    intros Hin. apply elem_of_singleton in Hin. discriminate Hin.
  - apply (proj1 invalid_date_is_weekday 2025 2 29 ∅);
      [reflexivity | apply not_elem_of_empty | reflexivity].
  - apply (proj1 invalid_date_is_weekday 2025 4 2147483648 {[7]}); [reflexivity| |reflexivity].
    intros Hin. apply elem_of_singleton in Hin. discriminate Hin.
Defined.

(** The calendar on known dates: Saturday 1 January 2000, Thursday
    29 February 2024, Tuesday 16 December 2025, Thursday 1 January 1970. *)
Lemma weekday_known_dates :
  Calendar.weekday 2000 1 1 = Some 5
  /\ Calendar.weekday 2024 2 29 = Some 3
  /\ Calendar.weekday 2025 12 16 = Some 1
  /\ Calendar.weekday 1970 1 1 = Some 3
  /\ Calendar.weekday 2025 2 29 = None
  /\ Calendar.weekday 2025 13 1 = None.
Proof. repeat split; reflexivity. Qed.

(** The end-to-end scenario of the specification: 20 days worked of 22,
    [workPercent = 90.91], [kpiFinal = 13636.36]. *)
Example end_to_end_scenario :
  exists emp r,
    parse_timesheet_from_excel april_sheet 2025 4 None = Ok [emp]
    /\ letters_weekday emp = 2 /\ numbers_weekday emp = 20
    /\ Improved.calculate [emp] [ivanov_item] 22 30 = ([r], [])
    /\ (res_days_worked r == of_int 20)%F
    /\ (res_work_percent r == Fin (9091 # 100))%F
    /\ (res_kpi_final r == Fin (1363636 # 100))%F.
Proof.
  eexists. eexists. split; [vm_compute; reflexivity|].
  split; [reflexivity|]. split; [reflexivity|].
  split; [vm_compute; reflexivity|].
  repeat split.
Qed.

(** * Further properties *)

(** ** Bounds, full pay and monotonicity of the payout *)

Section PayoutFacts.
Context {PS : PyStr}.

Lemma share_bounds (p ks : Q) :
  (0 <= p <= 100)%Q -> (0 <= ks)%Q -> (0 <= p / 100 * ks <= ks)%Q.
Proof.
  intros [H0 H1] Hks.
  assert (Hs : (0 <= p / 100 <= 1)%Q).
  { split.
    - apply Qle_shift_div_l; [reflexivity|]. rewrite Qmult_0_l. exact H0.
    - apply Qle_shift_div_r; [reflexivity|]. rewrite Qmult_1_l. exact H1. }
  destruct Hs as [Hs0 Hs1]. split.
  - apply Qmult_le_0_compat; assumption.
  - rewrite <- (Qmult_1_l ks) at 2. apply Qmult_le_compat_r; assumption.
Qed.

Lemma Qround2_nonneg (q : Q) : (0 <= q)%Q -> (0 <= Qround2 q)%Q.
Proof.
  intros H. apply (Qround2_mono 0 q) in H.
  assert (E : (Qround2 0 == 0)%Q) by reflexivity.
  rewrite E in H. exact H.
Qed.

Lemma computed_within r d :
  computed_from r d ->
  (Fin 0 <= res_kpi_sum r)%F -> finite (res_kpi_sum r) ->
  (Fin 0 <= res_kpi_final r <= round2 (res_kpi_sum r))%F.
Proof.
  intros (Hn & Hd & p & Hp & _ & Hfin) Hs Hf. rewrite Hfin.
  destruct (res_kpi_sum r) as [s| | |]; try contradiction.
  cbn [fmul round2 fle] in *.
  pose proof (ratio_bounds d _ Hn Hd) as Hb. rewrite <- Hp in Hb.
  destruct (share_bounds p s Hb Hs) as [H0 H1].
  split; [apply Qround2_nonneg, H0 | apply Qround2_mono, H1].
Qed.



Lemma computed_mono r1 r2 d1 d2 :
  computed_from r1 d1 -> computed_from r2 d2 ->
  res_days_assigned r1 = res_days_assigned r2 ->
  (res_kpi_sum r1 == res_kpi_sum r2)%F ->
  (Fin 0 <= res_kpi_sum r1)%F -> finite (res_kpi_sum r1) ->
  (d2 <= d1)%Q ->
  pays_no_more r2 r1.
Proof.
  intros (Hn & _ & p1 & Hp1 & Hwp1 & Hfin1) (_ & Hd2 & p2 & Hp2 & Hwp2 & Hfin2)
         Hd Hks Hks0 Hf Hdw.
  rewrite <- Hd in *.
  pose proof (inject_Z_pos _ Hn) as Hq.
  assert (Hp : (p2 <= p1)%Q).
  { rewrite Hp1, Hp2. unfold Qdiv. apply Qmult_le_compat_r.
    - apply Qmult_le_compat_r; [exact Hdw | discriminate].
    - apply Qlt_le_weak, Qinv_lt_0_compat, Hq. }
  assert (Hp0 : (0 <= p2)%Q).
  { rewrite Hp2. apply (ratio_bounds d2 _ Hn Hd2). }
  split.
  - rewrite Hwp1, Hwp2. apply Qround2_mono, Hp.
  - rewrite Hfin1, Hfin2.
    destruct (res_kpi_sum r1) as [s1| | |]; try contradiction.
    destruct (res_kpi_sum r2) as [s2| | |]; try contradiction.
    cbn [fmul round2 fle feq] in *. rewrite <- Hks. apply Qround2_mono.
    apply Qmult_le_compat_r; [|exact Hks0].
    unfold Qdiv. apply Qmult_le_compat_r; [exact Hp | discriminate].
Qed.

Lemma computed_agree r1 r2 d :
  computed_from r1 d -> computed_from r2 d ->
  res_days_assigned r1 = res_days_assigned r2 ->
  (res_kpi_sum r1 == res_kpi_sum r2)%F ->
  (res_work_percent r1 == res_work_percent r2)%F
  /\ (res_kpi_final r1 == res_kpi_final r2)%F.
Proof.
  intros (_ & _ & p1 & Hp1 & Hwp1 & Hfin1) (_ & _ & p2 & Hp2 & Hwp2 & Hfin2)
         Hd Hks.
  assert (Hp : (p1 == p2)%Q) by (rewrite Hp1, Hp2, Hd; reflexivity).
  split.
  - rewrite Hwp1, Hwp2. cbn [feq]. rewrite Hp. reflexivity.
  - rewrite Hfin1, Hfin2. apply round2_proper, fmul_proper; [|exact Hks].
    cbn [feq]. rewrite Hp. reflexivity.
Qed.

Lemma nan_total_dec emp : nan_total emp \/ ~ nan_total emp.
Proof.
  unfold nan_total.
  destruct (worked_days_total emp) as [|[t| | |]|];
    first [left; reflexivity | right; discriminate].
Qed.

Lemma fle_source_not_nan (x : float) emp n :
  (x <= day_source emp n)%F \/ (day_source emp n <= x)%F -> ~ nan_total emp.
Proof.
  unfold nan_total, day_source. intros H E. rewrite E in H.
  destruct H as [H|H]; destruct x; exact H.
Qed.

Lemma improved_row_computed employees kpi_table nch_day nd_shift r :
  In r (fst (Improved.calculate employees kpi_table nch_day nd_shift)) ->
  exists d, computed_from r d.
Proof.
  intros Hr. apply improved_results_origin in Hr.
  destruct Hr as (emp & _ & kpi_info & [H|H]).
  - apply improved_day_computed in H. destruct H as (_ & _ & _ & _ & _ & Hc).
    eauto.
  - apply improved_shift_computed in H. destruct H as (_ & _ & _ & _ & _ & Hc).
    eauto.
Qed.

Lemma legacy_row_computed employees kpi_table nch_day nd_shift r :
  In r (fst (Legacy.calculate_kpi_for_employees employees kpi_table
               nch_day nd_shift)) ->
  is_nan (res_days_worked r) = false ->
  exists d, computed_from r d.
Proof.
  intros Hr Hnan. apply legacy_results_origin in Hr.
  destruct Hr as (emp & _ & kpi_sum & [[Hn ->]|[Hn ->]]).
  - destruct (nan_total_dec emp) as [Ht|Ht].
    + destruct (legacy_day_nan (strip (fio emp)) emp kpi_sum nch_day Hn Ht)
        as (E & _).
      rewrite E in Hnan. discriminate Hnan.
    + exists (day_figure emp nch_day).
      apply (legacy_day_computed _ _ _ _ Hn Ht).
  - exists (shift_figure emp nd_shift).
    apply (legacy_shift_computed _ _ _ _ Hn).
Qed.



Lemma clamp_float_mono (x y : float) (n : Z) :
  0 <= n -> (x <= y)%F -> (clamp_float x n <= clamp_float y n)%Q.
Proof.
  intros Hn Hxy. pose proof (inject_Z_nonneg n Hn) as Hq.
  destruct x as [a| | |], y as [b| | |]; cbn in Hxy; try contradiction;
    cbn [clamp_float];
    first [ apply clamp_mono, Hxy
          | apply (clamp_bounds _ 0 (inject_Z n) Hq)
          | exact Hq
          | apply Qle_refl ].
Qed.

Lemma shift_figure_mono emp1 emp2 n :
  letters_weekday emp1 + letters_sat emp1
  <= letters_weekday emp2 + letters_sat emp2 ->
  (shift_figure emp2 n <= shift_figure emp1 n)%Q.
Proof.
  intros H. rewrite !shift_figure_Z. rewrite <- Zle_Qle. lia.
Qed.

End PayoutFacts.

(** Extra X4.  For every row emitted by either calculator whose entitlement
    [kpiSum] is a finite number that is not negative and whose worked days
    are a number, the final amount lies between 0 and the entitlement
    rounded to two decimals: a payout never exceeds the entitlement and is
    never negative. *)
Theorem payout_within_entitlement {PS : PyStr}
    (employees : list EmployeeData) (kpi_table : list KpiItem)
    (nch_day nd_shift : Z) (r : KPIResult) :
  In r (fst (Improved.calculate employees kpi_table nch_day nd_shift))
  \/ In r (fst (Legacy.calculate_kpi_for_employees employees kpi_table
                  nch_day nd_shift)) ->
  (Fin 0 <= res_kpi_sum r)%F -> finite (res_kpi_sum r) ->
  is_nan (res_days_worked r) = false ->
  (Fin 0 <= res_kpi_final r <= round2 (res_kpi_sum r))%F.
Proof.
  intros [Hr|Hr] Hks Hf Hnan.
  - apply improved_row_computed in Hr. destruct Hr as (d & Hc).
    eapply computed_within; eauto.
  - apply legacy_row_computed in Hr; [|exact Hnan]. destruct Hr as (d & Hc).
    eapply computed_within; eauto.
Qed.

(** Witness of [payout_within_entitlement]. *)
Lemma payout_within_entitlement_witness :
  (exists r,
     Improved.calculate [ivanov] [ivanov_item] 22 30 = ([r], [])
     /\ (Fin 0 <= res_kpi_final r <= round2 (res_kpi_sum r))%F)
  /\ (exists r,
        Legacy.calculate_kpi_for_employees [ivanov] [ivanov_item] 22 30
        = ([r], [])
        /\ (Fin 0 <= res_kpi_final r <= round2 (res_kpi_sum r))%F).
Proof.
  split.
  - eexists. split; [vm_compute; reflexivity|].
    apply (payout_within_entitlement [ivanov] [ivanov_item] 22 30).
    + left. left. vm_compute. reflexivity.
    + vm_compute. discriminate.
    + exact I.
    + reflexivity.
  - eexists. split; [vm_compute; reflexivity|].
    apply (payout_within_entitlement [ivanov] [ivanov_item] 22 30).
    + right. left. vm_compute. reflexivity.
    + vm_compute. discriminate.
    + exact I.
    + reflexivity.
Defined.



(** Extra X6.  Under the same positive norm and the same finite entitlement
    that is not negative, an employee with more absences is never reported a
    higher percentage or a higher final amount: in the shift branch absences
    are the weekday and Saturday letters, in the day branch the comparison
    is on the worked-days figure.  This holds for both calculators. *)
Theorem more_absences_never_pay_more {PS : PyStr} (emp1 emp2 : EmployeeData)
    (kpi_info : KPIInfo) (name1 name2 : string) (n : Z) :
  0 < n ->
  (Fin 0 <= info_kpi_sum kpi_info)%F -> finite (info_kpi_sum kpi_info) ->
  (letters_weekday emp1 + letters_sat emp1
   <= letters_weekday emp2 + letters_sat emp2 ->
   (forall r1 r2,
      Improved._calculate_shift_kpi emp1 kpi_info n = Some r1 ->
      Improved._calculate_shift_kpi emp2 kpi_info n = Some r2 ->
      pays_no_more r2 r1)
   /\ pays_no_more (Legacy.shift_row name2 emp2 (info_kpi_sum kpi_info) n)
        (Legacy.shift_row name1 emp1 (info_kpi_sum kpi_info) n))
  /\ ((day_source emp2 n <= day_source emp1 n)%F ->
      (forall r1 r2,
         Improved._calculate_day_kpi emp1 kpi_info n = Some r1 ->
         Improved._calculate_day_kpi emp2 kpi_info n = Some r2 ->
         pays_no_more r2 r1)
      /\ pays_no_more (Legacy.day_row name2 emp2 (info_kpi_sum kpi_info) n)
           (Legacy.day_row name1 emp1 (info_kpi_sum kpi_info) n)).
Proof.
  intros Hn Hks Hf. split.
  - intros Habs. pose proof (shift_figure_mono emp1 emp2 n Habs) as Hm.
    split.
    + intros r1 r2 H1 H2.
      pose proof (improved_shift_fields _ _ _ _ H1)
        as (_ & _ & _ & (Hd1 & _) & Hs1).
      pose proof (improved_shift_fields _ _ _ _ H2)
        as (_ & _ & _ & (Hd2 & _) & Hs2).
      pose proof (improved_shift_computed _ _ _ _ H1)
        as (_ & _ & _ & _ & _ & Hc1).
      pose proof (improved_shift_computed _ _ _ _ H2)
        as (_ & _ & _ & _ & _ & Hc2).
      apply (computed_mono r1 r2 _ _ Hc1 Hc2); try (rewrite Hs1; assumption);
        [congruence | rewrite Hs1, Hs2; reflexivity | exact Hm].
    + destruct (legacy_shift_computed name1 emp1 (info_kpi_sum kpi_info) n Hn)
        as (_ & Hc1).
      destruct (legacy_shift_computed name2 emp2 (info_kpi_sum kpi_info) n Hn)
        as (_ & Hc2).
      apply (computed_mono _ _ _ _ Hc1 Hc2); try assumption; reflexivity.
  - intros Hsrc.
    pose proof (clamp_float_mono _ _ n ltac:(lia) Hsrc) as Hm.
    fold (day_figure emp2 n) in Hm. fold (day_figure emp1 n) in Hm.
    assert (Hnan1 : ~ nan_total emp1).
    { apply (fle_source_not_nan (day_source emp2 n) emp1 n). left. exact Hsrc. }
    assert (Hnan2 : ~ nan_total emp2).
    { apply (fle_source_not_nan (day_source emp1 n) emp2 n). right. exact Hsrc. }
    split.
    + intros r1 r2 H1 H2.
      pose proof (improved_day_fields _ _ _ _ H1)
        as (_ & _ & _ & (Hd1 & _) & Hs1).
      pose proof (improved_day_fields _ _ _ _ H2)
        as (_ & _ & _ & (Hd2 & _) & Hs2).
      pose proof (improved_day_computed _ _ _ _ H1)
        as (_ & _ & _ & _ & _ & Hc1).
      pose proof (improved_day_computed _ _ _ _ H2)
        as (_ & _ & _ & _ & _ & Hc2).
      apply (computed_mono r1 r2 _ _ Hc1 Hc2); try (rewrite Hs1; assumption);
        [congruence | rewrite Hs1, Hs2; reflexivity | exact Hm].
    + destruct (legacy_day_computed name1 emp1 (info_kpi_sum kpi_info) n Hn Hnan1)
        as (_ & _ & Hc1).
      destruct (legacy_day_computed name2 emp2 (info_kpi_sum kpi_info) n Hn Hnan2)
        as (_ & _ & Hc2).
      apply (computed_mono _ _ _ _ Hc1 Hc2); try assumption; reflexivity.
Qed.

(** Witness of [more_absences_never_pay_more]. *)
Lemma more_absences_never_pay_more_witness :
  pays_no_more (Legacy.shift_row "Sidorov" sidorov (Fin (20000 # 1)) 30)
    (Legacy.shift_row "Petrov" petrov (Fin (20000 # 1)) 30).
Proof.
  refine (proj2 (proj1 (more_absences_never_pay_more petrov sidorov
                          (Improved.make_info petrov_item "Petrov")
                          "Petrov" "Sidorov" 30 _ _ _) _)).
  - reflexivity.
  - vm_compute. discriminate.
  - exact I.
  - vm_compute. discriminate.
Defined.

Section Agreement.
Context {PS : PyStr}.

Lemma improved_day_numbers emp kpi_info n r :
  Improved._calculate_day_kpi emp kpi_info n = Some r ->
  (res_numbers_weekday r, res_numbers_sat r, res_numbers_sun r,
   res_numbers_holiday r)
  = (numbers_weekday emp, numbers_sat emp, numbers_sun emp,
     numbers_holiday emp).
Proof.
  unfold Improved._calculate_day_kpi. destruct (n <=? 0); [discriminate|].
  intros [= <-]. reflexivity.
Qed.

Lemma improved_shift_numbers emp kpi_info n r :
  Improved._calculate_shift_kpi emp kpi_info n = Some r ->
  (res_numbers_weekday r, res_numbers_sat r, res_numbers_sun r,
   res_numbers_holiday r)
  = (numbers_weekday emp, numbers_sat emp, numbers_sun emp,
     numbers_holiday emp).
Proof.
  unfold Improved._calculate_shift_kpi. destruct (n <=? 0); [discriminate|].
  intros [= <-]. reflexivity.
Qed.

Lemma row_of_letters emp n r :
  row_of emp n r ->
  (res_letters_weekday r, res_letters_sat r, res_letters_sun r,
   res_letters_holiday r)
  = (letters_weekday emp, letters_sat emp, letters_sun emp,
     letters_holiday emp).
Proof. intros (_ & -> & -> & -> & ->). reflexivity. Qed.

End Agreement.

(** Extra X7.  Under a positive norm the branch functions of the improved
    calculator and the rows of the legacy calculator agree on the schedule,
    the norm, the counters, [notWorked], [workPercent], [kpiSum] and
    [kpiFinal]; [daysWorked] is equal in the shift branch and differs in the
    day branch only by the rounding to two decimals of the improved
    calculator.  In the day branch this is for a record whose total-days
    figure is not [nan]. *)
Theorem improved_rows_agree_with_legacy {PS : PyStr} (emp : EmployeeData)
    (kpi_info : KPIInfo) (name : string) (n : Z) :
  0 < n ->
  (~ nan_total emp ->
   exists r,
     Improved._calculate_day_kpi emp kpi_info n = Some r
     /\ same_payout r (Legacy.day_row name emp (info_kpi_sum kpi_info) n)
     /\ (res_days_worked r
         == round2 (res_days_worked
                      (Legacy.day_row name emp (info_kpi_sum kpi_info) n)))%F)
  /\ (exists r,
        Improved._calculate_shift_kpi emp kpi_info n = Some r
        /\ same_payout r (Legacy.shift_row name emp (info_kpi_sum kpi_info) n)
        /\ (res_days_worked r
            == res_days_worked
                 (Legacy.shift_row name emp (info_kpi_sum kpi_info) n))%F).
Proof.
  intros Hn. split.
  - intros Hnan. destruct (improved_day_some emp kpi_info n Hn) as [r Hr].
    exists r. split; [exact Hr|].
    pose proof (improved_day_fields _ _ _ _ Hr) as (_ & _ & Hst & Hrow & Hs).
    pose proof (improved_day_computed _ _ _ _ Hr)
      as (_ & _ & _ & Hdw & Hnw & Hc).
    pose proof (improved_day_numbers _ _ _ _ Hr) as Hnum.
    pose proof (legacy_day_computed name emp (info_kpi_sum kpi_info) n Hn Hnan)
      as (Ldw & Lnw & Lc).
    pose proof Hrow as (Hd & _).
    destruct (computed_agree _ _ _ Hc Lc) as [Hwp Hfin];
      [exact Hd | rewrite Hs; reflexivity|].
    split.
    + split; [exact Hst|]. split; [exact Hd|].
      split; [rewrite (row_of_letters _ _ _ Hrow); reflexivity|].
      split; [rewrite Hnum; reflexivity|].
      split; [rewrite Hnw, Lnw; reflexivity|].
      split; [exact Hwp|].
      split; [rewrite Hs; reflexivity | exact Hfin].
    + rewrite Hdw, Ldw. reflexivity.
  - destruct (improved_shift_some emp kpi_info n Hn) as [r Hr].
    exists r. split; [exact Hr|].
    pose proof (improved_shift_fields _ _ _ _ Hr) as (_ & _ & Hst & Hrow & Hs).
    pose proof (improved_shift_computed _ _ _ _ Hr)
      as (_ & _ & _ & Hdw & Hnw & Hc).
    pose proof (improved_shift_numbers _ _ _ _ Hr) as Hnum.
    pose proof (legacy_shift_computed name emp (info_kpi_sum kpi_info) n Hn)
      as (Ldw & Lc).
    pose proof Hrow as (Hd & _).
    destruct (computed_agree _ _ _ Hc Lc) as [Hwp Hfin];
      [exact Hd | rewrite Hs; reflexivity|].
    split.
    + split; [exact Hst|]. split; [exact Hd|].
      split; [rewrite (row_of_letters _ _ _ Hrow); reflexivity|].
      split; [rewrite Hnum; reflexivity|].
      split; [rewrite Hnw; reflexivity|].
      split; [exact Hwp|].
      split; [rewrite Hs; reflexivity | exact Hfin].
    + rewrite Hdw, Ldw. reflexivity.
Qed.

(** Witness of [improved_rows_agree_with_legacy]. *)
Lemma improved_rows_agree_with_legacy_witness :
  exists r,
    Improved._calculate_day_kpi omarov (Improved.make_info omarov_item "Omarov") 22
    = Some r
    /\ same_payout r (Legacy.day_row "Omarov" omarov (Fin (10000 # 1)) 22).
Proof.
  assert (Hnan : ~ nan_total omarov) by discriminate.
  destruct (proj1 (improved_rows_agree_with_legacy omarov
                     (Improved.make_info omarov_item "Omarov") "Omarov" 22
                     eq_refl) Hnan) as (r & Hr & Hs & _).
  exists r. split; [exact Hr | exact Hs].
Defined.

(** Extra X8.  In the day branch under a positive norm of at most
    [MAX_NORM], for a record whose total-days figure is not [nan], worked
    and not-worked days are numbers that account for the norm: in the legacy
    row
    [daysWorked + notWorked = daysAssigned] up to the binary rounding of the
    difference; in the improved row the sum is within 0.005 of
    [daysAssigned] (the rounding of [daysWorked]) on top of that, and both
    are integers that add up to [daysAssigned] when no total-days figure is
    present. *)
Theorem day_row_accounts_for_the_norm {PS : PyStr} (emp : EmployeeData)
    (kpi_info : KPIInfo) (name : string) (kpi_sum : float) (n : Z) :
  0 < n <= MAX_NORM -> ~ nan_total emp ->
  accounts_for (Legacy.day_row name emp kpi_sum n) n BINARY_ROOM
  /\ exists r,
       Improved._calculate_day_kpi emp kpi_info n = Some r
       /\ accounts_for r n TOLERANCE
       /\ (worked_days_total emp = TotalNone ->
           exists dw,
             0 <= dw <= n
             /\ (res_days_worked r == of_int dw)%F
             /\ (res_not_worked r == of_int (n - dw))%F).
Proof.
  intros [Hn _] Hnan.
  pose proof (day_figure_bounds emp n ltac:(lia)) as Hb.
  split.
  - pose proof (legacy_day_computed name emp kpi_sum n Hn Hnan)
      as (Hdw & Hnw & _).
    destruct (res_days_worked _) as [dw| | |] eqn:Edw; try contradiction.
    destruct (res_not_worked _) as [nw| | |] eqn:Enw; try contradiction.
    exists dw, nw. split; [exact Edw|]. split; [exact Enw|].
    cbn [feq] in Hdw, Hnw. rewrite Hdw, Hnw. apply Qabs_within.
    unfold BINARY_ROOM. split; lra.
  - destruct (improved_day_some emp kpi_info n Hn) as [r Hr].
    exists r. split; [exact Hr|].
    pose proof (improved_day_computed _ _ _ _ Hr)
      as (_ & _ & _ & Hdw & Hnw & _).
    split.
    + destruct (res_days_worked r) as [dw| | |] eqn:Edw; try contradiction.
      destruct (res_not_worked r) as [nw| | |] eqn:Enw; try contradiction.
      exists dw, nw. split; [exact Edw|]. split; [exact Enw|].
      cbn [feq] in Hdw, Hnw. rewrite Hdw, Hnw. apply Qabs_within.
      pose proof (Qround2_error (day_figure emp n)).
      unfold TOLERANCE, BINARY_ROOM. split; lra.
    + intros Hnone.
      exists (Z.max 0 (Z.min (n - letters_weekday emp) n)).
      assert (E : (day_figure emp n
                   == inject_Z (Z.max 0 (Z.min (n - letters_weekday emp) n)))%Q).
      { unfold day_figure, day_source. rewrite Hnone. apply clamp_inject_Z. }
      split; [lia|]. split.
      * rewrite Hdw. cbn [feq of_int]. rewrite E. apply Qround2_Z.
      * rewrite Hnw. cbn [feq of_int]. rewrite E.
        unfold Z.sub at 2. rewrite inject_Z_plus, inject_Z_opp. ring.
Qed.

(** Witness of [day_row_accounts_for_the_norm]. *)
Lemma day_row_accounts_for_the_norm_witness :
  accounts_for (Legacy.day_row "Omarov" omarov (Fin (10000 # 1)) 22) 22
    BINARY_ROOM
  /\ exists r,
       Improved._calculate_day_kpi omarov
         (Improved.make_info omarov_item "Omarov") 22 = Some r
       /\ accounts_for r 22 TOLERANCE.
Proof.
  assert (Hnan : ~ nan_total omarov) by discriminate.
  assert (Hn : 0 < 22 <= MAX_NORM) by (unfold MAX_NORM; lia).
  destruct (day_row_accounts_for_the_norm omarov
              (Improved.make_info omarov_item "Omarov") "Omarov"
              (Fin (10000 # 1)) 22 Hn Hnan) as [Hleg (r & Hr & Hacc & _)].
  split; [exact Hleg|]. exists r. split; [exact Hr | exact Hacc].
Defined.

(** Extra X27.  A total-days figure that is the float [nan] (the parser
    reads it from a cell holding the text [nan]) is not clamped.  In the
    improved calculator [max(0, min(nan, n))] is 0: the row reports no
    worked day, the whole norm as not worked, 0 percent and, for a finite
    entitlement, a final amount of 0.  In the legacy calculator [nan] passes
    both comparisons: worked days, not-worked days, percentage and final
    amount of the row are all [nan]. *)
Theorem nan_total_is_not_clamped {PS : PyStr} (emp : EmployeeData)
    (kpi_info : KPIInfo) (name : string) (kpi_sum : float) (n : Z) :
  0 < n -> nan_total emp ->
  (exists r,
     Improved._calculate_day_kpi emp kpi_info n = Some r
     /\ (res_days_worked r == Fin 0)%F
     /\ (res_not_worked r == of_int n)%F
     /\ (res_work_percent r == Fin 0)%F
     /\ (finite (info_kpi_sum kpi_info) -> (res_kpi_final r == Fin 0)%F))
  /\ res_days_worked (Legacy.day_row name emp kpi_sum n) = NaN
  /\ res_not_worked (Legacy.day_row name emp kpi_sum n) = NaN
  /\ res_work_percent (Legacy.day_row name emp kpi_sum n) = NaN
  /\ res_kpi_final (Legacy.day_row name emp kpi_sum n) = NaN.
Proof.
  intros Hn Hnan. split; [|exact (legacy_day_nan name emp kpi_sum n Hn Hnan)].
  destruct (improved_day_some emp kpi_info n Hn) as [r Hr].
  exists r. split; [exact Hr|].
  pose proof (improved_day_fields _ _ _ _ Hr) as (_ & _ & _ & (Hd & _) & Hs).
  pose proof (improved_day_computed _ _ _ _ Hr)
    as (_ & _ & _ & Hdw & Hnw & (_ & _ & p & Hp & Hwp & Hfin)).
  assert (H0 : (day_figure emp n == 0)%Q).
  { unfold day_figure, day_source. rewrite Hnan. reflexivity. }
  assert (Hp0 : (p == 0)%Q).
  { rewrite Hp, H0. unfold Qdiv. ring. }
  split; [rewrite Hdw; cbn [feq]; rewrite H0; reflexivity|].
  split; [rewrite Hnw; cbn [feq of_int]; rewrite H0; ring|].
  split; [rewrite Hwp; cbn [feq]; rewrite Hp0; reflexivity|].
  intros Hf. rewrite Hfin, Hs.
  destruct (info_kpi_sum kpi_info) as [s| | |]; try contradiction.
  cbn [fmul round2 feq]. rewrite Hp0.
  assert (E : (0 / 100 * s == 0)%Q) by (unfold Qdiv; ring).
  rewrite E. reflexivity.
Qed.

(** Witness of [nan_total_is_not_clamped]: the text [NAN] in the total-days
    cell. *)
Lemma nan_total_is_not_clamped_witness :
  _try_float (Some (CStr "NAN")) = Some NaN
  /\ (exists r,
        Improved.calculate [bekov] [bekov_item] 22 30 = ([r], [])
        /\ (res_days_worked r == Fin 0)%F
        /\ (res_kpi_final r == Fin 0)%F)
  /\ (exists r,
        Legacy.calculate_kpi_for_employees [bekov] [bekov_item] 22 30
        = ([r], [])
        /\ res_work_percent r = NaN
        /\ res_kpi_final r = NaN).
Proof.
  destruct (nan_total_is_not_clamped bekov
              (Improved.make_info bekov_item "Bekov") "Bekov"
              (Fin (10000 # 1)) 22 eq_refl eq_refl)
    as ((r & Hr & Hdw & _ & _ & Hfin) & _ & _ & Hwp & Hkf).
  split; [vm_compute; reflexivity|]. split.
  - exists r. split.
    + vm_compute in Hr. injection Hr as <-. vm_compute. reflexivity.
    + split; [exact Hdw | exact (Hfin I)].
  - eexists. split; [vm_compute; reflexivity|]. split.
    + exact Hwp.
    + exact Hkf.
Defined.

Section RosterMap.
Context {PS : PyStr}.

Lemma improved_map_snoc (kpi_table : list KpiItem) (item : KpiItem) :
  Improved._build_kpi_map (kpi_table ++ [item])
  = if is_empty (strip (item_fio item))
    then Improved._build_kpi_map kpi_table
    else <[key (item_fio item) :=
             Improved.make_info item (strip (item_fio item))]>
           (Improved._build_kpi_map kpi_table).
Proof. unfold Improved._build_kpi_map. rewrite fold_left_app. reflexivity. Qed.

Lemma legacy_map_snoc (kpi_table : list KpiItem) (item : KpiItem) :
  Legacy.build_kpi_map (kpi_table ++ [item])
  = if is_empty (key (item_fio item))
    then Legacy.build_kpi_map kpi_table
    else <[key (item_fio item) := item]> (Legacy.build_kpi_map kpi_table).
Proof. unfold Legacy.build_kpi_map. rewrite fold_left_app. reflexivity. Qed.

(** An entry of the improved map comes from a table entry of that key. *)
Lemma improved_map_lookup_Some kpi_table k kpi_info :
  Improved._build_kpi_map kpi_table !! k = Some kpi_info ->
  exists item,
    In item kpi_table
    /\ is_empty (strip (item_fio item)) = false
    /\ key (item_fio item) = k
    /\ kpi_info = Improved.make_info item (strip (item_fio item)).
Proof.
  induction kpi_table as [|item kpi_table IH] using rev_ind.
  - unfold Improved._build_kpi_map. simpl. rewrite lookup_empty. discriminate.
  - rewrite improved_map_snoc.
    destruct (is_empty (strip (item_fio item))) eqn:Eb.
    + intros H. destruct (IH H) as (it & Hin & Hrest).
      exists it. split; [apply in_or_app; left; exact Hin | exact Hrest].
    + destruct (decide (key (item_fio item) = k)) as [Ek|Ek].
      * rewrite Ek, lookup_insert_eq. intros [= <-].
        exists item. split; [apply in_or_app; right; left; reflexivity|].
        auto.
      * rewrite lookup_insert_ne by exact Ek.
        intros H. destruct (IH H) as (it & Hin & Hrest).
        exists it. split; [apply in_or_app; left; exact Hin | exact Hrest].
Qed.

Lemma legacy_map_lookup_Some kpi_table k item :
  Legacy.build_kpi_map kpi_table !! k = Some item ->
  In item kpi_table
  /\ is_empty (key (item_fio item)) = false
  /\ key (item_fio item) = k.
Proof.
  induction kpi_table as [|it kpi_table IH] using rev_ind.
  - unfold Legacy.build_kpi_map. simpl. rewrite lookup_empty. discriminate.
  - rewrite legacy_map_snoc.
    destruct (is_empty (key (item_fio it))) eqn:Eb.
    + intros H. destruct (IH H) as (Hin & Hrest).
      split; [apply in_or_app; left; exact Hin | exact Hrest].
    + destruct (decide (key (item_fio it) = k)) as [Ek|Ek].
      * rewrite Ek, lookup_insert_eq. intros [= <-].
        split; [apply in_or_app; right; left; reflexivity|]. auto.
      * rewrite lookup_insert_ne by exact Ek.
        intros H. destruct (IH H) as (Hin & Hrest).
        split; [apply in_or_app; left; exact Hin | exact Hrest].
Qed.

Lemma improved_map_skip (kpi_table later : list KpiItem) (k : string) :
  (forall it, In it later ->
     is_empty (strip (item_fio it)) = false -> key (item_fio it) <> k) ->
  Improved._build_kpi_map (kpi_table ++ later) !! k
  = Improved._build_kpi_map kpi_table !! k.
Proof.
  induction later as [|it later IH] using rev_ind; intros Hlater.
  - rewrite app_nil_r. reflexivity.
  - rewrite app_assoc, improved_map_snoc.
    assert (IH' : Improved._build_kpi_map (kpi_table ++ later) !! k
                  = Improved._build_kpi_map kpi_table !! k).
    { apply IH. intros it' Hin. apply Hlater, in_or_app. left. exact Hin. }
    destruct (is_empty (strip (item_fio it))) eqn:Eb; [exact IH'|].
    rewrite lookup_insert_ne; [exact IH'|].
    apply Hlater; [apply in_or_app; right; left; reflexivity | exact Eb].
Qed.

Lemma legacy_map_skip (kpi_table later : list KpiItem) (k : string) :
  (forall it, In it later ->
     is_empty (key (item_fio it)) = false -> key (item_fio it) <> k) ->
  Legacy.build_kpi_map (kpi_table ++ later) !! k
  = Legacy.build_kpi_map kpi_table !! k.
Proof.
  induction later as [|it later IH] using rev_ind; intros Hlater.
  - rewrite app_nil_r. reflexivity.
  - rewrite app_assoc, legacy_map_snoc.
    assert (IH' : Legacy.build_kpi_map (kpi_table ++ later) !! k
                  = Legacy.build_kpi_map kpi_table !! k).
    { apply IH. intros it' Hin. apply Hlater, in_or_app. left. exact Hin. }
    destruct (is_empty (key (item_fio it))) eqn:Eb; [exact IH'|].
    rewrite lookup_insert_ne; [exact IH'|].
    apply Hlater; [apply in_or_app; right; left; reflexivity | exact Eb].
Qed.

End RosterMap.

(** Extra X9.  In the roster map of either calculator a table entry whose
    name is not blank is the one found under its key (the name trimmed and
    lower-cased) whenever no later entry of the table has the same key: later
    entries overwrite earlier ones, and entries of other names do not
    interfere. *)
Theorem roster_map_last_entry_wins {PS : PyStr}
    (earlier later : list KpiItem) (item : KpiItem) :
  is_empty (strip (item_fio item)) = false ->
  is_empty (key (item_fio item)) = false ->
  (forall it, In it later -> key (item_fio it) <> key (item_fio item)) ->
  Improved._build_kpi_map (earlier ++ item :: later) !! key (item_fio item)
  = Some (Improved.make_info item (strip (item_fio item)))
  /\ Legacy.build_kpi_map (earlier ++ item :: later) !! key (item_fio item)
     = Some item.
Proof.
  intros Eb Ek Hlater.
  change (earlier ++ item :: later) with (earlier ++ [item] ++ later).
  rewrite app_assoc. split.
  - rewrite improved_map_skip by (intros it Hin _; apply Hlater, Hin).
    rewrite improved_map_snoc, Eb. apply lookup_insert_eq.
  - rewrite legacy_map_skip by (intros it Hin _; apply Hlater, Hin).
    rewrite legacy_map_snoc, Ek. apply lookup_insert_eq.
Qed.

(** Witness of [roster_map_last_entry_wins]. *)
Lemma roster_map_last_entry_wins_witness :
  Improved._build_kpi_map ([ivanov_item] ++ night_item :: [petrov_item])
    !! key (item_fio night_item)
  = Some (Improved.make_info night_item (strip (item_fio night_item)))
  /\ Legacy.build_kpi_map ([ivanov_item] ++ night_item :: [petrov_item])
       !! key (item_fio night_item)
     = Some night_item.
Proof.
  apply (roster_map_last_entry_wins [ivanov_item] [petrov_item] night_item).
  - reflexivity.
  - reflexivity.
  - intros it [<-|[]]. vm_compute. discriminate.
Defined.

(** Extra X10.  A key that is the key of no entry of the table is not in the
    roster map of either calculator: the maps hold nothing but the names of
    the table (the empty table gives the empty map). *)
Theorem roster_map_only_holds_table_names {PS : PyStr}
    (kpi_table : list KpiItem) (k : string) :
  (forall it, In it kpi_table -> key (item_fio it) <> k) ->
  Improved._build_kpi_map kpi_table !! k = None
  /\ Legacy.build_kpi_map kpi_table !! k = None.
Proof.
  intros Habsent. split.
  - destruct (Improved._build_kpi_map kpi_table !! k) as [info|] eqn:E;
      [|reflexivity].
    apply improved_map_lookup_Some in E. destruct E as (it & Hin & _ & Hk & _).
    exfalso. exact (Habsent it Hin Hk).
  - destruct (Legacy.build_kpi_map kpi_table !! k) as [it|] eqn:E;
      [|reflexivity].
    apply legacy_map_lookup_Some in E. destruct E as (Hin & _ & Hk).
    exfalso. exact (Habsent it Hin Hk).
Qed.

(** Witness of [roster_map_only_holds_table_names]. *)
Lemma roster_map_only_holds_table_names_witness :
  Improved._build_kpi_map [ivanov_item; petrov_item] !! "sidorov"%string = None
  /\ Legacy.build_kpi_map [ivanov_item; petrov_item] !! "sidorov"%string = None.
Proof.
  apply (roster_map_only_holds_table_names [ivanov_item; petrov_item] "sidorov").
  intros it [<-|[<-|[]]]; vm_compute; discriminate.
Defined.

Section RunFacts.
Context {PS : PyStr} {PL : PyStrLaws PS}.

Lemma improved_branch_fio emp kpi_info nch_day nd_shift r :
  Improved.branch emp kpi_info nch_day nd_shift = Some r -> res_fio r = fio emp.
Proof.
  unfold Improved.branch, Improved._calculate_day_kpi,
    Improved._calculate_shift_kpi.
  destruct (String.eqb _ "day");
    [destruct (nch_day <=? 0) | destruct (nd_shift <=? 0)];
    intros [= <-] || discriminate; reflexivity.
Qed.

Lemma improved_outcomes_justified employees kpi_table nch_day nd_shift :
  outcomes_justified (improved_category kpi_table)
    (Improved.calculate employees kpi_table nch_day nd_shift).
Proof.
  unfold Improved.calculate, outcomes_justified. cbn [fst snd].
  apply (fold_left_invariant
           (fun st =>
              (forall r, In r (results st) ->
                 exists c, improved_category kpi_table (key (res_fio r)) = Some c
                           /\ c <> "4")
              /\ (forall e, In e (errors st) ->
                    (err_type e = NO_KPI_MAPPING ->
                     improved_category kpi_table (key (err_fio e)) = None)
                    /\ (err_type e = STUDENT ->
                        improved_category kpi_table (key (err_fio e))
                        = Some "4")))).
  - split; intros ? [].
  - intros st emp _ [IHr IHe]. unfold Improved.step. fold (key (fio emp)).
    destruct (is_empty (strip (fio emp))); [split; assumption|].
    destruct (decide (key (fio emp) ∈ seen st)) as [Hseen|Hseen].
    { split; [exact IHr|]. cbn [add_error errors]. intros e He.
      apply in_app_or in He. destruct He as [He|[<-|[]]]; [apply IHe, He|].
      split; discriminate. }
    destruct (Improved._build_kpi_map kpi_table !! key (fio emp))
      as [kpi_info|] eqn:Eget.
    2:{ split; [exact IHr|]. cbn [add_error add_seen errors]. intros e He.
        apply in_app_or in He. destruct He as [He|[<-|[]]]; [apply IHe, He|].
        cbn [err_type err_fio]. split; [|discriminate]. intros _.
        unfold improved_category. rewrite key_strip, Eget. reflexivity. }
    destruct (String.eqb_spec (strip (info_category_code kpi_info)) "4") as [Ec|Ec].
    { split; [exact IHr|]. cbn [add_error add_seen errors]. intros e He.
      apply in_app_or in He. destruct He as [He|[<-|[]]]; [apply IHe, He|].
      cbn [err_type err_fio]. split; [discriminate|]. intros _.
      unfold improved_category. rewrite key_strip, Eget. simpl. rewrite Ec.
      reflexivity. }
    destruct (Improved.branch emp kpi_info nch_day nd_shift) as [r|] eqn:Eb;
      [|split; assumption].
    split; [|exact IHe]. cbn [add_result add_seen results]. intros r' Hr.
    apply in_app_or in Hr. destruct Hr as [Hr|[<-|[]]]; [apply IHr, Hr|].
    rewrite (improved_branch_fio _ _ _ _ _ Eb).
    exists (strip (info_category_code kpi_info)). split; [|exact Ec].
    unfold improved_category. rewrite Eget. reflexivity.
Qed.

Lemma legacy_outcomes_justified employees kpi_table nch_day nd_shift :
  outcomes_justified (legacy_category kpi_table)
    (Legacy.calculate_kpi_for_employees employees kpi_table nch_day nd_shift).
Proof.
  unfold Legacy.calculate_kpi_for_employees, outcomes_justified. cbn [fst snd].
  apply (fold_left_invariant
           (fun st =>
              (forall r, In r (results st) ->
                 exists c, legacy_category kpi_table (key (res_fio r)) = Some c
                           /\ c <> "4")
              /\ (forall e, In e (errors st) ->
                    (err_type e = NO_KPI_MAPPING ->
                     legacy_category kpi_table (key (err_fio e)) = None)
                    /\ (err_type e = STUDENT ->
                        legacy_category kpi_table (key (err_fio e))
                        = Some "4")))).
  - split; intros ? [].
  - intros st emp _ [IHr IHe]. unfold Legacy.step. fold (key (fio emp)).
    destruct (is_empty (strip (fio emp))); [split; assumption|].
    destruct (decide (key (fio emp) ∈ seen st)) as [Hseen|Hseen].
    { split; [exact IHr|]. cbn [add_error errors]. intros e He.
      apply in_app_or in He. destruct He as [He|[<-|[]]]; [apply IHe, He|].
      split; discriminate. }
    destruct (Legacy.build_kpi_map kpi_table !! key (fio emp))
      as [kpi_info|] eqn:Eget.
    2:{ split; [exact IHr|]. cbn [add_error add_seen errors]. intros e He.
        apply in_app_or in He. destruct He as [He|[<-|[]]]; [apply IHe, He|].
        cbn [err_type err_fio]. split; [|discriminate]. intros _.
        unfold legacy_category. rewrite key_strip, Eget. reflexivity. }
    destruct (String.eqb_spec (strip (item_categoryCode kpi_info)) "4") as [Ec|Ec].
    { split; [exact IHr|]. cbn [add_error add_seen errors]. intros e He.
      apply in_app_or in He. destruct He as [He|[<-|[]]]; [apply IHe, He|].
      cbn [err_type err_fio]. split; [discriminate|]. intros _.
      unfold legacy_category. rewrite key_strip, Eget. simpl. rewrite Ec.
      reflexivity. }
    assert (Hrow : forall row, res_fio row = strip (fio emp) ->
              forall r', In r' (results (add_result (add_seen st (key (fio emp))) row)) ->
              exists c, legacy_category kpi_table (key (res_fio r')) = Some c
                        /\ c <> "4").
    { intros row Hfio r' Hr. cbn [add_result add_seen results] in Hr.
      apply in_app_or in Hr. destruct Hr as [Hr|[<-|[]]]; [apply IHr, Hr|].
      rewrite Hfio, key_strip.
      exists (strip (item_categoryCode kpi_info)). split; [|exact Ec].
      unfold legacy_category. rewrite Eget. reflexivity. }
    assert (Herr : forall details,
              forall e, In e (errors (add_error (add_seen st (key (fio emp)))
                                        (mkError (strip (fio emp)) INVALID_PLAN details))) ->
              (err_type e = NO_KPI_MAPPING ->
               legacy_category kpi_table (key (err_fio e)) = None)
              /\ (err_type e = STUDENT ->
                  legacy_category kpi_table (key (err_fio e)) = Some "4")).
    { intros details e He. cbn [add_error add_seen errors] in He.
      apply in_app_or in He. destruct He as [He|[<-|[]]]; [apply IHe, He|].
      split; discriminate. }
    destruct (String.eqb _ "day").
    + destruct (nch_day <=? 0).
      * split; [exact IHr | apply Herr].
      * split; [apply Hrow; reflexivity | exact IHe].
    + destruct (nd_shift <=? 0).
      * split; [exact IHr | apply Herr].
      * split; [apply Hrow; reflexivity | exact IHe].
Qed.

End RunFacts.

(** Extra X1.  Provided trimming is idempotent, in a run of either
    calculator a row is only ever emitted for a name that is found on the
    roster with a category code other than ["4"]; a [NO_KPI_MAPPING] error is
    only emitted for a name that is not on the roster, and a [STUDENT] error
    only for a name whose roster entry has the category code ["4"]. *)
Theorem rows_and_errors_match_the_roster {PS : PyStr} {PL : PyStrLaws PS}
    (employees : list EmployeeData) (kpi_table : list KpiItem)
    (nch_day nd_shift : Z) :
  outcomes_justified (improved_category kpi_table)
    (Improved.calculate employees kpi_table nch_day nd_shift)
  /\ outcomes_justified (legacy_category kpi_table)
       (Legacy.calculate_kpi_for_employees employees kpi_table
          nch_day nd_shift).
Proof.
  split; [apply improved_outcomes_justified | apply legacy_outcomes_justified].
Qed.

Section Emission.
Context {PS : PyStr}.

Lemma named_records_cons emp employees :
  named_records (emp :: employees)
  = (named_records [emp] + named_records employees)%nat.
Proof.
  unfold named_records. rewrite !count_cons. unfold count. simpl. lia.
Qed.

Lemma named_records_one emp :
  named_records [emp] = if is_empty (strip (fio emp)) then O else 1%nat.
Proof.
  unfold named_records, count. simpl. destruct (is_empty _); reflexivity.
Qed.

Lemma step_emits_nothing row_name complete st emp :
  is_empty (strip (fio emp)) = true ->
  step_emits row_name complete st emp st.
Proof.
  intros Eb. exists [], []. rewrite !app_nil_r, named_records_one, Eb. simpl.
  repeat (split; [first [reflexivity | apply sublist_nil_l | lia]|]). reflexivity.
Qed.

Lemma step_emits_silent row_name (complete : Prop) st emp k :
  ~ complete -> step_emits row_name complete st emp (add_seen st k).
Proof.
  intros Hc. exists [], []. cbn [add_seen results errors]. rewrite !app_nil_r.
  simpl. repeat (split; [first [reflexivity | apply sublist_nil_l | lia]|]).
  intros H. contradiction.
Qed.

Lemma step_emits_error row_name complete st st0 emp e :
  is_empty (strip (fio emp)) = false ->
  results st0 = results st -> errors st0 = errors st ->
  err_fio e = strip (fio emp) ->
  step_emits row_name complete st emp (add_error st0 e).
Proof.
  intros Eb Hr He Hname. exists [], [e]. cbn [add_error results errors].
  rewrite Hr, He, app_nil_r, named_records_one, Eb. simpl. rewrite Hname.
  repeat (split; [first [reflexivity | apply sublist_nil_l | lia]|]). reflexivity.
Qed.

Lemma step_emits_row row_name complete st st0 emp r :
  is_empty (strip (fio emp)) = false ->
  results st0 = results st -> errors st0 = errors st ->
  res_fio r = row_name emp ->
  step_emits row_name complete st emp (add_result st0 r).
Proof.
  intros Eb Hr He Hname. exists [r], []. cbn [add_result results errors].
  rewrite Hr, He, app_nil_r, named_records_one, Eb. simpl. rewrite Hname.
  repeat (split; [first [reflexivity | apply sublist_nil_l | lia]|]). reflexivity.
Qed.

Lemma improved_step_emits kpi_map nch_day nd_shift st emp :
  step_emits fio (0 < nch_day /\ 0 < nd_shift) st emp
    (Improved.step kpi_map nch_day nd_shift st emp).
Proof.
  unfold Improved.step.
  destruct (is_empty (strip (fio emp))) eqn:Eb; [apply step_emits_nothing, Eb|].
  destruct (decide (_ ∈ seen st)) as [Hin|Hout].
  { apply step_emits_error; [exact Eb | reflexivity..]. }
  destruct (kpi_map !! _) as [kpi_info|].
  2:{ apply step_emits_error; [exact Eb | reflexivity..]. }
  destruct (String.eqb _ "4").
  { apply step_emits_error; [exact Eb | reflexivity..]. }
  destruct (Improved.branch emp kpi_info nch_day nd_shift) as [r|] eqn:Er.
  - apply step_emits_row; [exact Eb | reflexivity | reflexivity |].
    revert Er. unfold Improved.branch, Improved._calculate_day_kpi,
      Improved._calculate_shift_kpi.
    destruct (String.eqb _ "day");
      [destruct (nch_day <=? 0) | destruct (nd_shift <=? 0)];
      intros [= <-] || discriminate; reflexivity.
  - apply step_emits_silent. intros [H1 H2].
    revert Er. unfold Improved.branch, Improved._calculate_day_kpi,
      Improved._calculate_shift_kpi.
    destruct (String.eqb _ "day");
      [destruct (nch_day <=? 0) eqn:E | destruct (nd_shift <=? 0) eqn:E];
      try discriminate; apply Z.leb_le in E; lia.
Qed.

Lemma legacy_step_emits kpi_map nch_day nd_shift st emp :
  step_emits (fun emp => strip (fio emp)) True st emp
    (Legacy.step kpi_map nch_day nd_shift st emp).
Proof.
  unfold Legacy.step.
  destruct (is_empty (strip (fio emp))) eqn:Eb; [apply step_emits_nothing, Eb|].
  destruct (decide (_ ∈ seen st)) as [Hin|Hout].
  { apply step_emits_error; [exact Eb | reflexivity..]. }
  destruct (kpi_map !! _) as [kpi_info|].
  2:{ apply step_emits_error; [exact Eb | reflexivity..]. }
  destruct (String.eqb _ "4").
  { apply step_emits_error; [exact Eb | reflexivity..]. }
  destruct (String.eqb _ "day").
  - destruct (nch_day <=? 0).
    + apply step_emits_error; [exact Eb | reflexivity..].
    + apply step_emits_row; [exact Eb | reflexivity..].
  - destruct (nd_shift <=? 0).
    + apply step_emits_error; [exact Eb | reflexivity..].
    + apply step_emits_row; [exact Eb | reflexivity..].
Qed.

Lemma run_emits (row_name : EmployeeData -> string) (complete : Prop)
    (step : LoopState -> EmployeeData -> LoopState) :
  (forall st emp, step_emits row_name complete st emp (step st emp)) ->
  forall employees st,
  exists rs es,
    results (fold_left step employees st) = results st ++ rs
    /\ errors (fold_left step employees st) = errors st ++ es
    /\ sublist (map res_fio rs) (map row_name employees)
    /\ sublist (map err_fio es) (map (fun emp => strip (fio emp)) employees)
    /\ (length rs + length es <= named_records employees)%nat
    /\ (complete -> (length rs + length es)%nat = named_records employees).
Proof.
  intros Hstep employees.
  induction employees as [|emp employees IH]; intros st.
  - exists [], []. simpl. rewrite !app_nil_r.
    repeat (split; [first [reflexivity | apply sublist_nil_l
                          | unfold named_records, count; simpl; lia]|]).
    reflexivity.
  - simpl fold_left.
    destruct (Hstep st emp) as (rs0 & es0 & Hr0 & He0 & Sr0 & Se0 & Hle0 & Heq0).
    destruct (IH (step st emp)) as (rs & es & Hr & He & Sr & Se & Hle & Heq).
    exists (rs0 ++ rs), (es0 ++ es).
    rewrite Hr, He, Hr0, He0, <- !app_assoc, !map_app, !length_app,
      named_records_cons.
    split; [reflexivity|]. split; [reflexivity|].
    split; [exact (sublist_app _ [_] _ _ Sr0 Sr)|].
    split; [exact (sublist_app _ [_] _ _ Se0 Se)|].
    split; [lia|]. intros Hc. specialize (Heq0 Hc). specialize (Heq Hc). lia.
Qed.

End Emission.

(** Witness of [rows_and_errors_match_the_roster]. *)
Lemma rows_and_errors_match_the_roster_witness :
  outcomes_justified (improved_category [ivanov_item; student_item])
    (Improved.calculate [ivanov; omarov; sidorov] [ivanov_item; student_item]
       22 30)
  /\ outcomes_justified (legacy_category [ivanov_item; student_item])
       (Legacy.calculate_kpi_for_employees [ivanov; omarov; sidorov]
          [ivanov_item; student_item] 22 30).
Proof.
  exact (rows_and_errors_match_the_roster (PL := ascii_PyStrLaws)
           [ivanov; omarov; sidorov] [ivanov_item; student_item] 22 30).
Defined.

(** Extra X2.  The rows and the errors of a run follow the order of the
    attendance records: the names of the rows, and the names of the errors,
    each form a subsequence of the names of the input (for rows, the names as
    given in the improved calculator and the trimmed names in the legacy
    one; for errors, the trimmed names). *)
Theorem rows_and_errors_keep_input_order {PS : PyStr}
    (employees : list EmployeeData) (kpi_table : list KpiItem)
    (nch_day nd_shift : Z) :
  in_input_order fio employees
    (Improved.calculate employees kpi_table nch_day nd_shift)
  /\ in_input_order (fun emp => strip (fio emp)) employees
       (Legacy.calculate_kpi_for_employees employees kpi_table
          nch_day nd_shift).
Proof.
  split.
  - destruct (run_emits fio _ _
                (improved_step_emits (Improved._build_kpi_map kpi_table)
                   nch_day nd_shift) employees (mkState [] [] ∅))
      as (rs & es & Hr & He & Sr & Se & _).
    unfold in_input_order, Improved.calculate. cbn [fst snd].
    rewrite Hr, He. split; assumption.
  - destruct (run_emits _ _ _
                (legacy_step_emits (Legacy.build_kpi_map kpi_table)
                   nch_day nd_shift) employees (mkState [] [] ∅))
      as (rs & es & Hr & He & Sr & Se & _).
    unfold in_input_order, Legacy.calculate_kpi_for_employees. cbn [fst snd].
    rewrite Hr, He. split; assumption.
Qed.

(** Extra X3.  The legacy calculator answers every attendance record with a
    non-blank name by exactly one row or one error.  The improved calculator
    never gives more than one answer per such record, and gives exactly one
    when both norms are positive; it can stay silent only under a norm that
    is not positive. *)
Theorem every_named_record_is_answered {PS : PyStr}
    (employees : list EmployeeData) (kpi_table : list KpiItem)
    (nch_day nd_shift : Z) :
  let legacy :=
    Legacy.calculate_kpi_for_employees employees kpi_table nch_day nd_shift in
  let improved := Improved.calculate employees kpi_table nch_day nd_shift in
  (length (fst legacy) + length (snd legacy))%nat = named_records employees
  /\ (length (fst improved) + length (snd improved)
      <= named_records employees)%nat
  /\ (0 < nch_day -> 0 < nd_shift ->
      (length (fst improved) + length (snd improved))%nat
      = named_records employees).
Proof.
  cbv zeta. split; [|split].
  - destruct (run_emits _ _ _
                (legacy_step_emits (Legacy.build_kpi_map kpi_table)
                   nch_day nd_shift) employees (mkState [] [] ∅))
      as (rs & es & Hr & He & _ & _ & _ & Heq).
    unfold Legacy.calculate_kpi_for_employees. cbn [fst snd].
    rewrite Hr, He. apply Heq. exact I.
  - destruct (run_emits fio _ _
                (improved_step_emits (Improved._build_kpi_map kpi_table)
                   nch_day nd_shift) employees (mkState [] [] ∅))
      as (rs & es & Hr & He & _ & _ & Hle & _).
    unfold Improved.calculate. cbn [fst snd]. rewrite Hr, He. exact Hle.
  - intros H1 H2.
    destruct (run_emits fio _ _
                (improved_step_emits (Improved._build_kpi_map kpi_table)
                   nch_day nd_shift) employees (mkState [] [] ∅))
      as (rs & es & Hr & He & _ & _ & _ & Heq).
    unfold Improved.calculate. cbn [fst snd]. rewrite Hr, He.
    apply Heq. split; assumption.
Qed.

(** Witness of [every_named_record_is_answered]. *)
Lemma every_named_record_is_answered_witness :
  (length (fst (Improved.calculate [ivanov; ivanov_again; sidorov]
                  [ivanov_item] 22 30))
   + length (snd (Improved.calculate [ivanov; ivanov_again; sidorov]
                    [ivanov_item] 22 30)))%nat
  = named_records [ivanov; ivanov_again; sidorov].
Proof.
  apply (every_named_record_is_answered [ivanov; ivanov_again; sidorov]
           [ivanov_item] 22 30); reflexivity.
Defined.

Section EntryPoint.
Context {PS : PyStr} {PL : PyStrLaws PS}.

Lemma improved_branch_trimmed emp kpi_info nch_day nd_shift :
  Improved.branch (with_trimmed_fio emp) kpi_info nch_day nd_shift
  = option_map with_trimmed_name
      (Improved.branch emp kpi_info nch_day nd_shift).
Proof.
  unfold Improved.branch, Improved._calculate_day_kpi,
    Improved._calculate_shift_kpi.
  destruct (String.eqb _ "day");
    [destruct (nch_day <=? 0) | destruct (nd_shift <=? 0)]; reflexivity.
Qed.

Lemma improved_step_trimmed kpi_map nch_day nd_shift st emp :
  Improved.step kpi_map nch_day nd_shift (with_trimmed_rows st)
    (with_trimmed_fio emp)
  = with_trimmed_rows (Improved.step kpi_map nch_day nd_shift st emp).
Proof.
  unfold Improved.step. cbn [with_trimmed_fio fio]. rewrite strip_idemp.
  destruct (is_empty (strip (fio emp))); [reflexivity|].
  cbn [with_trimmed_rows seen].
  destruct (decide (_ ∈ seen st)); [reflexivity|].
  destruct (kpi_map !! _) as [kpi_info|]; [|reflexivity].
  destruct (String.eqb _ "4"); [reflexivity|].
  change {| fio := strip (fio emp);
            letters_weekday := letters_weekday emp;
            letters_sat := letters_sat emp;
            letters_sun := letters_sun emp;
            letters_holiday := letters_holiday emp;
            numbers_weekday := numbers_weekday emp;
            numbers_sat := numbers_sat emp;
            numbers_sun := numbers_sun emp;
            numbers_holiday := numbers_holiday emp;
            worked_days_total := worked_days_total emp |}
    with (with_trimmed_fio emp).
  rewrite improved_branch_trimmed.
  destruct (Improved.branch emp kpi_info nch_day nd_shift) as [r|];
    [|reflexivity].
  unfold with_trimmed_rows, add_result, add_seen. cbn [results errors seen option_map].
  rewrite map_app. reflexivity.
Qed.

Lemma improved_run_trimmed kpi_map nch_day nd_shift employees st :
  fold_left (Improved.step kpi_map nch_day nd_shift)
    (map with_trimmed_fio employees) (with_trimmed_rows st)
  = with_trimmed_rows
      (fold_left (Improved.step kpi_map nch_day nd_shift) employees st).
Proof.
  revert st. induction employees as [|emp employees IH]; intros st;
    [reflexivity|].
  simpl. rewrite improved_step_trimmed. apply IH.
Qed.

End EntryPoint.

(** Extra X11.  Provided trimming is idempotent, the entry point
    [calculate_kpi_for_employees] of the improved calculator returns the
    errors of [KPICalculator.calculate] on the same records unchanged, and
    its rows with nothing changed but the names, which are trimmed. *)
Theorem entry_point_only_trims_names {PS : PyStr} {PL : PyStrLaws PS}
    (employees : list EmployeeData) (kpi_table : list KpiItem)
    (nch_day nd_shift year month : Z) :
  Improved.calculate_kpi_for_employees employees kpi_table nch_day nd_shift
    year month
  = (map with_trimmed_name
       (fst (Improved.calculate employees kpi_table nch_day nd_shift)),
     snd (Improved.calculate employees kpi_table nch_day nd_shift)).
Proof.
  unfold Improved.calculate_kpi_for_employees, Improved.calculate.
  cbn [fst snd].
  change (mkState [] [] ∅) with (with_trimmed_rows (mkState [] [] ∅)) at 1 2.
  change (map _ employees) with (map with_trimmed_fio employees).
  rewrite improved_run_trimmed. reflexivity.
Qed.

(** Witness of [entry_point_only_trims_names]. *)
Lemma entry_point_only_trims_names_witness :
  Improved.calculate_kpi_for_employees [ivanov_again; ivanov] [ivanov_item]
    22 30 2025 4
  = (map with_trimmed_name
       (fst (Improved.calculate [ivanov_again; ivanov] [ivanov_item] 22 30)),
     snd (Improved.calculate [ivanov_again; ivanov] [ivanov_item] 22 30)).
Proof.
  exact (entry_point_only_trims_names (PL := ascii_PyStrLaws)
           [ivanov_again; ivanov] [ivanov_item] 22 30 2025 4).
Defined.

Section Holidays.
Context {PS : PyStr}.

(** A loop that ends without an exception keeps an invariant of its steps. *)
Lemma rfold_invariant {A B : Type} (I : A -> Prop) (f : A -> B -> Result A)
    (l : list B) (a r : A) :
  (forall a b a', I a -> f a b = Ok a' -> I a') ->
  I a -> rfold f l a = Ok r -> I r.
Proof.
  intros Hstep. revert a.
  induction l as [|b l IH]; intros a Ha; simpl.
  - intros [= <-]. exact Ha.
  - destruct (f a b) as [a'| |] eqn:E; cbn [rbind]; try discriminate.
    apply IH. eapply Hstep; eauto.
Qed.

Lemma add_day_bounds (out : gset Z) (d x : Z) :
  x ∈ add_day out d -> x ∈ out \/ 1 <= x <= 31.
Proof.
  unfold add_day. destruct ((1 <=? d) && (d <=? 31)) eqn:E; [|auto].
  intros H. apply elem_of_union in H. destruct H as [H|H]; [auto|].
  apply elem_of_singleton in H. subst x. right.
  apply andb_true_iff in E. destruct E as [E1 E2].
  apply Z.leb_le in E1, E2. lia.
Qed.

Lemma add_day_grows (out : gset Z) (d x : Z) :
  x ∈ out -> x ∈ add_day out d.
Proof.
  intros H. unfold add_day.
  destruct ((1 <=? d) && (d <=? 31)); [apply elem_of_union_l|]; exact H.
Qed.

Lemma add_day_in (out : gset Z) (d : Z) :
  1 <= d <= 31 -> d ∈ add_day out d.
Proof.
  intros Hd. unfold add_day.
  assert (E : (1 <=? d) && (d <=? 31) = true).
  { apply andb_true_iff. split; apply Z.leb_le; lia. }
  rewrite E. apply elem_of_union_r, elem_of_singleton. reflexivity.
Qed.

(** One step of the loop of [_normalize_holidays] that does not raise keeps
    what is in the set and adds at most one day number between 1 and 31. *)
Lemma normalize_step_cases (year month : Z) (out out' : gset Z)
    (h : holiday_item) :
  normalize_step year month out h = Ok out' ->
  out' = out \/ exists d, out' = add_day out d.
Proof.
  destruct h as [|z|s0]; cbn [normalize_step].
  - intros [= <-]. left. reflexivity.
  - intros [= <-]. right. eauto.
  - destruct (is_empty (strip s0)); [intros [= <-]; left; reflexivity|].
    destruct (iso_date (strip s0)) as [[[[y m] d]|]| |]; cbn [rbind];
      try discriminate.
    + intros [= <-]. destruct ((y =? year) && (m =? month)); eauto.
    + destruct (isdigit (strip s0)); [|intros [= <-]; left; reflexivity].
      destruct (py_int (strip s0)) as [d| |]; cbn [rbind]; try discriminate.
      intros [= <-]. eauto.
Qed.

Lemma normalize_step_bounds (year month : Z) (out out' : gset Z)
    (h : holiday_item) (x : Z) :
  normalize_step year month out h = Ok out' ->
  x ∈ out' -> x ∈ out \/ 1 <= x <= 31.
Proof.
  intros H Hx. destruct (normalize_step_cases _ _ _ _ _ H) as [->|[d ->]];
    [left; exact Hx | apply (add_day_bounds _ _ _ Hx)].
Qed.

Lemma normalize_step_grows (year month : Z) (out out' : gset Z)
    (h : holiday_item) (x : Z) :
  normalize_step year month out h = Ok out' -> x ∈ out -> x ∈ out'.
Proof.
  intros H Hx. destruct (normalize_step_cases _ _ _ _ _ H) as [->|[d ->]];
    [exact Hx | apply add_day_grows, Hx].
Qed.

Lemma normalize_fold_member (year month : Z) (hs : list holiday_item)
    (out H : gset Z) (d : Z) :
  In (HInt d) hs -> 1 <= d <= 31 ->
  rfold (normalize_step year month) hs out = Ok H -> d ∈ H.
Proof.
  intros Hin Hd. revert out.
  induction hs as [|h hs IH]; intros out; [destruct Hin|].
  simpl rfold.
  destruct (normalize_step year month out h) as [out'| |] eqn:E;
    cbn [rbind]; try discriminate.
  destruct Hin as [->|Hin]; [|apply IH, Hin].
  cbn [normalize_step] in E. injection E as <-.
  apply (rfold_invariant (fun s => d ∈ s)).
  - intros a b a' Ha Hstep. exact (normalize_step_grows _ _ _ _ _ _ Hstep Ha).
  - apply add_day_in, Hd.
Qed.

End Holidays.

(** Extra X12.  [_normalize_holidays] returns the empty set for [None] and
    for the empty list, and whatever the items of the list (integers, day
    strings, ISO dates, anything else) every member of the set it returns is
    a day number between 1 and 31. *)
Theorem normalized_holidays_are_day_numbers {PS : PyStr}
    (holidays : option (list holiday_item)) (year month d : Z)
    (holiday_days : gset Z) :
  _normalize_holidays None year month = Ok ∅
  /\ _normalize_holidays (Some []) year month = Ok ∅
  /\ (_normalize_holidays holidays year month = Ok holiday_days ->
      d ∈ holiday_days -> 1 <= d <= 31).
Proof.
  split; [reflexivity|]. split; [reflexivity|].
  destruct holidays as [hs|];
    [|intros [= <-] H; exfalso; exact (not_elem_of_empty _ H)].
  unfold _normalize_holidays. intros Hfold.
  revert d.
  refine (rfold_invariant (fun s : gset Z => forall d, d ∈ s -> 1 <= d <= 31)
            _ _ _ _ _ _ Hfold).
  - intros out h out' Hout Hstep x Hx.
    destruct (normalize_step_bounds _ _ _ _ _ _ Hstep Hx) as [H|H];
      [apply Hout, H | exact H].
  - intros x Hx. exfalso. exact (not_elem_of_empty _ Hx).
Qed.


(** Witness of [normalized_holidays_are_day_numbers]. *)
Lemma normalized_holidays_are_day_numbers_witness :
  exists holiday_days,
    _normalize_holidays
      (Some [HStr "2025-12-16"; HInt 40; HStr "77"; HStr "2024-12-19"])
      2025 12 = Ok holiday_days
    /\ 16 ∈ holiday_days
    /\ 1 <= 16 <= 31.
Proof.
  eexists. split; [vm_compute; reflexivity|].
  split; [vm_compute; reflexivity|].
  refine (proj2 (proj2 (normalized_holidays_are_day_numbers
                          (Some [HStr "2025-12-16"; HInt 40; HStr "77";
                                 HStr "2024-12-19"]) 2025 12 16 _)) _ _).
  - vm_compute. reflexivity.
  - vm_compute. reflexivity.
Defined.

Section HolidayLists.
Context {PS : PyStr}.

Lemma normalize_without_text (year month : Z) (hs : list holiday_item)
    (out : gset Z) :
  (forall s, ~ In (HStr s) hs) ->
  exists H, rfold (normalize_step year month) hs out = Ok H.
Proof.
  revert out. induction hs as [|h hs IH]; intros out Hno; simpl.
  - eauto.
  - assert (Hno' : forall s, ~ In (HStr s) hs).
    { intros s Hs. apply (Hno s). right. exact Hs. }
    destruct h as [|z|s0]; cbn [normalize_step rbind].
    + apply IH, Hno'.
    + apply IH, Hno'.
    + exfalso. apply (Hno s0). left. reflexivity.
Qed.

End HolidayLists.

(** Extra X13.  When the holiday list is normalised without an exception
    (as it is when it holds no text; [int] raises on some texts that pass
    [isdigit]), a day given as a bare integer between 1 and 31 anywhere in
    the list is in the normalized set, whatever the other items, and the
    classifier then returns [holiday] for that day of the requested month. *)
Theorem listed_day_is_classified_holiday {PS : PyStr}
    (hs : list holiday_item) (year month d : Z) :
  In (HInt d) hs -> 1 <= d <= 31 ->
  (forall holiday_days,
     _normalize_holidays (Some hs) year month = Ok holiday_days ->
     d ∈ holiday_days
     /\ _classify_day year month d holiday_days = Ok Holiday)
  /\ ((forall s, ~ In (HStr s) hs) ->
      exists holiday_days,
        _normalize_holidays (Some hs) year month = Ok holiday_days).
Proof.
  intros Hin Hd. split.
  - intros holiday_days Hn.
    assert (Hmem : d ∈ holiday_days).
    { exact (normalize_fold_member _ _ _ _ _ _ Hin Hd Hn). }
    split; [exact Hmem|]. unfold _classify_day.
    destruct (decide _) as [_|Hn']; [reflexivity | contradiction].
  - intros Hno. apply normalize_without_text, Hno.
Qed.

(** Witness of [listed_day_is_classified_holiday]. *)
Lemma listed_day_is_classified_holiday_witness :
  _classify_day 2025 11 1 ∅ = Ok Sat
  /\ exists holiday_days,
       _normalize_holidays (Some [HStr "x"; HInt 1]) 2025 11 = Ok holiday_days
       /\ _classify_day 2025 11 1 holiday_days = Ok Holiday.
Proof.
  split; [reflexivity|].
  eexists. split; [vm_compute; reflexivity|].
  refine (proj2 (proj1 (listed_day_is_classified_holiday
                          [HStr "x"; HInt 1] 2025 11 1 _ _) _ _)).
  - right. left. reflexivity.
  - lia.
  - vm_compute. reflexivity.
Defined.

Section Counting.
Context {PS : PyStr}.

Lemma bump_total is_number day_type e :
  total_marks (bump is_number day_type e) = total_marks e + 1
  /\ counters_le e (bump is_number day_type e).
Proof.
  unfold total_marks, counters_le, bump.
  destruct is_number, day_type; cbn; repeat split; lia.
Qed.

Lemma counters_le_refl e : counters_le e e.
Proof. unfold counters_le. repeat split; lia. Qed.

Lemma counters_le_trans e1 e2 e3 :
  counters_le e1 e2 -> counters_le e2 e3 -> counters_le e1 e3.
Proof. unfold counters_le. intros H1 H2. repeat split; lia. Qed.

(** The classifier returns a day kind or raises [OverflowError]; it returns
    when the day is a holiday or the numbers are C [int]s. *)
Lemma classify_day_outcome (year month day_num : Z) (holiday_days : gset Z) :
  (exists k, _classify_day year month day_num holiday_days = Ok k)
  \/ (_classify_day year month day_num holiday_days = OverflowError
      /\ (day_num ∉ holiday_days)
      /\ Calendar.c_ints year month day_num = false).
Proof.
  unfold _classify_day.
  destruct (decide (day_num ∈ holiday_days)) as [Hin|Hout]; [left; eauto|].
  unfold Calendar.date_call.
  destruct (Calendar.c_ints year month day_num) eqn:Ec;
    [|right; repeat split; assumption].
  left. destruct (Calendar.valid_date year month day_num); [|eauto].
  destruct (Calendar.weekday year month day_num) as [wd|]; [|eauto].
  destruct (wd =? 5); [eauto|]. destruct (wd =? 6); eauto.
Qed.

(** One day cell: what it does to the record when it does not raise. *)
Lemma count_cell_Ok year month holiday_days e val day_num e' :
  count_cell year month holiday_days e val day_num = Ok e' ->
  total_marks e' = total_marks e + (if populated val then 1 else 0)
  /\ counters_le e e'
  /\ fio e' = fio e
  /\ worked_days_total e' = worked_days_total e.
Proof.
  assert (Hrefl : forall e0, Ok e = Ok e0 ->
            total_marks e0 = total_marks e + 0 /\ counters_le e e0
            /\ fio e0 = fio e /\ worked_days_total e0 = worked_days_total e).
  { intros e0 [= <-]. split; [lia|]. split; [apply counters_le_refl|].
    split; reflexivity. }
  unfold count_cell, populated.
  destruct val as [[|s|z|t]|]; try apply Hrefl;
    (destruct (_ || _ || _); [apply Hrefl|];
     destruct (_classify_day year month day_num holiday_days) as [k| |];
     cbn [rbind negb]; try discriminate;
     intros [= <-];
     match goal with
     | |- context [bump ?b k e] => destruct (bump_total b k e) as [H1 H2]
     end;
     split; [exact H1|]; split; [exact H2|]; split; reflexivity).
Qed.

(** One day cell raises [OverflowError] or returns; it returns when the day
    number can be classified. *)
Lemma count_cell_outcome year month holiday_days e val day_num :
  (exists e', count_cell year month holiday_days e val day_num = Ok e')
  \/ (count_cell year month holiday_days e val day_num = OverflowError
      /\ (day_num ∉ holiday_days)
      /\ Calendar.c_ints year month day_num = false).
Proof.
  unfold count_cell.
  destruct val as [[|s|z|t]|]; try (left; eauto; fail);
    (destruct (_ || _ || _); [left; eauto|];
     destruct (classify_day_outcome year month day_num holiday_days)
       as [[k ->]|(-> & H1 & H2)]; cbn [rbind]; [left; eauto | right; auto]).
Qed.

Lemma count_row_Ok year month holiday_days day_cols row e e' :
  count_row year month holiday_days day_cols row e = Ok e' ->
  total_marks e' = total_marks e + Z.of_nat (populated_cells day_cols row)
  /\ counters_le e e'
  /\ fio e' = fio e
  /\ worked_days_total e' = worked_days_total e.
Proof.
  unfold count_row, populated_cells. revert e.
  induction day_cols as [|[col day_num] day_cols IH]; intros e.
  - intros [= <-]. unfold count. simpl. split; [lia|].
    split; [apply counters_le_refl|]. split; reflexivity.
  - simpl rfold.
    destruct (count_cell year month holiday_days e (nth_error row col) day_num)
      as [e1| |] eqn:E1; cbn [rbind]; try discriminate.
    intros H. destruct (IH _ H) as (IHt & IHc & IHf & IHw).
    destruct (count_cell_Ok _ _ _ _ _ _ _ E1) as (Ht & Hc & Hf & Hw).
    rewrite count_cons. split.
    + rewrite IHt, Ht. destruct (populated (nth_error row col)); lia.
    + split; [eapply counters_le_trans; eassumption|]. split; congruence.
Qed.

Lemma days_fit_cons year month holiday_days col d day_cols :
  days_fit year month holiday_days ((col, d) :: day_cols) ->
  (d ∈ holiday_days \/ Calendar.c_ints year month d = true)
  /\ days_fit year month holiday_days day_cols.
Proof.
  intros H. split; [apply (H col d); left; reflexivity|].
  intros c x Hx. apply (H c x). right. exact Hx.
Qed.

(** A row is counted, or a day number cannot be classified. *)
Lemma count_row_outcome year month holiday_days day_cols row e :
  (exists e', count_row year month holiday_days day_cols row e = Ok e')
  \/ (count_row year month holiday_days day_cols row e = OverflowError
      /\ ~ days_fit year month holiday_days day_cols).
Proof.
  unfold count_row. revert e.
  induction day_cols as [|[col day_num] day_cols IH]; intros e.
  - left. simpl. eauto.
  - simpl rfold.
    destruct (count_cell_outcome year month holiday_days e (nth_error row col)
                day_num) as [[e1 ->]|(-> & H1 & H2)]; cbn [rbind].
    + destruct (IH e1) as [[e' ->]|[-> Hno]]; [left; eauto|].
      right. split; [reflexivity|]. intros Hfit.
      apply Hno. apply (days_fit_cons _ _ _ _ _ _ Hfit).
    + right. split; [reflexivity|]. intros Hfit.
      destruct (proj1 (days_fit_cons _ _ _ _ _ _ Hfit)) as [H|H];
        [contradiction | congruence].
Qed.

Lemma populated_cells_le day_cols row :
  (populated_cells day_cols row <= length day_cols)%nat.
Proof.
  unfold populated_cells, count.
  induction day_cols as [|[col d] day_cols IH]; simpl; [lia|].
  destruct (populated _); simpl; lia.
Qed.

(** The record of a row of the embedded layout is the counted record, with
    the total-days figure of the row. *)
Lemma kz_row_Ok year month holiday_days fio_col day_cols total_days_col
    row e :
  kz_row year month holiday_days fio_col day_cols total_days_col row
  = Ok (Some e) ->
  exists fio_raw e0,
    nth_error row fio_col = Some fio_raw
    /\ is_empty (strip (cell_str fio_raw)) = false
    /\ count_row year month holiday_days day_cols row
         (blank_employee (strip (cell_str fio_raw))) = Ok e0
    /\ fio e = strip (cell_str fio_raw)
    /\ (letters_weekday e, letters_sat e, letters_sun e, letters_holiday e,
        numbers_weekday e, numbers_sat e, numbers_sun e, numbers_holiday e)
       = (letters_weekday e0, letters_sat e0, letters_sun e0,
          letters_holiday e0, numbers_weekday e0, numbers_sat e0,
          numbers_sun e0, numbers_holiday e0).
Proof.
  unfold kz_row.
  destruct (nth_error row fio_col) as [fio_raw|]; [|discriminate].
  assert (Hgen :
    (if is_empty (strip (cell_str fio_raw))
        || String.eqb (strip (cell_str fio_raw)) KZ_HEADER
     then Ok None
     else
       rbind (count_row year month holiday_days day_cols row
                (blank_employee (strip (cell_str fio_raw))))
         (fun e0 =>
            Ok (Some {| fio := strip (cell_str fio_raw);
                        letters_weekday := letters_weekday e0;
                        letters_sat := letters_sat e0;
                        letters_sun := letters_sun e0;
                        letters_holiday := letters_holiday e0;
                        numbers_weekday := numbers_weekday e0;
                        numbers_sat := numbers_sat e0;
                        numbers_sun := numbers_sun e0;
                        numbers_holiday := numbers_holiday e0;
                        worked_days_total :=
                          match
                            match total_days_col with
                            | None => None
                            | Some c => _try_float (nth_error row c)
                            end
                          with
                          | Some t => TotalNum t
                          | None => TotalNone
                          end |}))) = Ok (Some e) ->
    exists fio_raw0 e0,
      Some fio_raw = Some fio_raw0
      /\ is_empty (strip (cell_str fio_raw0)) = false
      /\ count_row year month holiday_days day_cols row
           (blank_employee (strip (cell_str fio_raw0))) = Ok e0
      /\ fio e = strip (cell_str fio_raw0)
      /\ (letters_weekday e, letters_sat e, letters_sun e, letters_holiday e,
          numbers_weekday e, numbers_sat e, numbers_sun e, numbers_holiday e)
         = (letters_weekday e0, letters_sat e0, letters_sun e0,
            letters_holiday e0, numbers_weekday e0, numbers_sat e0,
            numbers_sun e0, numbers_holiday e0)).
  { destruct (is_empty (strip (cell_str fio_raw))) eqn:Eb; [discriminate|].
    destruct (String.eqb _ KZ_HEADER); [discriminate|]. cbn [orb].
    destruct (count_row _ _ _ _ _ _) as [e0| |] eqn:Ec; cbn [rbind];
      try discriminate.
    intros [= <-]. exists fio_raw, e0. repeat split; assumption. }
  destruct fio_raw; try discriminate; exact Hgen.
Qed.

(** A row of the embedded layout gives a record or none, or a day number
    cannot be classified. *)
Lemma kz_row_outcome year month holiday_days fio_col day_cols total_days_col
    row :
  (exists oe, kz_row year month holiday_days fio_col day_cols total_days_col
                row = Ok oe)
  \/ (kz_row year month holiday_days fio_col day_cols total_days_col row
      = OverflowError
      /\ ~ days_fit year month holiday_days day_cols).
Proof.
  unfold kz_row.
  destruct (nth_error row fio_col) as [fio_raw|]; [|left; eauto].
  assert (Hgen : forall name (k : EmployeeData -> Result (option EmployeeData)),
            (forall e0, exists oe, k e0 = Ok oe) ->
            (exists oe,
               (if is_empty name || String.eqb name KZ_HEADER then Ok None
                else rbind (count_row year month holiday_days day_cols row
                              (blank_employee name)) k) = Ok oe)
            \/ ((if is_empty name || String.eqb name KZ_HEADER then Ok None
                 else rbind (count_row year month holiday_days day_cols row
                               (blank_employee name)) k) = OverflowError
                /\ ~ days_fit year month holiday_days day_cols)).
  { intros name k Hk. destruct (_ || _); [left; eauto|].
    destruct (count_row_outcome year month holiday_days day_cols row
                (blank_employee name)) as [[e0 ->]|[-> Hno]]; cbn [rbind].
    - left. apply Hk.
    - right. split; [reflexivity | exact Hno]. }
  destruct fio_raw; [left; eauto| | |]; apply Hgen; intros e0; eauto.
Qed.

Lemma simple_row_Ok year month holiday_days name_col day_cols row e :
  simple_row year month holiday_days name_col day_cols row = Ok (Some e) ->
  exists name,
    is_empty (strip name) = false
    /\ count_row year month holiday_days day_cols row
         (blank_employee (strip name)) = Ok e.
Proof.
  unfold simple_row.
  set (name := match name_col with Some c => _ | None => _ end).
  destruct (is_empty (strip name)) eqn:Eb; [discriminate|].
  destruct (count_row _ _ _ _ _ _) as [e0| |] eqn:Ec; cbn [rbind];
    try discriminate.
  intros [= <-]. exists name. split; assumption.
Qed.

Lemma simple_row_outcome year month holiday_days name_col day_cols row :
  (exists oe, simple_row year month holiday_days name_col day_cols row = Ok oe)
  \/ (simple_row year month holiday_days name_col day_cols row = OverflowError
      /\ ~ days_fit year month holiday_days day_cols).
Proof.
  unfold simple_row.
  set (name := match name_col with Some c => _ | None => _ end).
  destruct (is_empty (strip name)); [left; eauto|].
  destruct (count_row_outcome year month holiday_days day_cols row
              (blank_employee (strip name))) as [[e0 ->]|[-> Hno]]; cbn [rbind].
  - left. eauto.
  - right. split; [reflexivity | exact Hno].
Qed.

End Counting.

(** Extra X14.  For every record built from a row of either layout, the
    eight counters add up to the number of day columns whose cell counts
    (present, not empty, not a dash, not the day-off letter): each such cell
    increments exactly one counter.  The sum is at most the number of day
    columns and no counter is negative. *)
Theorem counters_count_the_populated_cells {PS : PyStr} (year month : Z)
    (holiday_days : gset Z) (day_cols : list (nat * Z)) (row : list cell)
    (fio_col : nat) (total_days_col name_col : option nat) (e : EmployeeData) :
  kz_row year month holiday_days fio_col day_cols total_days_col row
  = Ok (Some e)
  \/ simple_row year month holiday_days name_col day_cols row = Ok (Some e) ->
  total_marks e = Z.of_nat (populated_cells day_cols row)
  /\ total_marks e <= Z.of_nat (length day_cols)
  /\ counters_le (blank_employee (fio e)) e.
Proof.
  assert (Hgen : forall name e0,
            count_row year month holiday_days day_cols row (blank_employee name)
            = Ok e0 ->
            total_marks e0 = Z.of_nat (populated_cells day_cols row)
            /\ total_marks e0 <= Z.of_nat (length day_cols)
            /\ counters_le (blank_employee name) e0
            /\ fio e0 = name).
  { intros name e0 Hc.
    destruct (count_row_Ok _ _ _ _ _ _ _ Hc) as (Ht & Hle & Hf & _).
    change (total_marks (blank_employee name)) with 0 in Ht.
    pose proof (populated_cells_le day_cols row).
    split; [lia|]. split; [lia|]. split; [exact Hle | exact Hf]. }
  intros [H|H].
  - destruct (kz_row_Ok _ _ _ _ _ _ _ _ H)
      as (fio_raw & e0 & _ & _ & Hc & Hname & Hcnt).
    destruct (Hgen _ _ Hc) as (H1 & H2 & H3 & _).
    rewrite Hname.
    unfold total_marks, counters_le in *.
    cbn [blank_employee letters_weekday letters_sat letters_sun
         letters_holiday numbers_weekday numbers_sat numbers_sun
         numbers_holiday] in *.
    injection Hcnt as E1 E2 E3 E4 E5 E6 E7 E8.
    rewrite E1, E2, E3, E4, E5, E6, E7, E8. repeat split; lia.
  - destruct (simple_row_Ok _ _ _ _ _ _ _ H) as (name & _ & Hc).
    destruct (Hgen _ _ Hc) as (H1 & H2 & H3 & H4).
    rewrite H4. split; [exact H1|]. split; [exact H2 | exact H3].
Qed.

(** Witness of [counters_count_the_populated_cells]. *)
Lemma counters_count_the_populated_cells_witness :
  exists e,
    kz_row 2025 4 ∅ 0 [(1%nat, 1); (2%nat, 2); (3%nat, 3)] None marked_row
    = Ok (Some e)
    /\ total_marks e
       = Z.of_nat (populated_cells [(1%nat, 1); (2%nat, 2); (3%nat, 3)]
                     marked_row)
    /\ total_marks e <= Z.of_nat 3
    /\ counters_le (blank_employee (fio e)) e.
Proof.
  eexists. split; [vm_compute; reflexivity|].
  apply (counters_count_the_populated_cells 2025 4 ∅
           [(1%nat, 1); (2%nat, 2); (3%nat, 3)] marked_row 0%nat None None).
  left. vm_compute. reflexivity.
Defined.

Section Layouts.
Context {PS : PyStr}.

Lemma rcollect_Ok {A B : Type} (f : A -> Result (option B)) (l : list A)
    (bs : list B) :
  rcollect f l = Ok bs ->
  (length bs <= length l)%nat
  /\ forall b, In b bs -> exists a, In a l /\ f a = Ok (Some b).
Proof.
  revert bs. induction l as [|a l IH]; intros bs; simpl.
  - intros [= <-]. split; [reflexivity|]. intros b [].
  - destruct (f a) as [ob| |] eqn:Ea; cbn [rbind]; try discriminate.
    destruct (rcollect f l) as [bs'| |]; cbn [rbind]; try discriminate.
    destruct (IH bs' eq_refl) as [Hlen Hin].
    intros [= <-]. destruct ob as [b0|].
    + split; [simpl; lia|]. intros b [<-|Hb].
      * exists a. split; [left; reflexivity | exact Ea].
      * destruct (Hin b Hb) as (a' & Ha' & Hf). exists a'. split; [right|]; assumption.
    + split; [lia|]. intros b Hb.
      destruct (Hin b Hb) as (a' & Ha' & Hf). exists a'. split; [right|]; assumption.
Qed.

Lemma rcollect_outcome {A B : Type} (f : A -> Result (option B)) (Q : Prop)
    (l : list A) :
  (forall a, (exists ob, f a = Ok ob) \/ (f a = OverflowError /\ Q)) ->
  (exists bs, rcollect f l = Ok bs)
  \/ (rcollect f l = OverflowError /\ Q).
Proof.
  intros Hf. induction l as [|a l IH]; simpl; [left; eauto|].
  destruct (Hf a) as [[ob ->]|[-> HQ]]; cbn [rbind].
  - destruct IH as [[bs ->]|[-> HQ]]; cbn [rbind]; [left; eauto|].
    right. split; [reflexivity | exact HQ].
  - right. split; [reflexivity | exact HQ].
Qed.

Lemma find_index_Some {A : Type} (p : A -> bool) (l : list A) (i : nat) :
  find_index p l = Some i ->
  exists x, nth_error l i = Some x /\ p x = true.
Proof.
  revert i. induction l as [|x l IH]; intros i; simpl; [discriminate|].
  destruct (p x) eqn:E.
  - intros [= <-]. exists x. split; [reflexivity | exact E].
  - destruct (find_index p l) as [j|]; [|discriminate].
    intros [= <-]. apply IH. reflexivity.
Qed.

Lemma find_index_existsb {A : Type} (p : A -> bool) (l : list A) :
  existsb p l = true -> exists i, find_index p l = Some i.
Proof.
  induction l as [|x l IH]; simpl; [discriminate|].
  destruct (p x); [eauto|]. simpl. intros H.
  destruct (IH H) as [i Hi]. rewrite Hi. simpl. eauto.
Qed.

Lemma kz_row_name year month holiday_days fio_col day_cols total_days_col
    row e :
  kz_row year month holiday_days fio_col day_cols total_days_col row
  = Ok (Some e) ->
  is_empty (fio e) = false /\ exists s, fio e = strip s.
Proof.
  intros H. destruct (kz_row_Ok _ _ _ _ _ _ _ _ H)
    as (fio_raw & e0 & _ & Hne & _ & Hname & _).
  rewrite Hname. split; [exact Hne | eauto].
Qed.

Lemma simple_row_name year month holiday_days name_col day_cols row e :
  simple_row year month holiday_days name_col day_cols row = Ok (Some e) ->
  is_empty (fio e) = false
  /\ (exists s, fio e = strip s)
  /\ worked_days_total e = TotalNone.
Proof.
  intros H. destruct (simple_row_Ok _ _ _ _ _ _ _ H) as (name & Hne & Hc).
  destruct (count_row_Ok _ _ _ _ _ _ _ Hc) as (_ & _ & Hf & Hw).
  rewrite Hf, Hw. cbn [blank_employee fio worked_days_total].
  split; [exact Hne|]. split; [eauto | reflexivity].
Qed.

(** The records of a successful parse carry trimmed names that are not
    blank. *)
Lemma parsed_names file_storage year month holidays records e :
  parse_timesheet_from_excel file_storage year month holidays = Ok records ->
  In e records ->
  is_empty (fio e) = false /\ exists s, fio e = strip s.
Proof.
  unfold parse_timesheet_from_excel.
  destruct (_normalize_holidays holidays year month) as [H| |]; cbn [rbind];
    try discriminate.
  destruct (_has_kz_header (read_raw file_storage)).
  - unfold _parse_kz_template.
    destruct (find_index _ (read_raw file_storage)) as [idx|]; [|discriminate].
    destruct (find_index is_kz_header_cell _) as [fio_col|]; [|discriminate].
    destruct (nth_error _ (S idx)) as [day_header|]; [|discriminate].
    destruct (kz_day_cols day_header) as [day_cols| |]; cbn [rbind];
      try discriminate.
    intros Hc Hin. destruct (rcollect_Ok _ _ _ Hc) as [_ Hrows].
    destruct (Hrows e Hin) as (row & _ & Hrow).
    eapply kz_row_name, Hrow.
  - destruct (existsb is_employee_label _); [|discriminate].
    unfold _parse_simple_template.
    destruct (simple_day_cols _) as [day_cols| |]; cbn [rbind];
      try discriminate.
    intros Hc Hin. destruct (rcollect_Ok _ _ _ Hc) as [_ Hrows].
    destruct (Hrows e Hin) as (row & _ & Hrow).
    apply simple_row_name in Hrow. tauto.
Qed.

End Layouts.

(** Extra X15.  Provided trimming is idempotent, every record of a successful
    parse has a non-blank name, so the legacy calculator answers each of them:
    the rows and errors of its run on the parsed records are together as
    many as the records. *)
Theorem parsed_records_are_all_answered {PS : PyStr} {PL : PyStrLaws PS}
    (file_storage : Workbook) (year month : Z)
    (holidays : option (list holiday_item)) (records : list EmployeeData)
    (kpi_table : list KpiItem) (nch_day nd_shift : Z) :
  parse_timesheet_from_excel file_storage year month holidays = Ok records ->
  named_records records = length records
  /\ (length (fst (Legacy.calculate_kpi_for_employees records kpi_table
                     nch_day nd_shift))
      + length (snd (Legacy.calculate_kpi_for_employees records kpi_table
                       nch_day nd_shift)))%nat
     = length records.
Proof.
  intros Hparse.
  assert (Hnamed : named_records records = length records).
  { assert (H : forall e, In e records ->
                is_empty (strip (fio e)) = false).
    { intros e He.
      destruct (parsed_names _ _ _ _ _ _ Hparse He) as [Hne [s Hs]].
      rewrite Hs, strip_idemp, <- Hs. exact Hne. }
    clear Hparse. induction records as [|e records IH]; [reflexivity|].
    rewrite named_records_cons, named_records_one.
    rewrite (H e (or_introl eq_refl)). simpl.
    rewrite IH; [reflexivity|]. intros e' He'. apply H. right. exact He'. }
  split; [exact Hnamed|].
  destruct (run_emits _ _ _
              (legacy_step_emits (Legacy.build_kpi_map kpi_table)
                 nch_day nd_shift) records (mkState [] [] ∅))
    as (rs & es & Hr & He & _ & _ & _ & Heq).
  unfold Legacy.calculate_kpi_for_employees. cbn [fst snd].
  rewrite Hr, He, <- Hnamed. apply Heq. exact I.
Qed.

(** Witness of [parsed_records_are_all_answered]. *)
Lemma parsed_records_are_all_answered_witness :
  exists records,
    parse_timesheet_from_excel april_sheet 2025 4 None = Ok records
    /\ named_records records = length records
    /\ (length (fst (Legacy.calculate_kpi_for_employees records [ivanov_item]
                       22 30))
        + length (snd (Legacy.calculate_kpi_for_employees records
                         [ivanov_item] 22 30)))%nat
       = length records.
Proof.
  eexists. split; [vm_compute; reflexivity|].
  apply (parsed_records_are_all_answered (PL := ascii_PyStrLaws) april_sheet
           2025 4 None _ [ivanov_item] 22 30).
  vm_compute. reflexivity.
Defined.

(** Extra X16.  Once the header cell of the embedded layout is in the grid
    and the holidays are normalised, the two errors of [_parse_kz_template]
    about the header cannot occur.  With the first header row at index [i],
    parsing raises the error about the missing day row when row [i] is the
    last row of the grid.  Otherwise, when [int] raises on a cell of the day
    row [i + 1], parsing raises that exception; when it does not, parsing
    returns records, at most one for each row below the day row, unless a
    day number can not be classified ([date] raises [OverflowError]), and
    then it raises [OverflowError]. *)
Theorem detected_header_leaves_one_error {PS : PyStr}
    (file_storage : Workbook) (year month : Z)
    (holidays : option (list holiday_item)) (holiday_days : gset Z) :
  has_header_cell (read_raw file_storage) ->
  _normalize_holidays holidays year month = Ok holiday_days ->
  exists header_row_idx,
    find_index (existsb is_kz_header_cell) (read_raw file_storage)
    = Some header_row_idx
    /\ (((length (read_raw file_storage) <= S header_row_idx)%nat
         /\ parse_timesheet_from_excel file_storage year month holidays
            = ValueError NO_DAY_ROW)
        \/ exists day_header,
             nth_error (read_raw file_storage) (S header_row_idx)
             = Some day_header
             /\ parse_outcome year month holiday_days
                  (kz_day_cols day_header)
                  (fun records =>
                     (length records
                      <= length (read_raw file_storage)
                         - S (S header_row_idx))%nat)
                  (parse_timesheet_from_excel file_storage year month
                     holidays)).
Proof.
  intros Hcell Hn. apply _has_kz_header_true in Hcell.
  unfold parse_timesheet_from_excel. rewrite Hn. cbn [rbind]. rewrite Hcell.
  unfold _has_kz_header in Hcell.
  destruct (find_index_existsb (existsb is_kz_header_cell) _ Hcell)
    as [idx Hidx].
  exists idx. split; [exact Hidx|].
  destruct (find_index_Some _ _ _ Hidx) as (header_row & Hnth & Hrow).
  unfold _parse_kz_template. rewrite Hidx.
  rewrite (nth_error_nth _ _ [] Hnth).
  destruct (find_index_existsb _ _ Hrow) as [fio_col Hcol]. rewrite Hcol.
  destruct (nth_error (read_raw file_storage) (S idx)) as [day_header|] eqn:Eday.
  - right. exists day_header. split; [reflexivity|].
    unfold parse_outcome.
    destruct (kz_day_cols day_header) as [day_cols|msg|]; cbn [rbind];
      [|reflexivity|reflexivity].
    match goal with
    | |- context [rcollect ?f ?l] =>
        destruct (rcollect_outcome f (~ days_fit year month holiday_days day_cols) l)
          as [[records Hr]|[Hr Hno]]
    end.
    + intros row. apply kz_row_outcome.
    + right. exists records. split; [exact Hr|].
      destruct (rcollect_Ok _ _ _ Hr) as [Hlen _].
      rewrite length_skipn in Hlen. exact Hlen.
    + left. split; [exact Hr | exact Hno].
  - left. split; [apply nth_error_None, Eday | reflexivity].
Qed.

(** Witness of [detected_header_leaves_one_error]. *)
Lemma detected_header_leaves_one_error_witness :
  parse_timesheet_from_excel
    (mkWorkbook [[CStr "Report"]; [CNaN; CStr KZ_HEADER]] (mkHeaderFrame [] []))
    2025 4 None
  = ValueError NO_DAY_ROW.
Proof.
  destruct (detected_header_leaves_one_error
              (mkWorkbook [[CStr "Report"]; [CNaN; CStr KZ_HEADER]]
                 (mkHeaderFrame [] [])) 2025 4 None ∅)
    as (idx & Hidx & [[_ H]|(day_header & Hday & _)]).
  - exists [CNaN; CStr KZ_HEADER], (CStr KZ_HEADER).
    split; [right; left; reflexivity|].
    split; [right; left; reflexivity | vm_compute; reflexivity].
  - reflexivity.
  - exact H.
  - exfalso. vm_compute in Hidx. injection Hidx as <-. discriminate Hday.
Defined.

(** Extra X17.  A grid without the header cell of the embedded layout whose
    re-read form has an employee column is parsed as the flat layout once
    the holidays are normalised.  When [int] raises on a day label, parsing
    raises that exception; when it does not, parsing returns records, at
    most one for each row and none with a total-days figure, unless a day
    number can not be classified ([date] raises [OverflowError]), and then
    it raises [OverflowError]. *)
Theorem flat_layout_parses_or_raises {PS : PyStr} (file_storage : Workbook)
    (year month : Z) (holidays : option (list holiday_item))
    (holiday_days : gset Z) :
  ~ has_header_cell (read_raw file_storage) ->
  has_employee_column (read_with_header file_storage) ->
  _normalize_holidays holidays year month = Ok holiday_days ->
  parse_outcome year month holiday_days
    (simple_day_cols (columns (read_with_header file_storage)))
    (fun records =>
       (length records <= length (body (read_with_header file_storage)))%nat
       /\ forall e, In e records -> worked_days_total e = TotalNone)
    (parse_timesheet_from_excel file_storage year month holidays).
Proof.
  intros Hkz Hemp Hn. unfold parse_timesheet_from_excel. rewrite Hn.
  cbn [rbind].
  destruct (_has_kz_header (read_raw file_storage)) eqn:E1.
  { exfalso. apply Hkz, _has_kz_header_true, E1. }
  apply employee_label_true in Hemp. rewrite Hemp.
  unfold _parse_simple_template, parse_outcome.
  destruct (simple_day_cols _) as [day_cols|msg|]; cbn [rbind];
    [|reflexivity|reflexivity].
  match goal with
  | |- context [rcollect ?f ?l] =>
      destruct (rcollect_outcome f (~ days_fit year month holiday_days day_cols) l)
        as [[records Hr]|[Hr Hno]]
  end.
  - intros row. apply simple_row_outcome.
  - right. exists records. split; [exact Hr|].
    destruct (rcollect_Ok _ _ _ Hr) as [Hlen Hrows].
    split; [exact Hlen|]. intros e He.
    destruct (Hrows e He) as (row & _ & Hrow).
    apply simple_row_name in Hrow. tauto.
  - left. split; [exact Hr | exact Hno].
Qed.

(** Witness of [flat_layout_parses_or_raises]. *)
Lemma flat_layout_parses_or_raises_witness :
  exists records,
    parse_timesheet_from_excel
      (mkWorkbook [[CStr EMPLOYEE; CStr "01"]; [CStr "Petrov"; CInt 8]]
         (mkHeaderFrame [CStr EMPLOYEE; CStr "01"] [[CStr "Petrov"; CInt 8]]))
      2025 4 None = Ok records
    /\ (length records <= 1)%nat
    /\ forall e, In e records -> worked_days_total e = TotalNone.
Proof.
  pose proof (flat_layout_parses_or_raises
           (mkWorkbook [[CStr EMPLOYEE; CStr "01"]; [CStr "Petrov"; CInt 8]]
              (mkHeaderFrame [CStr EMPLOYEE; CStr "01"]
                 [[CStr "Petrov"; CInt 8]])) 2025 4 None ∅) as H.
  destruct H as [[H _]|H].
  - intros (row & v & Hrow & Hv & Heq). simpl in Hrow.
    destruct Hrow as [<-|[<-|[]]]; simpl in Hv;
      destruct Hv as [<-|[<-|[]]]; vm_compute in Heq; discriminate Heq.
  - left. reflexivity.
  - reflexivity.
  - vm_compute in H. discriminate H.
  - exact H.
Defined.

Section Week.

Lemma weekday_Some year month day wd :
  Calendar.weekday year month day = Some wd ->
  Calendar.valid_date year month day = true
  /\ wd = (Calendar.days_before_year year
           + Calendar.days_before_month year month + day + 6) mod 7.
Proof.
  unfold Calendar.weekday. destruct (Calendar.valid_date _ _ _); [|discriminate].
  intros [= <-]. split; reflexivity.
Qed.

Lemma weekday_valid year month day :
  Calendar.valid_date year month day = true ->
  Calendar.weekday year month day
  = Some ((Calendar.days_before_year year
           + Calendar.days_before_month year month + day + 6) mod 7).
Proof. unfold Calendar.weekday. intros ->. reflexivity. Qed.

Lemma days_in_month_le_31 year month : Calendar.days_in_month year month <= 31.
Proof.
  unfold Calendar.days_in_month.
  destruct month as [|[[[[|[]|]|[]|]|[[]|[]|]|]|[[[]|[]|]|[[]|[]|]|]|]|];
    try destruct (Calendar.is_leap year); lia.
Qed.

(** A date of the calendar is made of C [int]s. *)
Lemma valid_date_c_ints year month day :
  Calendar.valid_date year month day = true ->
  Calendar.c_ints year month day = true.
Proof.
  unfold Calendar.valid_date, Calendar.c_ints, Calendar.fits_c_int.
  intros H. repeat (apply andb_true_iff in H; destruct H as [H ?]).
  pose proof (days_in_month_le_31 year month).
  repeat (apply andb_true_iff; split);
    first [apply Z.leb_le | apply Z.ltb_lt];
    repeat match goal with
           | H : (_ <=? _) = true |- _ => apply Z.leb_le in H
           end; lia.
Qed.

Lemma date_call_valid year month day :
  Calendar.valid_date year month day = true ->
  Calendar.date_call year month day = Calendar.IsDate.
Proof.
  intros H. unfold Calendar.date_call.
  rewrite (valid_date_c_ints _ _ _ H), H. reflexivity.
Qed.

End Week.

(** Extra X18.  Outside the holiday set the classifier follows the calendar
    week: two dates of the same month seven days apart are classified alike,
    and the day after a date classified [sat] is classified [sun]. *)
Theorem classification_follows_the_week (year month day_num : Z)
    (holiday_days : gset Z) :
  Calendar.valid_date year month day_num = true ->
  day_num ∉ holiday_days ->
  (Calendar.valid_date year month (day_num + 7) = true ->
   day_num + 7 ∉ holiday_days ->
   _classify_day year month (day_num + 7) holiday_days
   = _classify_day year month day_num holiday_days)
  /\ (Calendar.valid_date year month (day_num + 1) = true ->
      day_num + 1 ∉ holiday_days ->
      _classify_day year month day_num holiday_days = Ok Sat ->
      _classify_day year month (day_num + 1) holiday_days = Ok Sun).
Proof.
  intros Hv Hh. unfold _classify_day.
  destruct (decide (day_num ∈ holiday_days)) as [|_]; [contradiction|].
  rewrite (date_call_valid _ _ _ Hv), (weekday_valid _ _ _ Hv).
  set (c := Calendar.days_before_year year
            + Calendar.days_before_month year month).
  split.
  - intros Hv7 Hh7.
    destruct (decide (day_num + 7 ∈ holiday_days)) as [|_]; [contradiction|].
    rewrite (date_call_valid _ _ _ Hv7), (weekday_valid _ _ _ Hv7). fold c.
    replace (c + (day_num + 7) + 6) with (c + day_num + 6 + 1 * 7) by ring.
    rewrite Z_mod_plus_full. reflexivity.
  - intros Hv1 Hh1.
    destruct (decide (day_num + 1 ∈ holiday_days)) as [|_]; [contradiction|].
    rewrite (date_call_valid _ _ _ Hv1), (weekday_valid _ _ _ Hv1). fold c.
    pose proof (Z.mod_pos_bound (c + day_num + 6) 7 eq_refl) as Hb.
    destruct ((c + day_num + 6) mod 7 =? 5) eqn:E5.
    + intros _. apply Z.eqb_eq in E5.
      replace (c + (day_num + 1) + 6) with ((c + day_num + 6) + 1) by ring.
      rewrite Z.add_mod by lia. rewrite E5. reflexivity.
    + destruct ((c + day_num + 6) mod 7 =? 6); discriminate.
Qed.

(** Witness of [classification_follows_the_week]. *)
Lemma classification_follows_the_week_witness :
  _classify_day 2025 11 8 ∅ = _classify_day 2025 11 1 ∅
  /\ _classify_day 2025 11 2 ∅ = Ok Sun.
Proof.
  destruct (classification_follows_the_week 2025 11 1 ∅ eq_refl
              (not_elem_of_empty _)) as [H7 H1].
  split.
  - apply H7; [reflexivity | apply not_elem_of_empty].
  - apply H1; [reflexivity | apply not_elem_of_empty | reflexivity].
Defined.

(** ** The calendar manager *)

Section CalendarFacts.
Import CalendarManager.

Lemma month_cases (month : Z) :
  1 <= month <= 12 ->
  month = 1 \/ month = 2 \/ month = 3 \/ month = 4 \/ month = 5 \/ month = 6
  \/ month = 7 \/ month = 8 \/ month = 9 \/ month = 10 \/ month = 11
  \/ month = 12.
Proof. lia. Qed.

Lemma days_in_month_bounds (year month : Z) :
  1 <= month <= 12 -> 28 <= Calendar.days_in_month year month <= 31.
Proof.
  intros Hm. destruct (month_cases month Hm) as
    [->|[->|[->|[->|[->|[->|[->|[->|[->|[->|[->| ->]]]]]]]]]]];
    cbn; try lia.
  destruct (Calendar.is_leap year); lia.
Qed.

Lemma valid_date_intro (year month day : Z) :
  1 <= year <= 9999 -> 1 <= month <= 12 ->
  1 <= day <= Calendar.days_in_month year month ->
  Calendar.valid_date year month day = true.
Proof.
  intros Hy Hm Hd. unfold Calendar.valid_date.
  repeat (apply andb_true_intro; split); apply Z.leb_le; lia.
Qed.

Lemma valid_date_elim (year month day : Z) :
  Calendar.valid_date year month day = true ->
  1 <= year <= 9999 /\ 1 <= month <= 12
  /\ 1 <= day <= Calendar.days_in_month year month.
Proof.
  unfold Calendar.valid_date. intros H.
  repeat (apply andb_prop in H; destruct H as [H ?]).
  repeat match goal with E : (_ <=? _) = true |- _ => apply Z.leb_le in E end.
  lia.
Qed.

Lemma new_date_valid (year month day : Z) :
  Calendar.valid_date year month day = true ->
  new_date year month day = Returns (year, month, day).
Proof.
  intros H. unfold new_date. rewrite (date_call_valid _ _ _ H). reflexivity.
Qed.

Lemma month_bounds_listable (year month : Z) :
  listable year month ->
  month_bounds year month
  = Returns ((year, month, 1),
             (year, month, Calendar.days_in_month year month)).
Proof.
  intros (Hy & Hm & Hlast).
  pose proof (days_in_month_bounds year month Hm) as Hd.
  unfold month_bounds.
  rewrite (new_date_valid year month 1) by (apply valid_date_intro; lia).
  cbn [bind].
  destruct (Z.eqb_spec month 12) as [->|Hne].
  - rewrite (new_date_valid (year + 1) 1 1)
      by (apply valid_date_intro; cbn; lia).
    cbn [bind]. unfold minus_one_day.
    replace (1 <? 1) with false by reflexivity.
    replace (1 <? year + 1) with true by (symmetry; apply Z.ltb_lt; lia).
    replace (year + 1 - 1) with year by lia. reflexivity.
  - pose proof (days_in_month_bounds year (month + 1)).
    rewrite (new_date_valid year (month + 1) 1)
      by (apply valid_date_intro; lia).
    cbn [bind]. unfold minus_one_day.
    replace (1 <? 1) with false by reflexivity.
    replace (1 <? month + 1) with true by (symmetry; apply Z.ltb_lt; lia).
    replace (month + 1 - 1) with month by lia. reflexivity.
Qed.

Lemma month_bounds_raises (year month : Z) :
  ~ listable year month -> Calendar.c_ints year month 1 = true ->
  month_bounds year month = Raises ValueErr.
Proof.
  intros Hn Hc. unfold month_bounds, new_date, Calendar.date_call.
  rewrite Hc.
  destruct (Calendar.valid_date year month 1) eqn:Ev; [|reflexivity].
  apply valid_date_elim in Ev. destruct Ev as (Hy & Hm & _).
  assert (year = 9999 /\ month = 12) as [-> ->]
    by (unfold listable in Hn; lia).
  reflexivity.
Qed.

Lemma month_bounds_overflows (year month : Z) :
  Calendar.c_ints year month 1 = false ->
  month_bounds year month = Raises OverflowErr.
Proof.
  intros Hc. unfold month_bounds, new_date, Calendar.date_call.
  rewrite Hc. reflexivity.
Qed.

Lemma listable_c_ints (year month : Z) :
  listable year month -> Calendar.c_ints year month 1 = true.
Proof.
  intros (Hy & Hm & _). apply valid_date_c_ints, valid_date_intro; [lia|lia|].
  pose proof (days_in_month_bounds year month Hm). lia.
Qed.

Lemma date_le_same_month (year month d1 d2 : Z) :
  date_le (year, month, d1) (year, month, d2) = (d1 <=? d2).
Proof.
  unfold date_le. rewrite !Z.ltb_irrefl, !Z.eqb_refl. reflexivity.
Qed.

(** The date after the last day of a listable month, and the test of the
    loops on it. *)
Lemma after_last_day (year month : Z) :
  listable year month ->
  exists next,
    plus_one_day (year, month, Calendar.days_in_month year month)
    = Returns next
    /\ date_le next (year, month, Calendar.days_in_month year month) = false.
Proof.
  intros (Hy & Hm & Hlast). unfold plus_one_day.
  rewrite Z.ltb_irrefl.
  destruct (Z.ltb_spec month 12) as [Hlt|Hge].
  - eexists. split; [reflexivity|]. unfold date_le.
    rewrite Z.ltb_irrefl, Z.eqb_refl.
    replace (month + 1 <? month) with false by (symmetry; apply Z.ltb_ge; lia).
    replace (month + 1 =? month) with false by (symmetry; apply Z.eqb_neq; lia).
    reflexivity.
  - replace (year <? 9999) with true by (symmetry; apply Z.ltb_lt; lia).
    eexists. split; [reflexivity|]. unfold date_le.
    replace (year + 1 <? year) with false by (symmetry; apply Z.ltb_ge; lia).
    replace (year + 1 =? year) with false by (symmetry; apply Z.eqb_neq; lia).
    reflexivity.
Qed.

Lemma days_loop_month (cache : gset date) (year month : Z) :
  listable year month ->
  forall (n : nat) (d : Z) (fuel : nat) (days : list DayEntry),
    1 <= d ->
    Z.of_nat n = Calendar.days_in_month year month - d ->
    (n + 1 < fuel)%nat ->
    days_loop fuel cache (year, month, d)
      (year, month, Calendar.days_in_month year month) days
    = Returns (days ++ map (fun k => day_entry cache (year, month, k))
                         (seqZ d (Z.of_nat n + 1))).
Proof.
  intros Hl n. induction n as [|n IH]; intros d fuel days Hd Hn Hfuel.
  - assert (d = Calendar.days_in_month year month) as -> by lia.
    destruct fuel as [|[|fuel]]; [lia|lia|].
    destruct (after_last_day year month Hl) as (next & Hnext & Hle).
    cbn [days_loop]. rewrite date_le_same_month, Z.leb_refl, Hnext.
    cbn [bind]. rewrite Hle. reflexivity.
  - destruct fuel as [|fuel]; [lia|].
    cbn [days_loop]. rewrite date_le_same_month.
    replace (d <=? Calendar.days_in_month year month) with true
      by (symmetry; apply Z.leb_le; lia).
    unfold plus_one_day.
    replace (d <? Calendar.days_in_month year month) with true
      by (symmetry; apply Z.ltb_lt; lia).
    cbn [bind]. rewrite (IH (d + 1)) by lia.
    rewrite (seqZ_cons d (Z.of_nat (S n) + 1)) by lia.
    cbn [map]. rewrite <- app_assoc. cbn [app].
    replace (Z.pred (Z.of_nat (S n) + 1)) with (Z.of_nat n + 1) by lia.
    replace (Z.succ d) with (d + 1) by lia. reflexivity.
Qed.

Lemma get_days_in_month_listable (fuel : nat) (cache : gset date)
    (year month : Z) :
  listable year month -> (32 <= fuel)%nat ->
  get_days_in_month fuel cache year month
  = Returns (map (day_entry cache) (month_dates year month)).
Proof.
  intros Hl Hfuel. unfold get_days_in_month.
  rewrite (month_bounds_listable _ _ Hl). cbn [bind].
  destruct Hl as (Hy & Hm & Hlast).
  pose proof (days_in_month_bounds year month Hm) as Hd.
  rewrite (days_loop_month cache year month (conj Hy (conj Hm Hlast))
             (Z.to_nat (Calendar.days_in_month year month - 1)) 1)
    by lia.
  cbn [app]. unfold month_dates. rewrite map_map.
  replace (Z.of_nat (Z.to_nat (Calendar.days_in_month year month - 1)) + 1)
    with (Calendar.days_in_month year month) by lia.
  reflexivity.
Qed.

Lemma entries_of_snoc (t : DayType) (days : list DayEntry) (e : DayEntry) :
  entries_of t (days ++ [e])
  = entries_of t days + (if same_type (entry_type e) t then 1 else 0).
Proof.
  unfold entries_of. rewrite count_snoc.
  destruct (same_type (entry_type e) t); lia.
Qed.

(** The two loops run in step: the counter of the first is the number of
    [workday] entries of the second. *)
Lemma loops_in_step (cache : gset date) (last_day : date) (fuel : nat) :
  forall (current : date) (workdays : Z) (days : list DayEntry),
    workdays_loop fuel cache current last_day
      (workdays + entries_of workday days)
    = run_map (fun ds => workdays + entries_of workday ds)
        (days_loop fuel cache current last_day days).
Proof.
  induction fuel as [|fuel IH]; intros current workdays days; [reflexivity|].
  cbn [workdays_loop days_loop].
  destruct (date_le current last_day); [|reflexivity].
  destruct (plus_one_day current) as [next| |]; [|reflexivity|reflexivity].
  cbn [bind]. rewrite <- IH. f_equal.
  rewrite entries_of_snoc. unfold day_entry. cbn [entry_type].
  destruct (get_day_type cache current); cbn [same_type]; lia.
Qed.

Lemma workdays_of_days (fuel : nat) (cache : gset date) (year month : Z) :
  get_workdays_in_month fuel cache year month
  = run_map (entries_of workday) (get_days_in_month fuel cache year month).
Proof.
  unfold get_workdays_in_month, get_days_in_month.
  destruct (month_bounds year month) as [[first_day last_day]| |];
    [|reflexivity|reflexivity].
  cbn [bind].
  exact (loops_in_step cache last_day fuel first_day 0 []).
Qed.

Lemma entries_of_dates (t : DayType) (cache : gset date) (ds : list date) :
  entries_of t (map (day_entry cache) ds) = dates_of t cache ds.
Proof.
  unfold entries_of, dates_of. f_equal.
  induction ds as [|d ds IH]; [reflexivity|].
  cbn [map]. rewrite !count_cons, IH. reflexivity.
Qed.

Lemma get_workdays_in_month_listable (fuel : nat) (cache : gset date)
    (year month : Z) :
  listable year month -> (32 <= fuel)%nat ->
  get_workdays_in_month fuel cache year month
  = Returns (dates_of workday cache (month_dates year month)).
Proof.
  intros Hl Hfuel. rewrite workdays_of_days.
  rewrite (get_days_in_month_listable _ _ _ _ Hl Hfuel).
  cbn [run_map bind]. rewrite entries_of_dates. reflexivity.
Qed.

(** The same for the entries whose flag [is_weekend] is not set. *)
Lemma loops_in_step_flag (cache : gset date) (last_day : date) (fuel : nat) :
  forall (current : date) (workdays : Z) (days : list DayEntry),
    workdays_loop fuel cache current last_day (workdays + unflagged days)
    = run_map (fun ds => workdays + unflagged ds)
        (days_loop fuel cache current last_day days).
Proof.
  induction fuel as [|fuel IH]; intros current workdays days; [reflexivity|].
  cbn [workdays_loop days_loop].
  destruct (date_le current last_day); [|reflexivity].
  destruct (plus_one_day current) as [next| |]; [|reflexivity|reflexivity].
  cbn [bind]. rewrite <- IH. f_equal.
  unfold unflagged. rewrite count_snoc. unfold day_entry.
  cbn [entry_is_weekend].
  destruct (get_day_type cache current); cbn [negb]; lia.
Qed.

Lemma workdays_of_flags (fuel : nat) (cache : gset date) (year month : Z) :
  get_workdays_in_month fuel cache year month
  = run_map unflagged (get_days_in_month fuel cache year month).
Proof.
  unfold get_workdays_in_month, get_days_in_month.
  destruct (month_bounds year month) as [[first_day last_day]| |];
    [|reflexivity|reflexivity].
  cbn [bind].
  exact (loops_in_step_flag cache last_day fuel first_day 0 []).
Qed.

Lemma count_map {A B : Type} (f : A -> B) (p : B -> bool) (l : list A) :
  count p (map f l) = count (fun x => p (f x)) l.
Proof.
  induction l as [|x l IH]; [reflexivity|].
  cbn [map]. rewrite !count_cons, IH. reflexivity.
Qed.

Lemma count_ext_in {A : Type} (p q : A -> bool) (l : list A) :
  (forall x, In x l -> p x = q x) -> count p l = count q l.
Proof.
  induction l as [|x l IH]; intros H; [reflexivity|].
  rewrite !count_cons, (H x (or_introl eq_refl)), IH; [reflexivity|].
  intros y Hy. apply H. right. exact Hy.
Qed.

Lemma count_le {A : Type} (p q : A -> bool) (l : list A) :
  (forall x, In x l -> p x = true -> q x = true) ->
  (count p l <= count q l)%nat.
Proof.
  induction l as [|x l IH]; intros H; [apply le_n|].
  rewrite !count_cons.
  assert (Hl : (count p l <= count q l)%nat)
    by (apply IH; intros y Hy; apply H; right; exact Hy).
  pose proof (H x (or_introl eq_refl)) as Hx.
  destruct (p x), (q x); first [lia | discriminate (Hx eq_refl)].
Qed.

Lemma count_le_length {A : Type} (p : A -> bool) (l : list A) :
  (count p l <= length l)%nat.
Proof.
  induction l as [|x l IH]; [apply le_n|].
  rewrite count_cons. cbn [length]. destruct (p x); lia.
Qed.

(** Two tests that differ on one element of a list without repetition. *)
Lemma count_flip {A : Type} (p q : A -> bool) (h : A) (l : list A) :
  List.NoDup l -> In h l -> p h = true -> q h = false ->
  (forall x, In x l -> x <> h -> p x = q x) ->
  count p l = S (count q l).
Proof.
  intros Hnd. induction Hnd as [|x l Hx Hnd IH]; intros Hin Hp Hq Hext.
  - destruct Hin.
  - rewrite !count_cons. destruct Hin as [->|Hin].
    + rewrite Hp, Hq. cbn. f_equal. apply count_ext_in.
      intros y Hy. apply Hext; [right; exact Hy|].
      intros ->. exact (Hx Hy).
    + assert (Hne : x <> h) by (intros ->; exact (Hx Hin)).
      rewrite (Hext x (or_introl eq_refl) Hne), IH; [lia|exact Hin| | |];
        try assumption.
      intros y Hy. apply Hext. right. exact Hy.
Qed.

Lemma month_dates_NoDup (year month : Z) : List.NoDup (month_dates year month).
Proof.
  unfold month_dates. apply Finite.Injective_map_NoDup.
  - intros a b [= ->]. reflexivity.
  - apply NoDup_ListNoDup, NoDup_seqZ.
Qed.

Lemma in_month_dates (year month : Z) (h : date) :
  In h (month_dates year month)
  <-> date_year h = year /\ date_month h = month
      /\ 1 <= date_day h <= Calendar.days_in_month year month.
Proof.
  unfold month_dates. rewrite in_map_iff. split.
  - intros (d & <- & Hd). apply list_elem_of_In, elem_of_seqZ in Hd.
    cbn. lia.
  - destruct h as [[y m] d]. cbn. intros (-> & -> & Hd).
    exists d. split; [reflexivity|].
    apply list_elem_of_In, elem_of_seqZ. lia.
Qed.

Lemma date_weekday_in_month (year month day : Z) :
  date_weekday (year, month, day)
  = (date_weekday (year, month, 1) + (day - 1)) mod 7.
Proof.
  unfold date_weekday, toordinal. cbn [date_year date_month date_day fst snd].
  rewrite Z.add_mod_idemp_l by lia. f_equal. lia.
Qed.

Lemma date_weekday_range (d : date) : 0 <= date_weekday d < 7.
Proof. unfold date_weekday. apply Z.mod_pos_bound. lia. Qed.

(** The number of days from Monday to Friday among the [n] days that follow
    a day of the week [w]. *)
Lemma weekdays_of_a_month (w n : Z) :
  0 <= w < 7 -> 28 <= n <= 31 ->
  20 <= Z.of_nat (count (fun d => negb (5 <=? (w + (d - 1)) mod 7))
                    (seqZ 1 n)) <= 23.
Proof.
  intros Hw Hn.
  assert (Hw' : w = 0 \/ w = 1 \/ w = 2 \/ w = 3 \/ w = 4 \/ w = 5 \/ w = 6)
    by lia.
  assert (Hn' : n = 28 \/ n = 29 \/ n = 30 \/ n = 31) by lia.
  destruct Hw' as [->|[->|[->|[->|[->|[->| ->]]]]]];
    destruct Hn' as [->|[->|[-> | ->]]];
    match goal with
    | |- _ <= Z.of_nat ?c <= _ =>
        let v := eval vm_compute in c in change c with v
    end; lia.
Qed.

Lemma is_holiday_empty (d : date) : is_holiday ∅ d = false.
Proof.
  unfold is_holiday. apply bool_decide_eq_false, not_elem_of_empty.
Qed.

Lemma plain_workdays (year month : Z) :
  dates_of workday ∅ (month_dates year month)
  = Z.of_nat
      (count (fun d => negb (5 <=? (date_weekday (year, month, 1) + (d - 1))
                                    mod 7))
         (seqZ 1 (Calendar.days_in_month year month))).
Proof.
  unfold dates_of, month_dates. f_equal. rewrite count_map.
  apply count_ext_in. intros d _. unfold get_day_type.
  rewrite is_holiday_empty, date_weekday_in_month.
  destruct (5 <=? _); reflexivity.
Qed.

Lemma workdays_le_plain (cache : gset date) (ds : list date) :
  dates_of workday cache ds <= dates_of workday ∅ ds.
Proof.
  unfold dates_of. apply Nat2Z.inj_le, count_le.
  intros d _. unfold get_day_type. rewrite is_holiday_empty.
  destruct (is_holiday cache d); [discriminate|]. exact (fun H => H).
Qed.

Lemma elem_of_get_holidays (cache : gset date) (year month : Z) (h : date) :
  h ∈ get_holidays cache (Some year) (Some month)
  <-> h ∈ cache /\ date_year h = year /\ date_month h = month.
Proof.
  unfold get_holidays. rewrite elem_of_filter. unfold kept.
  rewrite !negb_involutive, andb_true_iff, !Z.eqb_eq. tauto.
Qed.

Lemma workdays_without_holidays (cache : gset date) (year month : Z) :
  get_holidays cache (Some year) (Some month) = ∅ ->
  dates_of workday cache (month_dates year month)
  = dates_of workday ∅ (month_dates year month).
Proof.
  intros He. unfold dates_of. f_equal. apply count_ext_in.
  intros d Hd. apply in_month_dates in Hd. destruct Hd as (Hy & Hm & _).
  unfold get_day_type. rewrite is_holiday_empty.
  replace (is_holiday cache d) with false; [reflexivity|].
  symmetry. apply bool_decide_eq_false. intros Hin.
  assert (Hg : d ∈ get_holidays cache (Some year) (Some month))
    by (apply elem_of_get_holidays; auto).
  rewrite He in Hg. exact (not_elem_of_empty _ Hg).
Qed.

Lemma get_day_type_added (cache : gset date) (h d : date) :
  d <> h ->
  get_day_type ({[h]} ∪ cache) d = get_day_type cache d.
Proof.
  intros Hne. unfold get_day_type, is_holiday.
  replace (bool_decide (d ∈ {[h]} ∪ cache)) with (bool_decide (d ∈ cache));
    [reflexivity|].
  apply bool_decide_ext. rewrite elem_of_union, elem_of_singleton. tauto.
Qed.

Lemma get_day_type_new (cache : gset date) (h : date) :
  get_day_type ({[h]} ∪ cache) h = holiday.
Proof.
  unfold get_day_type, is_holiday. rewrite bool_decide_eq_true_2; [reflexivity|].
  apply elem_of_union_l, elem_of_singleton. reflexivity.
Qed.

(** The arithmetic of dates is that of their ordinals: one day later is the
    next ordinal, and a date of the calendar is followed and preceded by
    dates of the calendar. *)
Lemma days_before_next_month (year month : Z) :
  1 <= month <= 11 ->
  Calendar.days_before_month year (month + 1)
  = Calendar.days_before_month year month + Calendar.days_in_month year month.
Proof.
  intros Hm.
  assert (H : month = 1 \/ month = 2 \/ month = 3 \/ month = 4 \/ month = 5
              \/ month = 6 \/ month = 7 \/ month = 8 \/ month = 9
              \/ month = 10 \/ month = 11) by lia.
  destruct H as [->|[->|[->|[->|[->|[->|[->|[->|[->|[->| ->]]]]]]]]]];
    cbv -[Calendar.is_leap]; destruct (Calendar.is_leap year); reflexivity.
Qed.

Lemma days_before_next_year (year : Z) :
  Calendar.days_before_year (year + 1)
  = Calendar.days_before_year year + Calendar.days_before_month year 12 + 31.
Proof.
  unfold Calendar.days_before_year.
  replace (Calendar.days_before_month year 12)
    with (if Calendar.is_leap year then 335 else 334)
    by (cbv -[Calendar.is_leap]; destruct (Calendar.is_leap year);
        reflexivity).
  unfold Calendar.is_leap.
  replace (year + 1 - 1) with year by lia.
  destruct (Z.eqb_spec (year mod 4) 0) as [E4|E4];
    destruct (Z.eqb_spec (year mod 100) 0) as [E100|E100];
    destruct (Z.eqb_spec (year mod 400) 0) as [E400|E400];
    cbn [andb orb negb]; Z.div_mod_to_equations; lia.
Qed.

Lemma plus_one_day_ordinal (d next : date) :
  Calendar.valid_date (date_year d) (date_month d) (date_day d) = true ->
  plus_one_day d = Returns next ->
  toordinal next = toordinal d + 1
  /\ Calendar.valid_date (date_year next) (date_month next) (date_day next)
     = true.
Proof.
  destruct d as [[y m] dd]. cbn [date_year date_month date_day fst snd].
  intros Hv. apply valid_date_elim in Hv. destruct Hv as (Hy & Hm & Hd).
  unfold plus_one_day.
  destruct (Z.ltb_spec dd (Calendar.days_in_month y m)) as [Hlt|Hge].
  - intros [= <-]. unfold toordinal.
    cbn [date_year date_month date_day fst snd].
    split; [lia|apply valid_date_intro; lia].
  - destruct (Z.ltb_spec m 12) as [Hm12|Hm12].
    + intros [= <-]. unfold toordinal.
      cbn [date_year date_month date_day fst snd].
      pose proof (days_in_month_bounds y (m + 1)).
      split; [rewrite days_before_next_month by lia; lia
             |apply valid_date_intro; lia].
    + destruct (Z.ltb_spec y 9999) as [Hy9|Hy9]; [|discriminate].
      intros [= <-]. unfold toordinal.
      cbn [date_year date_month date_day fst snd].
      assert (m = 12) as -> by lia.
      replace (Calendar.days_in_month y 12) with 31 in * by reflexivity.
      replace (Calendar.days_before_month (y + 1) 1) with 0 by reflexivity.
      split; [rewrite days_before_next_year; lia
             |apply valid_date_intro; cbn; lia].
Qed.

Lemma minus_one_day_ordinal (d prev : date) :
  Calendar.valid_date (date_year d) (date_month d) (date_day d) = true ->
  minus_one_day d = Returns prev ->
  toordinal prev = toordinal d - 1
  /\ Calendar.valid_date (date_year prev) (date_month prev) (date_day prev)
     = true.
Proof.
  destruct d as [[y m] dd]. cbn [date_year date_month date_day fst snd].
  intros Hv. apply valid_date_elim in Hv. destruct Hv as (Hy & Hm & Hd).
  unfold minus_one_day.
  destruct (Z.ltb_spec 1 dd) as [Hlt|Hge].
  - intros [= <-]. unfold toordinal.
    cbn [date_year date_month date_day fst snd].
    split; [lia|apply valid_date_intro; lia].
  - destruct (Z.ltb_spec 1 m) as [Hm1|Hm1].
    + intros [= <-]. unfold toordinal.
      cbn [date_year date_month date_day fst snd].
      pose proof (days_in_month_bounds y (m - 1)).
      pose proof (days_before_next_month y (m - 1)) as Hs.
      replace (m - 1 + 1) with m in Hs by lia.
      split; [rewrite Hs by lia; lia|apply valid_date_intro; lia].
    + destruct (Z.ltb_spec 1 y) as [Hy1|Hy1]; [|discriminate].
      intros [= <-]. unfold toordinal.
      cbn [date_year date_month date_day fst snd].
      assert (m = 1) as -> by lia.
      pose proof (days_before_next_year (y - 1)) as Hs.
      replace (y - 1 + 1) with y in Hs by lia.
      replace (Calendar.days_before_month y 1) with 0 by reflexivity.
      split; [rewrite Hs; lia|apply valid_date_intro; cbn; lia].
Qed.

End CalendarFacts.

(** Extra X19.  For every month the calendar of [datetime] can list, that is
    a month of the years 1 to 9999 other than December 9999,
    [get_days_in_month] returns one entry per day of the month, in order from
    day 1 to the last day, each with the type [get_day_type] gives that
    date; the list has between 28 and 31 entries. *)
Theorem month_is_listed_day_by_day (fuel : nat)
    (cache : gset CalendarManager.date) (year month : Z) :
  listable year month -> (32 <= fuel)%nat ->
  exists days,
    CalendarManager.get_days_in_month fuel cache year month
    = CalendarManager.Returns days
    /\ days = map (CalendarManager.day_entry cache) (month_dates year month)
    /\ map CalendarManager.entry_day days
       = seqZ 1 (Calendar.days_in_month year month)
    /\ (28 <= length days <= 31)%nat.
Proof.
  intros Hl Hfuel. eexists. split; [|split; [reflexivity|split]].
  - apply get_days_in_month_listable; assumption.
  - unfold month_dates. rewrite !map_map. cbn. apply map_id.
  - destruct Hl as (_ & Hm & _).
    pose proof (days_in_month_bounds year month Hm).
    unfold month_dates. rewrite !length_map, length_seqZ. lia.
Qed.

(** Witness of [month_is_listed_day_by_day]. *)
Lemma month_is_listed_day_by_day_witness :
  exists days,
    CalendarManager.get_days_in_month 32 {[ (2024, 2, 23) ]} 2024 2
    = CalendarManager.Returns days
    /\ days = map (CalendarManager.day_entry {[ (2024, 2, 23) ]})
                (month_dates 2024 2)
    /\ map CalendarManager.entry_day days
       = seqZ 1 (Calendar.days_in_month 2024 2)
    /\ (28 <= length days <= 31)%nat.
Proof.
  apply (month_is_listed_day_by_day 32 {[ (2024, 2, 23) ]} 2024 2).
  - unfold listable. lia.
  - lia.
Defined.

(** Extra X20.  Both month methods raise [ValueError] exactly for the months
    the calendar of [datetime] cannot list although the year and the month
    are C [int]s: a year outside 1 to 9999, a month outside 1 to 12, and
    December 9999, whose last day the code computes from 1 January 10000.
    They raise [OverflowError] exactly when the year or the month is no C
    [int].  For any other month they return: with 32 tests of the loop
    condition neither loop is cut short. *)
Theorem month_methods_raise_outside_the_calendar (fuel : nat)
    (cache : gset CalendarManager.date) (year month : Z) :
  (32 <= fuel)%nat ->
  (CalendarManager.get_days_in_month fuel cache year month
   = CalendarManager.Raises CalendarManager.ValueErr
   <-> Calendar.c_ints year month 1 = true /\ ~ listable year month)
  /\ (CalendarManager.get_workdays_in_month fuel cache year month
      = CalendarManager.Raises CalendarManager.ValueErr
      <-> Calendar.c_ints year month 1 = true /\ ~ listable year month)
  /\ (CalendarManager.get_days_in_month fuel cache year month
      = CalendarManager.Raises CalendarManager.OverflowErr
      <-> Calendar.c_ints year month 1 = false)
  /\ (CalendarManager.get_workdays_in_month fuel cache year month
      = CalendarManager.Raises CalendarManager.OverflowErr
      <-> Calendar.c_ints year month 1 = false)
  /\ (listable year month ->
      exists days workdays,
        CalendarManager.get_days_in_month fuel cache year month
        = CalendarManager.Returns days
        /\ CalendarManager.get_workdays_in_month fuel cache year month
           = CalendarManager.Returns workdays).
Proof.
  intros Hfuel.
  assert (Hcases :
    (listable year month
     /\ CalendarManager.get_days_in_month fuel cache year month
        = CalendarManager.Returns
            (map (CalendarManager.day_entry cache) (month_dates year month))
     /\ CalendarManager.get_workdays_in_month fuel cache year month
        = CalendarManager.Returns
            (dates_of CalendarManager.workday cache (month_dates year month))
     /\ Calendar.c_ints year month 1 = true)
    \/ (~ listable year month /\ Calendar.c_ints year month 1 = true
        /\ CalendarManager.get_days_in_month fuel cache year month
           = CalendarManager.Raises CalendarManager.ValueErr
        /\ CalendarManager.get_workdays_in_month fuel cache year month
           = CalendarManager.Raises CalendarManager.ValueErr)
    \/ (~ listable year month /\ Calendar.c_ints year month 1 = false
        /\ CalendarManager.get_days_in_month fuel cache year month
           = CalendarManager.Raises CalendarManager.OverflowErr
        /\ CalendarManager.get_workdays_in_month fuel cache year month
           = CalendarManager.Raises CalendarManager.OverflowErr)).
  { assert (Hdec : listable year month \/ ~ listable year month)
      by (unfold listable; lia).
    destruct Hdec as [Hl|Hn].
    - left. split; [exact Hl|].
      split; [apply get_days_in_month_listable; assumption|].
      split; [apply get_workdays_in_month_listable; assumption|].
      apply listable_c_ints, Hl.
    - right. destruct (Calendar.c_ints year month 1) eqn:Hc.
      + left. split; [exact Hn|]. split; [reflexivity|].
        unfold CalendarManager.get_days_in_month,
          CalendarManager.get_workdays_in_month.
        rewrite (month_bounds_raises _ _ Hn Hc). split; reflexivity.
      + right. split; [exact Hn|]. split; [reflexivity|].
        unfold CalendarManager.get_days_in_month,
          CalendarManager.get_workdays_in_month.
        rewrite (month_bounds_overflows _ _ Hc). split; reflexivity. }
  destruct Hcases as [(Hl & Hd & Hw & Hc)|[(Hn & Hc & Hd & Hw)|(Hn & Hc & Hd & Hw)]];
    rewrite Hd, Hw, Hc.
  - split; [|split; [|split; [|split]]].
    + split; [discriminate | intros [_ H]; contradiction].
    + split; [discriminate | intros [_ H]; contradiction].
    + split; discriminate.
    + split; discriminate.
    + intros _. eauto.
  - split; [|split; [|split; [|split]]].
    + split; [intros _; split; [reflexivity | exact Hn] | reflexivity].
    + split; [intros _; split; [reflexivity | exact Hn] | reflexivity].
    + split; discriminate.
    + split; discriminate.
    + intros Hl. contradiction.
  - split; [|split; [|split; [|split]]].
    + split; [discriminate | intros [H _]; discriminate H].
    + split; [discriminate | intros [H _]; discriminate H].
    + split; reflexivity.
    + split; reflexivity.
    + intros Hl. contradiction.
Qed.

(** Witness of [month_methods_raise_outside_the_calendar]: December 9999,
    and January of the year 2147483648. *)
Lemma month_methods_raise_outside_the_calendar_witness :
  CalendarManager.get_days_in_month 32 ∅ 9999 12
  = CalendarManager.Raises CalendarManager.ValueErr
  /\ CalendarManager.get_workdays_in_month 32 ∅ 9999 12
     = CalendarManager.Raises CalendarManager.ValueErr
  /\ CalendarManager.get_days_in_month 32 ∅ 2147483648 1
     = CalendarManager.Raises CalendarManager.OverflowErr.
Proof.
  destruct (month_methods_raise_outside_the_calendar 32 ∅ 9999 12
              (le_n 32)) as (Hd & Hw & _).
  destruct (month_methods_raise_outside_the_calendar 32 ∅ 2147483648 1
              (le_n 32)) as (_ & _ & Ho & _).
  split; [|split].
  - apply Hd. split; [reflexivity|]. unfold listable. lia.
  - apply Hw. split; [reflexivity|]. unfold listable. lia.
  - apply Ho. reflexivity.
Defined.

(** Extra X21.  Whatever the arguments, the cache and the bound on the loop,
    [get_workdays_in_month] does what [get_days_in_month] does and, when that
    returns a list, returns the number of its entries of type [workday],
    which is also the number of its entries whose flag [is_weekend] is not
    set. *)
Theorem workdays_are_the_workday_entries (fuel : nat)
    (cache : gset CalendarManager.date) (year month : Z) :
  CalendarManager.get_workdays_in_month fuel cache year month
  = run_map (entries_of CalendarManager.workday)
      (CalendarManager.get_days_in_month fuel cache year month)
  /\ CalendarManager.get_workdays_in_month fuel cache year month
     = run_map unflagged
         (CalendarManager.get_days_in_month fuel cache year month).
Proof. split; [apply workdays_of_days|apply workdays_of_flags]. Qed.

(** Extra X22.  For a month the calendar can list, [get_workdays_in_month]
    returns a number between 0 and 23, whatever the holidays; when the cache
    holds no holiday of that month the number is at least 20. *)
Theorem workdays_of_a_month_are_bounded (fuel : nat)
    (cache : gset CalendarManager.date) (year month : Z) :
  listable year month -> (32 <= fuel)%nat ->
  exists workdays,
    CalendarManager.get_workdays_in_month fuel cache year month
    = CalendarManager.Returns workdays
    /\ 0 <= workdays <= 23
    /\ (CalendarManager.get_holidays cache (Some year) (Some month) = ∅ ->
        20 <= workdays).
Proof.
  intros Hl Hfuel. eexists. split; [|split].
  - apply get_workdays_in_month_listable; assumption.
  - destruct Hl as (_ & Hm & _).
    pose proof (days_in_month_bounds year month Hm) as Hd.
    pose proof (workdays_le_plain cache (month_dates year month)) as Hle.
    rewrite plain_workdays in Hle.
    pose proof (weekdays_of_a_month _ _
                  (date_weekday_range (year, month, 1)) Hd) as Hb.
    split; [unfold dates_of; lia|lia].
  - intros He. destruct Hl as (_ & Hm & _).
    pose proof (days_in_month_bounds year month Hm) as Hd.
    rewrite (workdays_without_holidays _ _ _ He), plain_workdays.
    apply (weekdays_of_a_month _ _
             (date_weekday_range (year, month, 1)) Hd).
Qed.

(** Witness of [workdays_of_a_month_are_bounded]. *)
Lemma workdays_of_a_month_are_bounded_witness :
  exists workdays,
    CalendarManager.get_workdays_in_month 32 {[ (2025, 5, 1) ]} 2025 5
    = CalendarManager.Returns workdays
    /\ 0 <= workdays <= 23
    /\ (CalendarManager.get_holidays {[ (2025, 5, 1) ]} (Some 2025) (Some 5)
        = ∅ -> 20 <= workdays).
Proof.
  apply (workdays_of_a_month_are_bounded 32 {[ (2025, 5, 1) ]} 2025 5).
  - unfold listable. lia.
  - lia.
Defined.

(** Extra X23.  Adding a holiday changes the number of workdays of a month
    by exactly this much: it goes down by one when the date lies in that
    month and was a workday, and stays the same in every other case (the
    date is in another month, falls on a weekend, or is a holiday
    already). *)
Theorem new_holiday_costs_one_workday (fuel : nat)
    (cache : gset CalendarManager.date) (year month : Z)
    (h : CalendarManager.date) :
  listable year month -> (32 <= fuel)%nat ->
  Calendar.valid_date (CalendarManager.date_year h)
    (CalendarManager.date_month h) (CalendarManager.date_day h) = true ->
  exists before after,
    CalendarManager.get_workdays_in_month fuel cache year month
    = CalendarManager.Returns before
    /\ CalendarManager.get_workdays_in_month fuel
         (CalendarManager.add_holiday cache h).2 year month
       = CalendarManager.Returns after
    /\ after
       = before
         - (if (CalendarManager.date_year h =? year)
               && (CalendarManager.date_month h =? month)
               && same_type (CalendarManager.get_day_type cache h)
                    CalendarManager.workday
            then 1 else 0).
Proof.
  intros Hl Hfuel Hv. eexists. eexists.
  split; [apply get_workdays_in_month_listable; assumption|].
  split; [apply get_workdays_in_month_listable; assumption|].
  apply valid_date_elim in Hv. destruct Hv as (_ & _ & Hday).
  unfold CalendarManager.add_holiday.
  destruct (decide (h ∈ cache)) as [Hin|Hout]; cbn [snd].
  - unfold CalendarManager.get_day_type, CalendarManager.is_holiday.
    rewrite (bool_decide_eq_true_2 _ Hin). cbn [same_type].
    rewrite andb_false_r. lia.
  - destruct ((CalendarManager.date_year h =? year)
              && (CalendarManager.date_month h =? month)
              && same_type (CalendarManager.get_day_type cache h)
                   CalendarManager.workday) eqn:E.
    + apply andb_prop in E. destruct E as [E Et].
      apply andb_prop in E. destruct E as [Ey Em].
      apply Z.eqb_eq in Ey. apply Z.eqb_eq in Em.
      assert (Hmem : In h (month_dates year month)).
      { apply in_month_dates. subst year month. auto. }
      unfold dates_of.
      rewrite (count_flip
                 (fun d => same_type (CalendarManager.get_day_type cache d)
                             CalendarManager.workday)
                 (fun d => same_type
                             (CalendarManager.get_day_type ({[h]} ∪ cache) d)
                             CalendarManager.workday)
                 h (month_dates year month)).
      * lia.
      * apply month_dates_NoDup.
      * exact Hmem.
      * exact Et.
      * rewrite get_day_type_new. reflexivity.
      * intros d _ Hne. rewrite (get_day_type_added _ _ _ Hne). reflexivity.
    + rewrite Z.sub_0_r. unfold dates_of. f_equal. apply count_ext_in.
      intros d Hd.
      destruct (decide (d = h)) as [->|Hne];
        [|rewrite (get_day_type_added _ _ _ Hne); reflexivity].
      apply in_month_dates in Hd. destruct Hd as (Hy & Hm & _).
      rewrite get_day_type_new.
      rewrite (proj2 (Z.eqb_eq _ _) Hy), (proj2 (Z.eqb_eq _ _) Hm) in E.
      cbn [andb] in E. rewrite E. reflexivity.
Qed.

(** Witness of [new_holiday_costs_one_workday]: Friday 9 May 2025. *)
Lemma new_holiday_costs_one_workday_witness :
  exists before after,
    CalendarManager.get_workdays_in_month 32 {[ (2025, 5, 1) ]} 2025 5
    = CalendarManager.Returns before
    /\ CalendarManager.get_workdays_in_month 32
         (CalendarManager.add_holiday {[ (2025, 5, 1) ]} (2025, 5, 9)).2
         2025 5
       = CalendarManager.Returns after
    /\ after
       = before
         - (if (CalendarManager.date_year (2025, 5, 9) =? 2025)
               && (CalendarManager.date_month (2025, 5, 9) =? 5)
               && same_type
                    (CalendarManager.get_day_type {[ (2025, 5, 1) ]}
                       (2025, 5, 9))
                    CalendarManager.workday
            then 1 else 0).
Proof.
  apply (new_holiday_costs_one_workday 32 {[ (2025, 5, 1) ]} 2025 5
           (2025, 5, 9)).
  - unfold listable. lia.
  - lia.
  - reflexivity.
Defined.

(** Extra X24.  [add_holiday] reports whether the date was absent and leaves
    it a holiday; adding it again reports [False] and changes nothing.
    [remove_holiday] after it reports [True], leaves the date no holiday and
    every other date as it was before the two calls; when the date was
    absent at first, the cache is the one before the two calls. *)
Theorem holiday_added_then_removed (cache : gset CalendarManager.date)
    (d : CalendarManager.date) :
  let added := CalendarManager.add_holiday cache d in
  let removed := CalendarManager.remove_holiday added.2 d in
  added.1 = negb (CalendarManager.is_holiday cache d)
  /\ CalendarManager.is_holiday added.2 d = true
  /\ CalendarManager.add_holiday added.2 d = (false, added.2)
  /\ removed.1 = true
  /\ CalendarManager.is_holiday removed.2 d = false
  /\ (forall d', d' <> d ->
        CalendarManager.is_holiday removed.2 d'
        = CalendarManager.is_holiday cache d')
  /\ (CalendarManager.is_holiday cache d = false -> removed.2 = cache).
Proof.
  cbv zeta.
  assert (Hin1 : d ∈ (CalendarManager.add_holiday cache d).2).
  { unfold CalendarManager.add_holiday.
    destruct (decide (d ∈ cache)) as [Hin|Hout]; cbn [snd]; [exact Hin|].
    apply elem_of_union_l, elem_of_singleton. reflexivity. }
  assert (Hrem : CalendarManager.remove_holiday
                   (CalendarManager.add_holiday cache d).2 d
                 = (true, (CalendarManager.add_holiday cache d).2 ∖ {[d]})).
  { unfold CalendarManager.remove_holiday at 1.
    destruct (decide (d ∈ (CalendarManager.add_holiday cache d).2));
      [reflexivity|contradiction]. }
  rewrite Hrem. cbn [fst snd]. repeat split.
  - unfold CalendarManager.add_holiday, CalendarManager.is_holiday.
    destruct (decide (d ∈ cache)) as [Hin|Hout]; cbn [fst].
    + rewrite (bool_decide_eq_true_2 _ Hin). reflexivity.
    + rewrite (bool_decide_eq_false_2 _ Hout). reflexivity.
  - apply bool_decide_eq_true_2. exact Hin1.
  - unfold CalendarManager.add_holiday at 1.
    destruct (decide (d ∈ (CalendarManager.add_holiday cache d).2));
      [reflexivity|contradiction].
  - apply bool_decide_eq_false_2. rewrite elem_of_difference, elem_of_singleton.
    intros [_ Hne]. exact (Hne eq_refl).
  - intros d' Hne. unfold CalendarManager.is_holiday. apply bool_decide_ext.
    rewrite elem_of_difference, elem_of_singleton.
    unfold CalendarManager.add_holiday.
    destruct (decide (d ∈ cache)) as [Hin|Hout]; cbn [snd].
    + tauto.
    + rewrite elem_of_union, elem_of_singleton. tauto.
  - intros Habs. apply bool_decide_eq_false in Habs.
    unfold CalendarManager.add_holiday.
    destruct (decide (d ∈ cache)) as [Hin|Hout]; [contradiction|].
    cbn [snd]. apply set_eq. intros x.
    rewrite elem_of_difference, elem_of_union, elem_of_singleton.
    split; [tauto|]. intros Hx. split; [right; exact Hx|].
    intros ->. contradiction.
Qed.

(** Extra X25.  On every date of the calendar the two classifiers of the code
    base agree once the parser is given the day numbers of the cached
    holidays of that year and month: [_classify_day] returns a day kind, and
    [get_day_type] answers [holiday] where it answers [holiday], [weekend]
    where it answers [sat] or [sun], and [workday] where it answers
    [weekday]. *)
Theorem calendar_and_parser_classify_alike
    (cache : gset CalendarManager.date) (year month day : Z) :
  Calendar.valid_date year month day = true ->
  exists kind,
    _classify_day year month day (holiday_days_of cache year month) = Ok kind
    /\ CalendarManager.get_day_type cache (year, month, day)
       = as_day_type kind.
Proof.
  intros Hv. unfold CalendarManager.get_day_type, _classify_day.
  unfold CalendarManager.is_holiday.
  assert (Hiff : (year, month, day) ∈ cache
                 <-> day ∈ holiday_days_of cache year month).
  { unfold holiday_days_of. rewrite elem_of_map. split.
    - intros Hin. exists (year, month, day). split; [reflexivity|].
      apply elem_of_get_holidays. auto.
    - intros ([[y m] d] & Hd & Hin). apply elem_of_get_holidays in Hin.
      cbn in Hd, Hin. destruct Hin as (Hin & -> & ->). subst d. exact Hin. }
  destruct (decide (day ∈ holiday_days_of cache year month)) as [Hd|Hd].
  - rewrite bool_decide_eq_true_2 by (apply Hiff; exact Hd).
    eexists. split; reflexivity.
  - rewrite bool_decide_eq_false_2 by (rewrite Hiff; exact Hd).
    rewrite (date_call_valid _ _ _ Hv), (weekday_valid _ _ _ Hv).
    change ((Calendar.days_before_year year
             + Calendar.days_before_month year month + day + 6) mod 7)
      with (CalendarManager.date_weekday (year, month, day)).
    pose proof (date_weekday_range (year, month, day)) as Hr.
    destruct (Z.leb_spec 5 (CalendarManager.date_weekday (year, month, day)))
      as [Hge|Hlt].
    + destruct (Z.eqb_spec (CalendarManager.date_weekday (year, month, day)) 5);
        [eexists; split; reflexivity|].
      destruct (Z.eqb_spec (CalendarManager.date_weekday (year, month, day)) 6);
        [eexists; split; reflexivity|lia].
    + destruct (Z.eqb_spec (CalendarManager.date_weekday (year, month, day)) 5);
        [lia|].
      destruct (Z.eqb_spec (CalendarManager.date_weekday (year, month, day)) 6);
        [lia|eexists; split; reflexivity].
Qed.

(** Witness of [calendar_and_parser_classify_alike]: 29 February 2024. *)
Lemma calendar_and_parser_classify_alike_witness :
  exists kind,
    _classify_day 2024 2 29
      (holiday_days_of {[ (2024, 2, 29); (2025, 2, 28) ]} 2024 2) = Ok kind
    /\ CalendarManager.get_day_type {[ (2024, 2, 29); (2025, 2, 28) ]}
         (2024, 2, 29)
       = as_day_type kind.
Proof.
  apply (calendar_and_parser_classify_alike
           {[ (2024, 2, 29); (2025, 2, 28) ]} 2024 2 29).
  reflexivity.
Defined.

(** Extra X26.  [validate_year_month] returns exactly for the years 2000 to
    2100 and the months 1 to 12; a year outside the range is reported before
    the month is looked at.  Every pair it accepts is a month the calendar
    manager lists: [get_days_in_month] returns a list with one entry per day
    of that month. *)
Theorem validated_month_gets_a_calendar (fuel : nat)
    (cache : gset CalendarManager.date) (year month : Z) :
  (32 <= fuel)%nat ->
  (Validation.validate_year_month year month = Ok tt
   <-> 2000 <= year <= 2100 /\ 1 <= month <= 12)
  /\ (~ 2000 <= year <= 2100 ->
      Validation.validate_year_month year month
      = ValueError "Год должен быть между 2000 и 2100")
  /\ (Validation.validate_year_month year month = Ok tt ->
      exists days,
        CalendarManager.get_days_in_month fuel cache year month
        = CalendarManager.Returns days
        /\ Z.of_nat (length days) = Calendar.days_in_month year month).
Proof.
  intros Hfuel.
  assert (Hok : Validation.validate_year_month year month = Ok tt
                <-> 2000 <= year <= 2100 /\ 1 <= month <= 12).
  { unfold Validation.validate_year_month, Validation.MIN_YEAR,
      Validation.MAX_YEAR.
    destruct (Z.leb_spec 2000 year), (Z.leb_spec year 2100);
      cbn [andb negb]; try (split; [discriminate|lia]).
    destruct (Z.leb_spec 1 month), (Z.leb_spec month 12);
      cbn [andb negb]; try (split; [discriminate|lia]).
    split; [lia|reflexivity]. }
  split; [exact Hok|]. split.
  - intros Hn. unfold Validation.validate_year_month, Validation.MIN_YEAR,
      Validation.MAX_YEAR.
    destruct (Z.leb_spec 2000 year), (Z.leb_spec year 2100);
      cbn [andb negb]; first [reflexivity | lia].
  - intros Hv. apply Hok in Hv. destruct Hv as [Hy Hm].
    assert (Hl : listable year month) by (unfold listable; lia).
    eexists. split; [apply get_days_in_month_listable; assumption|].
    pose proof (days_in_month_bounds year month Hm).
    unfold month_dates. rewrite !length_map, length_seqZ. lia.
Qed.

(** Witness of [validated_month_gets_a_calendar]. *)
Lemma validated_month_gets_a_calendar_witness :
  Validation.validate_year_month 2100 12 = Ok tt
  /\ Validation.validate_year_month 1999 13
     = ValueError "Год должен быть между 2000 и 2100"
  /\ exists days,
       CalendarManager.get_days_in_month 32 ∅ 2100 12
       = CalendarManager.Returns days
       /\ Z.of_nat (length days) = Calendar.days_in_month 2100 12.
Proof.
  destruct (validated_month_gets_a_calendar 32 ∅ 2100 12 (le_n 32))
    as (Hok & _ & Hcal).
  destruct (validated_month_gets_a_calendar 32 ∅ 1999 13 (le_n 32))
    as (_ & Hyear & _).
  split; [apply Hok; lia|]. split; [apply Hyear; lia|].
  apply Hcal. apply Hok. lia.
Defined.
